(** * domenai-cleanup: the .lt domain cleaner and the remove-domains utility

    A shallow embedding of [src/domain_cleaner.py] and
    [src/remove_domains.py], and the properties of their specification.

    Conventions of the embedding.
    - A Python [str] is a [string]; its characters are the code points
      U+0000..U+00FF, the code of a character being [N_of_ascii].  The
      character classes of Python ([str.isspace], [str.lower], [\w], [\d])
      are written out for that range.
    - A Python call that can raise is a computation in [outcome]; the
      only exception the modelled code can meet is [ValueError], raised by
      [urllib.parse.urlparse].
    - [tldextract.extract] and [urlparse] are library code outside the
      repository: the classifier is defined in a section over them, and
      executable models of both are given for the concrete scenarios. *)

From Stdlib Require Import Ascii NArith Bool Lia.
From stdpp Require Import base option list sorting gmap strings pretty.

Local Open Scope N_scope.

(** ** Python string primitives *)

Module Py.

Definition code (c : ascii) : N := N_of_ascii c.

Definition between (lo hi : N) (c : ascii) : bool :=
  (lo <=? code c) && (code c <=? hi).

(** The line feed and the one-character string holding it. *)
Definition LF : ascii := ascii_of_N 10.
Definition nl : string := String LF "".

(** [str.isspace] on U+0000..U+00FF: TAB..CR, FS..US, SPACE, NEL, NBSP. *)
Definition isspace (c : ascii) : bool :=
  between 9 13 c || between 28 32 c || (code c =? 133) || (code c =? 160).

(** [str.lower] on one character of U+0000..U+00FF: A-Z and the
    upper-case letters U+00C0..U+00DE (the sign U+00D7 is no letter). *)
Definition lower_char (c : ascii) : ascii :=
  if between 65 90 c || (between 192 222 c && negb (code c =? 215))
  then ascii_of_N (code c + 32) else c.

Fixpoint lower (s : string) : string :=
  match s with
  | EmptyString => EmptyString
  | String c s' => String (lower_char c) (lower s')
  end.

(** [s.lstrip(chars)] and [s.rstrip(chars)], the set [chars] as a
    predicate. *)
Fixpoint lstrip (p : ascii -> bool) (s : string) : string :=
  match s with
  | EmptyString => EmptyString
  | String c s' => if p c then lstrip p s' else s
  end.

Fixpoint rstrip (p : ascii -> bool) (s : string) : string :=
  match s with
  | EmptyString => EmptyString
  | String c s' =>
      match rstrip p s' with
      | EmptyString => if p c then EmptyString else String c EmptyString
      | r => String c r
      end
  end.

(** [s.strip()] *)
Definition strip (s : string) : string := lstrip isspace (rstrip isspace s).

(** [bool(s)]: a string is true when it is not empty. *)
Definition truthy (s : string) : bool :=
  match s with EmptyString => false | String _ _ => true end.

(** [s.startswith(p)] *)
Definition startswith (p s : string) : bool := String.prefix p s.

(** [s.endswith(p)]: some tail of [s] is [p]. *)
Fixpoint endswith (p s : string) : bool :=
  String.eqb p s ||
  match s with
  | EmptyString => false
  | String _ s' => endswith p s'
  end.

(** [p in s]: [p] starts at some position of [s]. *)
Fixpoint contains (p s : string) : bool :=
  String.prefix p s ||
  match s with
  | EmptyString => false
  | String _ s' => contains p s'
  end.

(** [s[n:]] *)
Fixpoint slice_from (n : nat) (s : string) : string :=
  match n, s with
  | O, _ => s
  | S _, EmptyString => EmptyString
  | S n', String _ s' => slice_from n' s'
  end.

(** [s[:n]] *)
Fixpoint slice_to (n : nat) (s : string) : string :=
  match n, s with
  | O, _ => EmptyString
  | S _, EmptyString => EmptyString
  | S n', String c s' => String c (slice_to n' s')
  end.

(** [s.split(sep)] for a one-character separator: never the empty
    list, [''.split('.')] is [['']]. *)
Fixpoint split (sep : ascii) (s : string) : list string :=
  match s with
  | EmptyString => [EmptyString]
  | String c s' =>
      if Ascii.eqb c sep then EmptyString :: split sep s'
      else match split sep s' with
           | l :: ls => String c l :: ls
           | [] => [String c EmptyString]
           end
  end.

(** [s.replace(c, '')] for a one-character [c], as a filter. *)
Fixpoint remove_chars (p : ascii -> bool) (s : string) : string :=
  match s with
  | EmptyString => EmptyString
  | String c s' => if p c then remove_chars p s' else String c (remove_chars p s')
  end.

(** [all(p(c) for c in s)] *)
Fixpoint all (p : ascii -> bool) (s : string) : bool :=
  match s with
  | EmptyString => true
  | String c s' => p c && all p s'
  end.

(** [x or y] on strings. *)
Definition or_else (x y : string) : string := if truthy x then x else y.

(** [sep.join(ls)] *)
Fixpoint join (sep : string) (ls : list string) : string :=
  match ls with
  | [] => EmptyString
  | [x] => x
  | x :: rest => x +:+ sep +:+ join sep rest
  end.

End Py.

(** ** Regular expressions: the fragment of [re] the cleaner uses *)

Module Re.

Inductive regex : Type :=
| Void
| Eps
| Class (p : ascii -> bool)
| Cat (r1 r2 : regex)
| Alt (r1 r2 : regex)
| Star (r : regex).

(** Derived forms: a literal character, [r+], a literal string, [r{n}]
    and [.] under [re.DOTALL]. *)
Definition Chr (c : ascii) : regex := Class (Ascii.eqb c).
Definition Plus (r : regex) : regex := Cat r (Star r).
Definition Any : regex := Class (fun _ => true).

Fixpoint Lit (s : string) : regex :=
  match s with
  | EmptyString => Eps
  | String c s' => Cat (Chr c) (Lit s')
  end.

Fixpoint Repeat (n : nat) (r : regex) : regex :=
  match n with
  | O => Eps
  | S n' => Cat r (Repeat n' r)
  end.

Fixpoint nullable (r : regex) : bool :=
  match r with
  | Void => false
  | Eps => true
  | Class _ => false
  | Cat r1 r2 => nullable r1 && nullable r2
  | Alt r1 r2 => nullable r1 || nullable r2
  | Star _ => true
  end.

Fixpoint deriv (c : ascii) (r : regex) : regex :=
  match r with
  | Void => Void
  | Eps => Void
  | Class p => if p c then Eps else Void
  | Cat r1 r2 =>
      if nullable r1 then Alt (Cat (deriv c r1) r2) (deriv c r2)
      else Cat (deriv c r1) r2
  | Alt r1 r2 => Alt (deriv c r1) (deriv c r2)
  | Star r1 => Cat (deriv c r1) (Star r1)
  end.

(** [accepts r s]: the whole of [s] is a word of [r]. *)
Fixpoint accepts (r : regex) (s : string) : bool :=
  match s with
  | EmptyString => nullable r
  | String c s' => accepts (deriv c r) s'
  end.

(** The words of a regular expression. *)
Inductive Matches : regex -> string -> Prop :=
| MEps : Matches Eps EmptyString
| MClass p c : p c = true -> Matches (Class p) (String c EmptyString)
| MCat r1 r2 s1 s2 :
    Matches r1 s1 -> Matches r2 s2 -> Matches (Cat r1 r2) (s1 +:+ s2)
| MAltL r1 r2 s : Matches r1 s -> Matches (Alt r1 r2) s
| MAltR r1 r2 s : Matches r2 s -> Matches (Alt r1 r2) s
| MStarNil r : Matches (Star r) EmptyString
| MStarApp r s1 s2 :
    Matches r s1 -> Matches (Star r) s2 -> Matches (Star r) (s1 +:+ s2).

(** A pattern of the source: every one starts with [^]; [dollar] says
    whether it ends with [$]. *)
Record pattern : Type := { body : regex; dollar : bool }.

(** [re.match(pattern, s)] as a truth value, without [re.MULTILINE].
    Without [$] a prefix of [s] has to match; [$] holds at the end of
    [s] and also just before a line feed that ends [s]. *)
Definition re_match (pat : pattern) (s : string) : bool :=
  if dollar pat
  then accepts (Cat (body pat) (Alt Eps (Chr Py.LF))) s
  else accepts (Cat (body pat) (Star Any)) s.

(** [\d] and [\w] of a [str] pattern on U+0000..U+00FF, [[a-zA-Z]]. *)
Definition digit (c : ascii) : bool := Py.between 48 57 c.

Definition ascii_letter (c : ascii) : bool :=
  Py.between 65 90 c || Py.between 97 122 c.

Definition word (c : ascii) : bool :=
  digit c || ascii_letter c || (Py.code c =? 95)
  || (Py.code c =? 170) || (Py.code c =? 178) || (Py.code c =? 179)
  || (Py.code c =? 181) || (Py.code c =? 185) || (Py.code c =? 186)
  || Py.between 188 190 c
  || Py.between 192 214 c || Py.between 216 246 c || Py.between 248 255 c.

End Re.

(** ** Exceptions *)

Inductive exn : Type := ValueError.

Inductive outcome (A : Type) : Type :=
| Returns (a : A)
| Raises (e : exn).
Arguments Returns {A} a.
Arguments Raises {A} e.

Global Instance outcome_ret : MRet outcome := fun A a => Returns a.
Global Instance outcome_bind : MBind outcome := fun A B f m =>
  match m with
  | Returns a => f a
  | Raises e => Raises e
  end.
Global Instance outcome_fmap : FMap outcome := fun A B f m =>
  match m with
  | Returns a => Returns (f a)
  | Raises e => Raises e
  end.

(** ** The domain cleaner, [src/domain_cleaner.py] *)

(** [tldextract.ExtractResult], the three fields the cleaner reads. *)
Record ExtractResult : Type := {
  subdomain : string;
  domain : string;
  suffix : string
}.

(** What [process_domain] returns: the pair [(domain, reason)], each
    component a string or [None]. *)
Definition result : Type := option string * option string.

Definition GOV_DOMAINS : gset string := {[ "lrv"; "edu"; "mil" ]}.
Definition GOV_SUFFIXES : gset string := {[ "lrv.lt"; "edu.lt"; "mil.lt"; "gov.lt" ]}.

(** [r'^[a-zA-Z]+://'] *)
Definition scheme_pattern : Re.pattern :=
  {| Re.body := Re.Cat (Re.Plus (Re.Class Re.ascii_letter)) (Re.Lit "://");
     Re.dollar := false |}.

(** [r'^\d+(\.\d+){3}$'] *)
Definition ip_pattern : Re.pattern :=
  {| Re.body := Re.Cat (Re.Plus (Re.Class Re.digit))
                  (Re.Repeat 3 (Re.Cat (Re.Chr ".") (Re.Plus (Re.Class Re.digit))));
     Re.dollar := true |}.

(** [r'^[\w\-.]+$'] with [re.UNICODE] *)
Definition chars_pattern : Re.pattern :=
  {| Re.body := Re.Plus (Re.Class (fun c => Re.word c || Ascii.eqb c "-" || Ascii.eqb c "."));
     Re.dollar := true |}.

(** The loop of [is_valid_domain_length] over the labels. *)
Fixpoint length_labels (labels : list string) : bool * option string :=
  match labels with
  | [] => (true, None)
  | label :: rest =>
      if (String.length label =? 1)%nat then (false, Some "single character label")
      else if (63 <? String.length label)%nat then (false, Some "label exceeds 63 characters")
      else length_labels rest
  end.

Definition is_valid_domain_length (domain : string) : bool * option string :=
  length_labels (Py.split "." domain).

(** The loop of [is_valid_hyphen_rules] over the labels. *)
Fixpoint hyphen_labels (labels : list string) : bool * option string :=
  match labels with
  | [] => (true, None)
  | label :: rest =>
      if Py.startswith "-" label then (false, Some "hyphen at start of label")
      else if Py.endswith "-" label then (false, Some "hyphen at end of label")
      else if Py.contains "--" label then (false, Some "consecutive hyphens")
      else hyphen_labels rest
  end.

Definition is_valid_hyphen_rules (domain : string) : bool * option string :=
  hyphen_labels (Py.split "." domain).

Section Cleaner.

(** [urlparse(url).netloc], or the exception [urlparse] raises. *)
Variable urlparse_netloc : string -> outcome string.

(** [tldextract.extract], the public-suffix resolver. *)
Variable extract : string -> ExtractResult.

(** [process_domain], from "Strip trailing dots" to "Remove www.
    prefix": the working string [cleaned] after these three steps. *)
Definition normalize (cleaned : string) : outcome string :=
  let cleaned := Py.rstrip (Ascii.eqb ".") cleaned in
  cleaned ← (if Re.re_match scheme_pattern cleaned
             then netloc ← urlparse_netloc cleaned;
                  mret (Py.or_else netloc cleaned)
             else mret cleaned);
  mret (if Py.startswith "www." (Py.lower cleaned)
        then Py.slice_from 4 cleaned
        else cleaned).

(** [process_domain], from the test of [ext.domain] and [ext.suffix]
    to the end. *)
Definition classify (ext : ExtractResult) : result :=
  if negb (Py.truthy (domain ext)) || negb (Py.truthy (suffix ext))
  then (None, Some "invalid domain/suffix")
  else
    let suffix_ := suffix ext in
    let domain_ := domain ext +:+ "." +:+ suffix_ in
    if bool_decide (suffix_ ∈ GOV_SUFFIXES)
       || (String.eqb suffix_ "lt" && bool_decide (domain ext ∈ GOV_DOMAINS))
    then
      let domain_ :=
        if Py.truthy (subdomain ext) then subdomain ext +:+ "." +:+ domain_
        else domain_ in
      match is_valid_domain_length domain_ with
      | (false, reason) => (None, reason)
      | (true, _) =>
          match is_valid_hyphen_rules domain_ with
          | (false, reason) => (None, reason)
          | (true, _) => (Some domain_, None)
          end
      end
    else if String.eqb suffix_ "lt" then
      if Py.truthy (subdomain ext) then (None, Some "non-govt subdomain")
      else
        match is_valid_domain_length domain_ with
        | (false, reason) => (None, reason)
        | (true, _) =>
            match is_valid_hyphen_rules domain_ with
            | (false, reason) => (None, reason)
            | (true, _) => (Some domain_, None)
            end
        end
    else (None, Some "non-.lt domain").

(** [process_domain(raw)]; [raw] is [None] or a string. *)
Definition process_domain (raw : option string) : outcome result :=
  match raw with
  | None => mret (None, Some "empty")
  | Some raw =>
      let cleaned := Py.strip raw in
      if negb (Py.truthy cleaned) then mret (None, Some "empty line")
      else
        cleaned ← normalize cleaned;
        if Re.re_match ip_pattern cleaned then mret (None, Some "ip address")
        else if negb (Re.re_match chars_pattern cleaned)
        then mret (None, Some "invalid characters")
        else
          let cleaned := Py.lower cleaned in
          let ext := extract cleaned in
          mret (classify ext)
  end.

(** *** The batch driver [clean_domains] *)

(** The local variables of [clean_domains] that its loop updates. *)
Record driver : Type := {
  cleaned : gset string;
  errors : list (nat * string * option string);
  processed_count : nat;
  skipped_count : nat;
  line_count : nat
}.

Definition driver_init : driver :=
  {| cleaned := ∅; errors := []; processed_count := 0; skipped_count := 0;
     line_count := 0 |}.

(** One turn of [for line in f]; the progress notice is not modelled. *)
Definition driver_step (st : driver) (line : string) : outcome driver :=
  let line_count := S (line_count st) in
  let raw_line := Py.rstrip (Ascii.eqb Py.LF) line in
  if negb (Py.truthy (Py.strip raw_line))
  then mret {| cleaned := cleaned st; errors := errors st;
               processed_count := processed_count st;
               skipped_count := skipped_count st;
               line_count := line_count |}
  else
    let processed_count := S (processed_count st) in
    r ← process_domain (Some raw_line);
    let '(domain, reason) := r in
    if from_option Py.truthy false domain
    then mret {| cleaned := cleaned st ∪ {[ Py.lower (default "" domain) ]};
                 errors := errors st;
                 processed_count := processed_count;
                 skipped_count := skipped_count st;
                 line_count := line_count |}
    else mret {| cleaned := cleaned st;
                 errors := errors st ++ [(line_count, raw_line, reason)];
                 processed_count := processed_count;
                 skipped_count := S (skipped_count st);
                 line_count := line_count |}.

Fixpoint driver_loop (st : driver) (lines : list string) : outcome driver :=
  match lines with
  | [] => mret st
  | line :: rest => st' ← driver_step st line; driver_loop st' rest
  end.

(** [sorted(cleaned)]: the elements of the set in ascending order of
    [str], which compares code point by code point. *)
Definition sorted (s : gset string) : list string :=
  merge_sort String.le (elements s).

(** [str(reason)] inside the f-string of the error log. *)
Definition reason_text (reason : option string) : string :=
  default "None" reason.

Definition error_line (e : nat * string * option string) : string :=
  let '(line_num, line_val, reason) := e in
  "Line " +:+ pretty line_num +:+ ": " +:+ reason_text reason +:+ " | "
    +:+ line_val +:+ Py.nl.

(** What a run leaves behind: the strings written to
    [assets/output.txt] and to [assets/errors.txt], and the final values
    of the local variables. *)
Record files : Type := {
  output_file : list string;
  errors_file : list string;
  final : driver
}.

(** [clean_domains()]. The argument is the sequence of lines that
    iterating over [assets/input.txt] gives, [None] when that file does
    not exist; then nothing is written. *)
Definition clean_domains (input : option (list string)) : outcome (option files) :=
  match input with
  | None => mret None
  | Some lines =>
      st ← driver_loop driver_init lines;
      mret (Some {|
        output_file := (fun domain => domain +:+ Py.nl) <$> sorted (cleaned st);
        errors_file :=
          error_line <$>
            filter (fun e => e.2 ≠ Some "empty line") (errors st);
        final := st |})
  end.

End Cleaner.

(** ** The remove-domains utility, [src/remove_domains.py] *)

(** The first loop: [excluded_domains]. *)
Definition load_removees (lines : list string) : gset string :=
  foldl (fun excluded line =>
           let domain := Py.strip line in
           if Py.truthy domain then excluded ∪ {[ domain ]} else excluded)
        ∅ lines.

(** The second loop: [filtered_domains]. *)
Definition filter_domains (excluded : gset string) (lines : list string) : list string :=
  foldl (fun filtered line =>
           let domain := Py.strip line in
           if Py.truthy domain && negb (bool_decide (domain ∈ excluded))
           then filtered ++ [domain] else filtered)
        [] lines.

(** [remove_domains()]. The arguments are the lines of
    [assets/input-all.txt] and of [assets/input-removees.txt], [None] for
    a file that does not exist; the value is the sequence of strings
    written to [assets/output-removed.txt], [None] when the function
    returns before writing. *)
Definition remove_domains (input_all input_removees : option (list string))
  : option (list string) :=
  match input_all with
  | None => None
  | Some all_lines =>
      match input_removees with
      | None => None
      | Some removee_lines =>
          let excluded_domains := load_removees removee_lines in
          let filtered_domains := filter_domains excluded_domains all_lines in
          Some ((fun domain => domain +:+ Py.nl) <$> filtered_domains)
      end
  end.

(** ** Executable models of the two library calls *)

(** [urllib.parse.urlsplit], the computation of [netloc], for a [str]
    of U+0000..U+00FF (CPython 3.11, [Lib/urllib/parse.py]).  The two
    checks that follow a netloc holding both [[] and []]
    ([_check_bracketed_netloc]) or a non-ASCII character ([_checknetloc])
    are not part of the model: the first can only raise more often, the
    second never raises in this range of characters. *)
Module Urllib.

(** [_WHATWG_C0_CONTROL_OR_SPACE] *)
Definition c0_control_or_space (c : ascii) : bool := Py.code c <=? 32.

(** [_UNSAFE_URL_BYTES_TO_REMOVE] *)
Definition unsafe_byte (c : ascii) : bool :=
  (Py.code c =? 9) || (Py.code c =? 13) || (Py.code c =? 10).

(** [scheme_chars] *)
Definition scheme_char (c : ascii) : bool :=
  Re.ascii_letter c || Re.digit c
  || Ascii.eqb c "+" || Ascii.eqb c "-" || Ascii.eqb c ".".

(** [s.find(c)] *)
Fixpoint find (c : ascii) (s : string) : option nat :=
  match s with
  | EmptyString => None
  | String d s' => if Ascii.eqb d c then Some O else S <$> find c s'
  end.

(** The prefix of [s] before the first character in [p]; on
    [url[2:]] this is the netloc that [_splitnetloc(url, 2)] cuts. *)
Fixpoint take_until (p : ascii -> bool) (s : string) : string :=
  match s with
  | EmptyString => EmptyString
  | String c s' => if p c then EmptyString else String c (take_until p s')
  end.

Definition delimiter (c : ascii) : bool :=
  Ascii.eqb c "/" || Ascii.eqb c "?" || Ascii.eqb c "#".

Definition first_is_letter (s : string) : bool :=
  match s with
  | EmptyString => false
  | String c _ => Re.ascii_letter c
  end.

Definition urlsplit_netloc (url : string) : outcome string :=
  let url := Py.lstrip c0_control_or_space url in
  let url := Py.remove_chars unsafe_byte url in
  let url :=
    match find ":" url with
    | Some (S i) =>
        if first_is_letter url && Py.all scheme_char (Py.slice_to (S i) url)
        then Py.slice_from (S (S i)) url
        else url
    | _ => url
    end in
  if String.eqb (Py.slice_to 2 url) "//" then
    let netloc := take_until delimiter (Py.slice_from 2 url) in
    if (Py.contains "[" netloc && negb (Py.contains "]" netloc))
       || (Py.contains "]" netloc && negb (Py.contains "[" netloc))
    then Raises ValueError
    else Returns netloc
  else Returns EmptyString.

End Urllib.

(** [tldextract.extract] reduced to its split at the longest public
    suffix, over a list of suffix rules without wildcards or exceptions.
    A host none of whose suffixes is a rule gets an empty suffix and its
    last label as domain. *)
Module Tld.

(** The number of leading labels that are not part of the suffix. *)
Fixpoint suffix_index (rules : list string) (labels : list string) : nat :=
  match labels with
  | [] => O
  | _ :: rest =>
      if bool_decide (Py.join "." labels ∈ rules) then O
      else S (suffix_index rules rest)
  end.

Definition psl_extract (rules : list string) (host : string) : ExtractResult :=
  let labels := Py.split "." host in
  let i := suffix_index rules labels in
  {| subdomain := Py.join "." (take (pred i) labels);
     domain := match i with O => EmptyString | S j => default EmptyString (labels !! j) end;
     suffix := Py.join "." (drop i labels) |}.

(** The rules of the public suffix list that matter for the hosts of
    the scenarios: [lt] and [gov.lt] are public suffixes, [lrv.lt],
    [edu.lt] and [mil.lt] are not. *)
Definition sample_rules : list string := ["lt"; "gov.lt"; "com"].

Definition sample_extract : string -> ExtractResult := psl_extract sample_rules.

End Tld.

(** ** The vocabulary of the specification *)

(** The labels of a domain are its pieces between the dots. *)
Definition labels (domain : string) : list string := Py.split "." domain.

(** The three hyphen faults of a label, and a label without any. *)
Definition leading_hyphen (label : string) : Prop :=
  exists t, label = "-" +:+ t.

Definition trailing_hyphen (label : string) : Prop :=
  exists t, label = t +:+ "-".

Definition consecutive_hyphens (label : string) : Prop :=
  exists a b, label = a +:+ "--" +:+ b.

Definition hyphen_clean (label : string) : Prop :=
  ~ leading_hyphen label /\ ~ trailing_hyphen label /\ ~ consecutive_hyphens label.

(** The reason of the first failing check of one label, the checks
    taken in the order start, end, consecutive. *)
Inductive hyphen_fault : string -> string -> Prop :=
| fault_start label :
    leading_hyphen label -> hyphen_fault label "hyphen at start of label"
| fault_end label :
    ~ leading_hyphen label -> trailing_hyphen label ->
    hyphen_fault label "hyphen at end of label"
| fault_consecutive label :
    ~ leading_hyphen label -> ~ trailing_hyphen label ->
    consecutive_hyphens label -> hyphen_fault label "consecutive hyphens".

(** A candidate passes both label validators. *)
Definition passes_validators (candidate : string) : Prop :=
  is_valid_domain_length candidate = (true, None)
  /\ is_valid_hyphen_rules candidate = (true, None).

(** [s] ends in [e]. *)
Definition ends_with (s e : string) : Prop := exists p, s = p +:+ e.

(** A suffix under [.lt]. *)
Definition lt_suffix (s : string) : Prop := s = "lt" \/ ends_with s ".lt".

(** The government carve-out. *)
Definition government_suffixes : list string := ["lrv.lt"; "edu.lt"; "mil.lt"; "gov.lt"].
Definition government_names : list string := ["lrv"; "edu"; "mil"].

Definition government_qualified (ext : ExtractResult) : Prop :=
  suffix ext ∈ government_suffixes
  \/ (suffix ext = "lt" /\ domain ext ∈ government_names).

(** [baseDomain], and the candidate of the government branch: the
    subdomain is put in front when there is one. *)
Definition base_domain (ext : ExtractResult) : string :=
  domain ext +:+ "." +:+ suffix ext.

Definition government_candidate (ext : ExtractResult) : string :=
  if decide (subdomain ext = "") then base_domain ext
  else subdomain ext +:+ "." +:+ base_domain ext.

(** The rejection reasons of the stable vocabulary. *)
Definition reason_vocabulary : list string :=
  [ "empty"; "empty line"; "ip address"; "invalid characters";
    "invalid domain/suffix"; "single character label";
    "label exceeds 63 characters"; "hyphen at start of label";
    "hyphen at end of label"; "consecutive hyphens"; "non-govt subdomain";
    "non-.lt domain" ].

(** What the two validators leave of a candidate: the block that both
    branches of [classify] end with. *)
Definition validated (candidate : string) : result :=
  match is_valid_domain_length candidate with
  | (false, reason) => (None, reason)
  | (true, _) =>
      match is_valid_hyphen_rules candidate with
      | (false, reason) => (None, reason)
      | (true, _) => (Some candidate, None)
      end
  end.

(** A non-empty string of decimal digits, and four of them with three
    dots between. *)
Definition digits (s : string) : Prop := s <> "" /\ Py.all Re.digit s = true.

Definition dotted_quad (s : string) : Prop :=
  exists a b c d,
    digits a /\ digits b /\ digits c /\ digits d
    /\ s = a +:+ "." +:+ b +:+ "." +:+ c +:+ "." +:+ d.

(** The number of dots of a string. *)
Fixpoint count_dots (s : string) : nat :=
  match s with
  | EmptyString => O
  | String c s' => (if Ascii.eqb c "." then 1 else 0) + count_dots s'
  end.

(** A string that starts with a scheme: one or more letters of
    [a-zA-Z], then [://]. *)
Definition has_scheme (s : string) : Prop :=
  exists letters rest,
    letters <> "" /\ Py.all Re.ascii_letter letters = true
    /\ s = letters +:+ "://" +:+ rest.

(** A string that starts with [www.], whatever the case of the letters,
    and what is left of it without these four characters. *)
Definition www_prefixed (s rest : string) : Prop :=
  exists p, String.length p = 4%nat /\ Py.lower p = "www." /\ s = p +:+ rest.

(** What the [www.] step makes of [u]: [u] without its [www.] when it
    starts with one, [u] itself otherwise. *)
Definition www_stripped (u w : string) : Prop :=
  www_prefixed u w \/ ((forall rest, ~ www_prefixed u rest) /\ w = u).

(** A string that holds no line feed, as every line read from a file
    without its terminator. *)
Definition single_line (s : string) : Prop :=
  Py.all (fun c => negb (Ascii.eqb c Py.LF)) s = true.

Section Resolution.

Variable urlparse_netloc : string -> outcome string.
Variable extract : string -> ExtractResult.

(** The input [raw] gets as far as the resolver, which is called on
    [host]. *)
Definition reaches_resolver (raw host : string) : Prop :=
  Py.strip raw <> ""
  /\ exists w,
      normalize urlparse_netloc (Py.strip raw) = Returns w
      /\ Re.re_match ip_pattern w = false
      /\ Re.re_match chars_pattern w = true
      /\ host = Py.lower w.

(** The input [raw] resolves to [ext]: the resolver is reached and
    finds a registrable name, that is a domain and a suffix. *)
Definition resolved (raw : string) (ext : ExtractResult) : Prop :=
  exists host,
    reaches_resolver raw host /\ ext = extract host
    /\ domain ext <> "" /\ suffix ext <> "".

End Resolution.

(** The order of [str]: code point by code point, a proper prefix
    first. *)
Definition codepoint_lt (a b : string) : Prop := String.compare a b = Lt.

Section DriverVocabulary.

Variable urlparse_netloc : string -> outcome string.
Variable extract : string -> ExtractResult.

(** What one line of the input adds to the result set: nothing for a
    blank line or a rejected one, the lower-cased domain for an accepted
    one; or the exception that ends the run. *)
Definition line_domain (line : string) : outcome (option string) :=
  let raw_line := Py.rstrip (Ascii.eqb Py.LF) line in
  if Py.truthy (Py.strip raw_line) then
    r ← process_domain urlparse_netloc extract (Some raw_line);
    mret (match r.1 with
          | Some d => if Py.truthy d then Some (Py.lower d) else None
          | None => None
          end)
  else mret None.

(** The accepted canonical domains of a sequence of lines. *)
Definition accepted_domains (lines : list string) : gset string :=
  list_to_set
    (omap (fun line => match line_domain line with
                       | Returns o => o
                       | Raises _ => None
                       end) lines).

(** Some line of the sequence makes the classifier raise. *)
Definition some_line_raises (lines : list string) : Prop :=
  Exists (fun line => exists e, line_domain line = Raises e) lines.

End DriverVocabulary.

(** The lines of a list, trimmed, without the empty ones. *)
Definition trimmed_lines (lines : list string) : list string :=
  filter (fun domain => domain <> "") (Py.strip <$> lines).

(** The master list without the blocklist, in the words of the
    specification: the trimmed non-empty lines of the master list that are
    not, as they stand, among the trimmed non-empty lines of the blocklist,
    in the order of the master list. *)
Definition master_without_blocklist (master blocklist : list string) : list string :=
  filter (fun domain => domain ∉ trimmed_lines blocklist) (trimmed_lines master).

(** ** The vocabulary of the further properties *)

(** [process_domain] from "Skip if it's an IP address" to the end: what
    becomes of the normalized string [cleaned], the resolver being
    [extract]. *)
Definition screen (extract : string -> ExtractResult) (cleaned : string) : result :=
  if Re.re_match ip_pattern cleaned then (None, Some "ip address")
  else if negb (Re.re_match chars_pattern cleaned)
       then (None, Some "invalid characters")
       else classify (extract (Py.lower cleaned)).

(** The two length faults of a label, and a label without either; the
    empty label has neither. *)
Definition length_clean (label : string) : Prop :=
  String.length label <> 1%nat /\ (String.length label <= 63)%nat.

Inductive length_fault : string -> string -> Prop :=
| fault_single label :
    String.length label = 1%nat -> length_fault label "single character label"
| fault_long label :
    (63 < String.length label)%nat ->
    length_fault label "label exceeds 63 characters".

(** A character that the test of the characters lets through: a word
    character ([\w]), a hyphen or a dot. *)
Definition domain_char (c : ascii) : bool :=
  Re.word c || Ascii.eqb c "-" || Ascii.eqb c ".".

(** The reasons that the part of [process_domain] after the resolver can
    give, and the reasons that an input with something left after
    trimming can get. *)
Definition classifier_reasons : list string :=
  [ "invalid domain/suffix"; "single character label";
    "label exceeds 63 characters"; "hyphen at start of label";
    "hyphen at end of label"; "consecutive hyphens"; "non-govt subdomain";
    "non-.lt domain" ].

Definition line_reasons : list string :=
  "ip address" :: "invalid characters" :: classifier_reasons.

(** A regular expression whose character classes do not tell a
    character from its lower-case form. *)
Fixpoint case_blind (r : Re.regex) : Prop :=
  match r with
  | Re.Void | Re.Eps => True
  | Re.Class p => forall c, p (Py.lower_char c) = p c
  | Re.Cat r1 r2 | Re.Alt r1 r2 => case_blind r1 /\ case_blind r2
  | Re.Star r1 => case_blind r1
  end.

(** The input [raw] is taken for a URL: it is not blank and, trimmed and
    without its trailing dots, it is the string [url] that starts with a
    scheme; [urlparse] is called on [url]. *)
Definition url_input (raw url : string) : Prop :=
  Py.strip raw <> ""
  /\ url = Py.rstrip (Ascii.eqb ".") (Py.strip raw)
  /\ has_scheme url.

(** A line of the input that is blank: nothing is left of it after
    trimming. *)
Definition blank (line : string) : Prop :=
  Py.strip (Py.rstrip (Ascii.eqb Py.LF) line) = "".

Global Instance blank_dec (line : string) : Decision (blank line).
Proof. unfold blank. apply _. Defined.

(** The lines on which the classifier is called. *)
Definition processed (lines : list string) : list string :=
  filter (fun line => ~ blank line) lines.

(** An entry of the error log with its line number moved by [k]. *)
Definition shift (k : nat) (e : nat * string * option string)
  : nat * string * option string :=
  let '(line_num, line_val, reason) := e in ((k + line_num)%nat, line_val, reason).

Section LogVocabulary.

Variable urlparse_netloc : string -> outcome string.
Variable extract : string -> ExtractResult.

(** What the line with number [n] adds to the error log: nothing for a
    blank line, an accepted one or one that makes the classifier raise,
    and for a rejected one its number, the line without its line feeds
    and the reason. *)
Definition line_entry (n : nat) (line : string)
  : option (nat * string * option string) :=
  let raw_line := Py.rstrip (Ascii.eqb Py.LF) line in
  if Py.truthy (Py.strip raw_line) then
    match process_domain urlparse_netloc extract (Some raw_line) with
    | Returns (d, reason) =>
        if from_option Py.truthy false d then None else Some (n, raw_line, reason)
    | Raises _ => None
    end
  else None.

(** The entries of a sequence of lines, the first of which has the
    number [n + 1]. *)
Fixpoint logged (n : nat) (lines : list string)
  : list (nat * string * option string) :=
  match lines with
  | [] => []
  | line :: rest => option_list (line_entry (S n) line) ++ logged (S n) rest
  end.

End LogVocabulary.

(** A line as written by the two programs: a string without a line
    feed, then one line feed. A line as read from a file: the last line
    may come without its line feed. *)
Definition written_line (line : string) : Prop :=
  exists body, single_line body /\ line = body +:+ Py.nl.

Definition file_line (line : string) : Prop :=
  exists body, single_line body /\ (line = body +:+ Py.nl \/ line = body).

(** * Properties *)

(** ** Strings *)

Module PyFacts.
Import Py.

Lemma app_nil_l (s : string) : "" +:+ s = s.
Proof. reflexivity. Qed.

Lemma app_cons (c : ascii) (s t : string) : String c s +:+ t = String c (s +:+ t).
Proof. reflexivity. Qed.

Lemma app_nil_r (s : string) : s +:+ "" = s.
Proof. induction s as [|c s IH]; [done|]. by rewrite app_cons, IH. Qed.

Lemma app_assoc (s t u : string) : (s +:+ t) +:+ u = s +:+ t +:+ u.
Proof. induction s as [|c s IH]; [done|]. by rewrite !app_cons, IH. Qed.

Lemma app_length (s t : string) :
  String.length (s +:+ t) = (String.length s + String.length t)%nat.
Proof. induction s as [|c s IH]; [done|]. rewrite app_cons. simpl. by rewrite IH. Qed.

Lemma app_eq_nil (s t : string) : s +:+ t = "" -> s = "" /\ t = "".
Proof. destruct s; [done|]. rewrite app_cons. done. Qed.

Lemma truthy_true (s : string) : truthy s = true <-> s <> "".
Proof. destruct s; simpl; split; congruence. Qed.

Lemma truthy_false (s : string) : truthy s = false <-> s = "".
Proof. destruct s; simpl; split; congruence. Qed.

Lemma ascii_eqb_true (a b : ascii) : Ascii.eqb a b = true <-> a = b.
Proof. apply Ascii.eqb_eq. Qed.

Lemma ascii_eqb_false (a b : ascii) : Ascii.eqb a b = false <-> a <> b.
Proof. apply Ascii.eqb_neq. Qed.

(** [startswith], [endswith] and [in] as decompositions of the string. *)
Lemma startswith_spec (p s : string) :
  startswith p s = true <-> exists t, s = p +:+ t.
Proof.
  unfold startswith. revert s. induction p as [|c p IH]; intros s.
  - destruct s; simpl; split; eauto.
  - destruct s as [|d s]; simpl.
    + split; [done|]. intros [t Ht]. by rewrite app_cons in Ht.
    + destruct (ascii_dec c d) as [->|Hne].
      * rewrite IH. split; intros [t Ht]; exists t.
        -- by rewrite app_cons, Ht.
        -- rewrite app_cons in Ht. congruence.
      * split; [done|]. intros [t Ht]. rewrite app_cons in Ht. congruence.
Qed.

Lemma endswith_spec (p s : string) :
  endswith p s = true <-> exists t, s = t +:+ p.
Proof.
  induction s as [|c s IH]; simpl.
  - rewrite orb_false_r, String.eqb_eq. split.
    + intros ->. by exists "".
    + intros [t Ht]. symmetry in Ht. by apply app_eq_nil in Ht as [_ ->].
  - rewrite orb_true_iff, String.eqb_eq, IH. split.
    + intros [->|[t ->]]; [by exists ""|]. by exists (String c t).
    + intros [[|d t] Ht].
      * left. by rewrite app_nil_l in Ht.
      * right. rewrite app_cons in Ht. exists t. congruence.
Qed.

Lemma contains_spec (p s : string) :
  contains p s = true <-> exists a b, s = a +:+ p +:+ b.
Proof.
  induction s as [|c s IH]; cbn [contains].
  - rewrite orb_false_r. change (String.prefix p "") with (startswith p "").
    rewrite startswith_spec. split.
    + intros [t Ht]. by exists "", t.
    + intros [a [b Hab]]. symmetry in Hab.
      apply app_eq_nil in Hab as [-> Hb]. apply app_eq_nil in Hb as [-> ->].
      by exists "".
  - rewrite orb_true_iff, IH.
    change (String.prefix p (String c s)) with (startswith p (String c s)).
    rewrite startswith_spec. split.
    + intros [[t Ht]|[a [b ->]]]; [by exists "", t|]. by exists (String c a), b.
    + intros [[|d a] [b Hab]].
      * left. by exists b.
      * right. rewrite app_cons in Hab. exists a, b. congruence.
Qed.

(** [split] cuts at every separator and nowhere else. *)
Lemma split_nonempty (sep : ascii) (s : string) : split sep s <> [].
Proof.
  induction s as [|c s IH]; simpl; [done|].
  destruct (Ascii.eqb c sep); [done|]. by destruct (split sep s).
Qed.

Lemma join_split (sep : ascii) (s : string) :
  join (String sep "") (split sep s) = s.
Proof.
  induction s as [|c s IH]; simpl; [done|].
  destruct (Ascii.eqb c sep) eqn:E.
  - apply ascii_eqb_true in E as ->.
    pose proof (split_nonempty sep s) as Hne.
    destruct (split sep s) as [|l ls]; [done|].
    change (join (String sep "") ("" :: l :: ls))
      with ("" +:+ String sep "" +:+ join (String sep "") (l :: ls)).
    by rewrite IH.
  - pose proof (split_nonempty sep s) as Hne.
    destruct (split sep s) as [|l ls]; [done|].
    destruct ls as [|l' ls].
    + simpl in *. by rewrite IH.
    + change (join (String sep "") (String c l :: l' :: ls))
        with (String c l +:+ String sep "" +:+ join (String sep "") (l' :: ls)).
      change (join (String sep "") (l :: l' :: ls))
        with (l +:+ String sep "" +:+ join (String sep "") (l' :: ls)) in IH.
      by rewrite app_cons, IH.
Qed.

Lemma split_labels_free (sep : ascii) (s : string) :
  Forall (fun l => all (fun c => negb (Ascii.eqb c sep)) l = true) (split sep s).
Proof.
  induction s as [|c s IH]; simpl; [by constructor|].
  destruct (Ascii.eqb c sep) eqn:E; [by constructor|].
  destruct (split sep s) as [|l ls]; [constructor; [simpl; by rewrite E|done]|].
  inversion IH; subst. constructor; [|done]. simpl. by rewrite E.
Qed.

Lemma split_free (sep : ascii) (s : string) :
  all (fun c => negb (Ascii.eqb c sep)) s = true -> split sep s = [s].
Proof.
  induction s as [|c s IH]; simpl; [done|].
  rewrite andb_true_iff, negb_true_iff. intros [-> Hs]. by rewrite IH.
Qed.

Lemma split_app (sep : ascii) (a b : string) :
  all (fun c => negb (Ascii.eqb c sep)) a = true ->
  split sep (a +:+ String sep b) = a :: split sep b.
Proof.
  induction a as [|c a IH]; cbn [all].
  - intros _. rewrite app_nil_l. cbn [split]. by rewrite Ascii.eqb_refl.
  - rewrite andb_true_iff, negb_true_iff. intros [Hc Ha].
    rewrite app_cons. cbn [split]. by rewrite Hc, IH.
Qed.

(** [lower] keeps the length and moves neither dots nor hyphens. *)
Lemma lower_length (s : string) : String.length (lower s) = String.length s.
Proof. induction s; simpl; congruence. Qed.

Lemma lower_app (s t : string) : lower (s +:+ t) = lower s +:+ lower t.
Proof. induction s as [|c s IH]; [done|]. rewrite !app_cons. simpl. by rewrite IH, app_cons. Qed.

Lemma lower_char_dot (c : ascii) : Ascii.eqb (lower_char c) "." = Ascii.eqb c ".".
Proof. destruct c as [[] [] [] [] [] [] [] []]; reflexivity. Qed.

Lemma lower_char_hyphen (c : ascii) : Ascii.eqb (lower_char c) "-" = Ascii.eqb c "-".
Proof. destruct c as [[] [] [] [] [] [] [] []]; reflexivity. Qed.

Lemma lower_eq_nil (s : string) : lower s = "" <-> s = "".
Proof. destruct s; simpl; split; congruence. Qed.

Lemma split_lower (s : string) : split "." (lower s) = lower <$> split "." s.
Proof.
  induction s as [|c s IH]; simpl; [done|].
  rewrite lower_char_dot. destruct (Ascii.eqb c "."); simpl; [by rewrite IH|].
  rewrite IH. pose proof (split_nonempty "." s). by destruct (split "." s).
Qed.

Lemma prefix_nil (s : string) : String.prefix "" s = true.
Proof. by destruct s. Qed.

Lemma lower_char_hyphen_iff (c : ascii) : "-"%char = lower_char c <-> "-"%char = c.
Proof.
  pose proof (lower_char_hyphen c) as H.
  split; intros E.
  - symmetry. apply ascii_eqb_true. rewrite <- H. apply ascii_eqb_true. done.
  - symmetry. apply ascii_eqb_true. rewrite H. apply ascii_eqb_true. done.
Qed.

Lemma ascii_dec_hyphen_lower (c : ascii) (A : Type) (x y : A) :
  (if ascii_dec "-" (lower_char c) then x else y) = (if ascii_dec "-" c then x else y).
Proof.
  pose proof (lower_char_hyphen_iff c) as [H1 H2].
  destruct (ascii_dec "-" (lower_char c)), (ascii_dec "-" c); tauto.
Qed.

Lemma startswith_hyphen_lower (s : string) :
  startswith "-" (lower s) = startswith "-" s.
Proof.
  destruct s as [|c s]; [done|]. unfold startswith. cbn [lower String.prefix].
  rewrite !prefix_nil. apply ascii_dec_hyphen_lower.
Qed.

Lemma eqb_hyphen_lower (s : string) :
  String.eqb "-" (lower s) = String.eqb "-" s.
Proof.
  destruct s as [|c s]; [done|]. cbn [lower String.eqb].
  rewrite (Ascii.eqb_sym _ (lower_char c)), lower_char_hyphen, (Ascii.eqb_sym c).
  destruct (Ascii.eqb "-" c); [|done]. by destruct s.
Qed.

Lemma endswith_hyphen_lower (s : string) :
  endswith "-" (lower s) = endswith "-" s.
Proof.
  induction s as [|c s IH]; [done|].
  change (lower (String c s)) with (String (lower_char c) (lower s)).
  cbn [endswith]. rewrite IH. f_equal.
  apply (eqb_hyphen_lower (String c s)).
Qed.

Lemma contains_hyphens_lower (s : string) :
  contains "--" (lower s) = contains "--" s.
Proof.
  induction s as [|c s IH]; [done|].
  change (lower (String c s)) with (String (lower_char c) (lower s)).
  cbn [contains]. rewrite IH. f_equal.
  cbn [String.prefix]. rewrite ascii_dec_hyphen_lower.
  destruct (ascii_dec "-" c); [|done]. apply startswith_hyphen_lower.
Qed.

Lemma rstrip_all (p : ascii -> bool) (s : string) :
  all p s = true -> rstrip p s = "".
Proof.
  induction s as [|c s IH]; [done|]. cbn [all rstrip].
  rewrite andb_true_iff. intros [Hc Hs]. by rewrite IH, Hc.
Qed.

Lemma all_app (p : ascii -> bool) (s t : string) :
  all p (s +:+ t) = all p s && all p t.
Proof.
  induction s as [|c s IH]; [done|]. rewrite app_cons. cbn [all].
  by rewrite IH, andb_assoc.
Qed.

Lemma all_impl (p q : ascii -> bool) (s : string) :
  (forall c, p c = true -> q c = true) -> all p s = true -> all q s = true.
Proof.
  intros Hpq. induction s as [|c s IH]; [done|]. cbn [all].
  rewrite !andb_true_iff. intros [Hc Hs]. auto.
Qed.

Lemma lstrip_all (p q : ascii -> bool) (s : string) :
  all q s = true -> all q (lstrip p s) = true.
Proof.
  induction s as [|c s IH]; [done|]. cbn [lstrip]. intros H.
  destruct (p c); [|done]. cbn [all] in H. apply andb_true_iff in H as [_ H]. auto.
Qed.

Lemma rstrip_all_keeps (p q : ascii -> bool) (s : string) :
  all q s = true -> all q (rstrip p s) = true.
Proof.
  induction s as [|c s IH]; [done|]. cbn [all rstrip].
  rewrite andb_true_iff. intros [Hc Hs]. specialize (IH Hs).
  destruct (rstrip p s) as [|d r].
  - destruct (p c); [done|]. cbn [all]. by rewrite Hc.
  - cbn [all] in *. by rewrite Hc, IH.
Qed.

Lemma strip_all (q : ascii -> bool) (s : string) :
  all q s = true -> all q (strip s) = true.
Proof. intros H. unfold strip. by apply lstrip_all, rstrip_all_keeps. Qed.

Lemma slice_from_all (q : ascii -> bool) (n : nat) (s : string) :
  all q s = true -> all q (slice_from n s) = true.
Proof.
  revert s. induction n as [|n IH]; intros s H; [by destruct s|].
  destruct s as [|c s]; [done|]. cbn [slice_from]. cbn [all] in H.
  apply andb_true_iff in H as [_ H]. auto.
Qed.

Lemma remove_chars_all (p : ascii -> bool) (s : string) :
  all (fun c => negb (p c)) (remove_chars p s) = true.
Proof.
  induction s as [|c s IH]; [done|]. cbn [remove_chars].
  destruct (p c) eqn:E; [done|]. cbn [all]. by rewrite E, IH.
Qed.

Lemma slice_from_app (p rest : string) :
  slice_from (String.length p) (p +:+ rest) = rest.
Proof.
  induction p as [|c p IH]; [by destruct rest|]. by rewrite app_cons.
Qed.

End PyFacts.

(** ** The label validators *)

Section HyphenRule.

Lemma leading_hyphen_iff (label : string) :
  Py.startswith "-" label = true <-> leading_hyphen label.
Proof. apply PyFacts.startswith_spec. Qed.

Lemma trailing_hyphen_iff (label : string) :
  Py.endswith "-" label = true <-> trailing_hyphen label.
Proof. apply PyFacts.endswith_spec. Qed.

Lemma consecutive_hyphens_iff (label : string) :
  Py.contains "--" label = true <-> consecutive_hyphens label.
Proof. apply PyFacts.contains_spec. Qed.

Lemma hyphen_clean_or_fault (label : string) :
  hyphen_clean label \/ exists reason, hyphen_fault label reason.
Proof.
  destruct (Py.startswith "-" label) eqn:E1.
  { right. eexists. apply fault_start. by apply leading_hyphen_iff. }
  assert (~ leading_hyphen label) as N1.
  { rewrite <- leading_hyphen_iff. congruence. }
  destruct (Py.endswith "-" label) eqn:E2.
  { right. eexists. apply fault_end; [done|]. by apply trailing_hyphen_iff. }
  assert (~ trailing_hyphen label) as N2.
  { rewrite <- trailing_hyphen_iff. congruence. }
  destruct (Py.contains "--" label) eqn:E3.
  { right. eexists. apply fault_consecutive; [done..|]. by apply consecutive_hyphens_iff. }
  left. repeat split; [done..|]. rewrite <- consecutive_hyphens_iff. congruence.
Qed.

Lemma hyphen_fault_not_clean (label reason : string) :
  hyphen_fault label reason -> ~ hyphen_clean label.
Proof. intros H [? [? ?]]. by destruct H. Qed.

Lemma hyphen_fault_unique (label r1 r2 : string) :
  hyphen_fault label r1 -> hyphen_fault label r2 -> r1 = r2.
Proof. intros H1 H2. destruct H1; destruct H2; done. Qed.

Lemma hyphen_labels_fault (label reason : string) (rest : list string) :
  hyphen_fault label reason ->
  hyphen_labels (label :: rest) = (false, Some reason).
Proof.
  intros H. cbn [hyphen_labels]. destruct H as [l H1|l N1 H2|l N1 N2 H3].
  - apply leading_hyphen_iff in H1. by rewrite H1.
  - rewrite <- leading_hyphen_iff in N1. apply not_true_is_false in N1.
    apply trailing_hyphen_iff in H2. by rewrite N1, H2.
  - rewrite <- leading_hyphen_iff in N1. apply not_true_is_false in N1.
    rewrite <- trailing_hyphen_iff in N2. apply not_true_is_false in N2.
    apply consecutive_hyphens_iff in H3. by rewrite N1, N2, H3.
Qed.

Lemma hyphen_labels_clean (label : string) (rest : list string) :
  hyphen_clean label -> hyphen_labels (label :: rest) = hyphen_labels rest.
Proof.
  intros [N1 [N2 N3]]. cbn [hyphen_labels].
  rewrite <- leading_hyphen_iff in N1. apply not_true_is_false in N1.
  rewrite <- trailing_hyphen_iff in N2. apply not_true_is_false in N2.
  rewrite <- consecutive_hyphens_iff in N3. apply not_true_is_false in N3.
  by rewrite N1, N2, N3.
Qed.

Lemma hyphen_labels_rejects (ls : list string) (reason : string) :
  hyphen_labels ls = (false, Some reason) <->
  exists before label after,
    ls = before ++ label :: after /\ Forall hyphen_clean before
    /\ hyphen_fault label reason.
Proof.
  induction ls as [|l rest IH].
  - split; [done|]. intros (before & ? & ? & E & _). by destruct before.
  - destruct (hyphen_clean_or_fault l) as [Hc|[r Hf]].
    + rewrite (hyphen_labels_clean _ _ Hc), IH. split.
      * intros (before & label & after & -> & Hb & Hl).
        exists (l :: before), label, after. repeat split; [|done]. by constructor.
      * intros (before & label & after & E & Hb & Hl).
        destruct before as [|b before]; simplify_eq/=.
        -- by destruct (hyphen_fault_not_clean _ _ Hl).
        -- inversion Hb; subst. by exists before, label, after.
    + rewrite (hyphen_labels_fault _ _ rest Hf). split.
      * intros [= <-]. exists [], l, rest. repeat split; [constructor|done].
      * intros (before & label & after & E & Hb & Hl).
        destruct before as [|b before]; simplify_eq/=.
        -- by rewrite (hyphen_fault_unique _ _ _ Hf Hl).
        -- inversion Hb; subst. by destruct (hyphen_fault_not_clean _ _ Hf).
Qed.

Lemma hyphen_labels_passes (ls : list string) :
  hyphen_labels ls = (true, None) <-> Forall hyphen_clean ls.
Proof.
  induction ls as [|l rest IH].
  - split; [constructor|done].
  - destruct (hyphen_clean_or_fault l) as [Hc|[r Hf]].
    + rewrite (hyphen_labels_clean _ _ Hc), IH. split.
      * by constructor.
      * by inversion 1.
    + rewrite (hyphen_labels_fault _ _ rest Hf). split; [done|].
      inversion 1; subst. by destruct (hyphen_fault_not_clean _ _ Hf).
Qed.

Lemma hyphen_labels_total (ls : list string) :
  hyphen_labels ls = (true, None)
  \/ exists reason, hyphen_labels ls = (false, Some reason).
Proof.
  induction ls as [|l rest IH]; [by left|].
  destruct (hyphen_clean_or_fault l) as [Hc|[r Hf]].
  - by rewrite (hyphen_labels_clean _ _ Hc).
  - right. exists r. by apply hyphen_labels_fault.
Qed.

End HyphenRule.

(** C7. The hyphen validator takes the labels in their order and, in
    each label, tests the leading hyphen, then the trailing hyphen, then
    two hyphens in a row: it fails with the reason of the first failing
    test of the first failing label, it passes exactly when no label has
    any of the three faults, and it fails on [my--site.lt] with
    [consecutive hyphens]. *)
Theorem hyphen_rules_first_failure (domain : string) :
  (forall reason,
      is_valid_hyphen_rules domain = (false, Some reason) <->
      exists before label after,
        labels domain = before ++ label :: after
        /\ Forall hyphen_clean before
        /\ hyphen_fault label reason)
  /\ (is_valid_hyphen_rules domain = (true, None) <->
      Forall hyphen_clean (labels domain))
  /\ (is_valid_hyphen_rules domain = (true, None)
      \/ exists reason, is_valid_hyphen_rules domain = (false, Some reason))
  /\ is_valid_hyphen_rules "my--site.lt" = (false, Some "consecutive hyphens").
Proof.
  unfold is_valid_hyphen_rules, labels. repeat split.
  - by apply hyphen_labels_rejects.
  - by apply hyphen_labels_rejects.
  - by apply hyphen_labels_passes.
  - by apply hyphen_labels_passes.
  - apply hyphen_labels_total.
Qed.

(** ** Regular expressions *)

Module ReFacts.
Import Re PyFacts.

Lemma nullable_spec (r : regex) : nullable r = true <-> Matches r "".
Proof.
  split.
  - induction r as [| |p|r1 IH1 r2 IH2|r1 IH1 r2 IH2|r IH]; simpl; try done.
    + intros _. constructor.
    + rewrite andb_true_iff. intros [H1 H2].
      change "" with ("" +:+ ""). constructor; auto.
    + rewrite orb_true_iff. intros [H|H]; [apply MAltL|apply MAltR]; auto.
    + intros _. constructor.
  - intros H. remember "" as s eqn:Es.
    induction H as [|p c Hp|r1 r2 s1 s2 H1 IH1 H2 IH2|r1 r2 s H IH|r1 r2 s H IH
                   |r|r s1 s2 H1 IH1 H2 IH2]; simpl; try done.
    + apply app_eq_nil in Es as [-> ->]. by rewrite IH1, IH2.
    + by rewrite IH.
    + rewrite IH; [|done]. apply orb_true_r.
Qed.

Lemma deriv_complete (r : regex) (s0 : string) :
  Matches r s0 -> forall c s, s0 = String c s -> Matches (deriv c r) s.
Proof.
  induction 1 as [|p c0 Hp|r1 r2 s1 s2 H1 IH1 H2 IH2|r1 r2 s0 H IH|r1 r2 s0 H IH
                 |r|r s1 s2 H1 IH1 H2 IH2]; intros c s E; try done.
  - simplify_eq/=. rewrite Hp. constructor.
  - destruct s1 as [|d s1].
    + rewrite app_nil_l in E. subst s2. simpl.
      apply nullable_spec in H1. rewrite H1. apply MAltR. by apply IH2.
    + rewrite app_cons in E. simplify_eq/=.
      destruct (nullable r1); [apply MAltL|]; constructor; auto.
  - simpl. apply MAltL. auto.
  - simpl. apply MAltR. auto.
  - destruct s1 as [|d s1].
    + rewrite app_nil_l in E. auto.
    + rewrite app_cons in E. simplify_eq/=. constructor; auto.
Qed.

Lemma deriv_sound (r : regex) (c : ascii) (s : string) :
  Matches (deriv c r) s -> Matches r (String c s).
Proof.
  revert s. induction r as [| |p|r1 IH1 r2 IH2|r1 IH1 r2 IH2|r IH]; intros s H;
    simpl in H.
  - inversion H.
  - inversion H.
  - destruct (p c) eqn:Hp; inversion H; subst. by constructor.
  - destruct (nullable r1) eqn:Hn.
    + inversion H as [| | | ? ? ? H'| ? ? ? H'| |]; subst.
      * inversion H' as [| |? ? s1 s2 Ha Hb| | | |]; subst.
        rewrite <- app_cons. constructor; auto.
      * rewrite <- (app_nil_l (String c s)). constructor; auto.
        by apply nullable_spec.
    + inversion H as [| |? ? s1 s2 Ha Hb| | | |]; subst.
      rewrite <- app_cons. constructor; auto.
  - inversion H; subst; [apply MAltL|apply MAltR]; auto.
  - inversion H as [| |? ? s1 s2 Ha Hb| | | |]; subst.
    rewrite <- app_cons. constructor; auto.
Qed.

(** The derivative matcher decides the words of the expression. *)
Lemma accepts_spec (r : regex) (s : string) : accepts r s = true <-> Matches r s.
Proof.
  revert r. induction s as [|c s IH]; intros r; simpl.
  - apply nullable_spec.
  - rewrite IH. split; [apply deriv_sound|].
    intros H. by eapply deriv_complete.
Qed.

Lemma Matches_Cat (r1 r2 : regex) (s : string) :
  Matches (Cat r1 r2) s <->
  exists s1 s2, s = s1 +:+ s2 /\ Matches r1 s1 /\ Matches r2 s2.
Proof.
  split.
  - inversion 1; subst. eauto.
  - intros (s1 & s2 & -> & H1 & H2). by constructor.
Qed.

Lemma Matches_Alt (r1 r2 : regex) (s : string) :
  Matches (Alt r1 r2) s <-> Matches r1 s \/ Matches r2 s.
Proof.
  split.
  - inversion 1; subst; auto.
  - intros [H|H]; [apply MAltL|apply MAltR]; done.
Qed.

Lemma Matches_Eps (s : string) : Matches Eps s <-> s = "".
Proof. split; [by inversion 1|intros ->; constructor]. Qed.

Lemma Matches_Class (p : ascii -> bool) (s : string) :
  Matches (Class p) s <-> exists c, s = String c "" /\ p c = true.
Proof.
  split.
  - inversion 1; subst. eauto.
  - intros (c & -> & Hp). by constructor.
Qed.

Lemma Matches_Chr (c : ascii) (s : string) : Matches (Chr c) s <-> s = String c "".
Proof.
  unfold Chr. rewrite Matches_Class. split.
  - intros (d & -> & E). apply ascii_eqb_true in E. by subst.
  - intros ->. exists c. split; [done|]. apply Ascii.eqb_refl.
Qed.

Lemma Matches_Lit (l s : string) : Matches (Lit l) s <-> s = l.
Proof.
  revert s. induction l as [|c l IH]; intros s; simpl.
  - apply Matches_Eps.
  - rewrite Matches_Cat. split.
    + intros (s1 & s2 & -> & H1 & H2). apply Matches_Chr in H1. apply IH in H2.
      by subst.
    + intros ->. exists (String c ""), l. repeat split.
      * by apply Matches_Chr.
      * by apply IH.
Qed.

Lemma Matches_Star_Class (p : ascii -> bool) (s : string) :
  Matches (Star (Class p)) s <-> Py.all p s = true.
Proof.
  split.
  - intros H. remember (Star (Class p)) as r eqn:Er.
    induction H as [| | | | | |r s1 s2 H1 _ H2 IH2]; try done.
    simplify_eq. inversion H1; subst. rewrite app_cons, app_nil_l. simpl.
    rewrite andb_true_iff. auto.
  - induction s as [|c s IH]; simpl.
    + intros _. constructor.
    + rewrite andb_true_iff. intros [Hc Hs].
      change (String c s) with (String c "" +:+ s).
      constructor; [by constructor|auto].
Qed.

Lemma Matches_Plus_Class (p : ascii -> bool) (s : string) :
  Matches (Plus (Class p)) s <-> s <> "" /\ Py.all p s = true.
Proof.
  unfold Plus. rewrite Matches_Cat. split.
  - intros (s1 & s2 & -> & H1 & H2). apply Matches_Class in H1 as (c & -> & Hc).
    apply Matches_Star_Class in H2. rewrite app_cons, app_nil_l. simpl.
    by rewrite Hc, H2.
  - intros [Hne Hall]. destruct s as [|c s]; [done|]. simpl in Hall.
    apply andb_true_iff in Hall as [Hc Hs].
    exists (String c ""), s. repeat split.
    + by constructor.
    + by apply Matches_Star_Class.
Qed.

Lemma Matches_Star_Any (s : string) : Matches (Star Any) s.
Proof. apply Matches_Star_Class. by induction s. Qed.

(** [re.match] without [$]: the body matches a prefix. *)
Lemma re_match_prefix (r : regex) (s : string) :
  re_match {| body := r; dollar := false |} s = true <->
  exists s1 s2, s = s1 +:+ s2 /\ Matches r s1.
Proof.
  unfold re_match. simpl. rewrite accepts_spec, Matches_Cat. split.
  - intros (s1 & s2 & -> & H1 & _). eauto.
  - intros (s1 & s2 & -> & H1). exists s1, s2. repeat split; [done|].
    apply Matches_Star_Any.
Qed.

(** [re.match] with [$]: the body matches the string, or the string
    without the line feed that ends it. *)
Lemma re_match_dollar (r : regex) (s : string) :
  re_match {| body := r; dollar := true |} s = true <->
  Matches r s \/ exists s', s = s' +:+ Py.nl /\ Matches r s'.
Proof.
  unfold re_match. simpl. rewrite accepts_spec, Matches_Cat. split.
  - intros (s1 & s2 & -> & H1 & H2). apply Matches_Alt in H2 as [H2|H2].
    + apply Matches_Eps in H2 as ->. left. by rewrite app_nil_r.
    + apply Matches_Chr in H2 as ->. right. eauto.
  - intros [H|(s' & -> & H)].
    + exists s, "". rewrite app_nil_r. repeat split; [done|].
      apply MAltL. constructor.
    + exists s', Py.nl. repeat split; [done|]. apply MAltR. by apply Matches_Chr.
Qed.

End ReFacts.

(** ** The classifier *)

Lemma bind_Returns {A B : Type} (a : A) (f : A -> outcome B) :
  (Returns a ≫= f) = f a.
Proof. reflexivity. Qed.

Lemma bind_Raises {A B : Type} (e : exn) (f : A -> outcome B) :
  (Raises e ≫= f) = Raises e.
Proof. reflexivity. Qed.

Lemma exn_unique (e : exn) : e = ValueError.
Proof. by destruct e. Qed.

Lemma government_suffix_iff (s : string) :
  bool_decide (s ∈ GOV_SUFFIXES) = true <-> s ∈ government_suffixes.
Proof.
  rewrite bool_decide_eq_true. unfold GOV_SUFFIXES, government_suffixes.
  rewrite !elem_of_cons, elem_of_nil, !elem_of_union, !elem_of_singleton. tauto.
Qed.

Lemma government_name_iff (s : string) :
  bool_decide (s ∈ GOV_DOMAINS) = true <-> s ∈ government_names.
Proof.
  rewrite bool_decide_eq_true. unfold GOV_DOMAINS, government_names.
  rewrite !elem_of_cons, elem_of_nil, !elem_of_union, !elem_of_singleton. tauto.
Qed.

Lemma government_test_iff (ext : ExtractResult) :
  bool_decide (suffix ext ∈ GOV_SUFFIXES)
  || (String.eqb (suffix ext) "lt" && bool_decide (domain ext ∈ GOV_DOMAINS)) = true
  <-> government_qualified ext.
Proof.
  unfold government_qualified.
  rewrite orb_true_iff, andb_true_iff, String.eqb_eq.
  by rewrite government_suffix_iff, government_name_iff.
Qed.

(** Membership in an explicit list of strings. *)
Ltac list_mem :=
  rewrite ?elem_of_cons, ?elem_of_nil in *; intuition (subst; auto 20).

Lemma length_labels_total (ls : list string) :
  length_labels ls = (true, None)
  \/ exists reason,
      length_labels ls = (false, Some reason)
      /\ reason ∈ ["single character label"; "label exceeds 63 characters"].
Proof.
  induction ls as [|l rest IH]; [by left|]. cbn [length_labels].
  destruct (String.length l =? 1)%nat.
  { right. eexists. split; [done|]. list_mem. }
  destruct (63 <? String.length l)%nat; [|done].
  right. eexists. split; [done|]. list_mem.
Qed.

Lemma hyphen_labels_reason (ls : list string) (reason : string) :
  hyphen_labels ls = (false, Some reason) ->
  reason ∈ ["hyphen at start of label"; "hyphen at end of label"; "consecutive hyphens"].
Proof.
  intros H. apply hyphen_labels_rejects in H as (? & ? & ? & _ & _ & Hf).
  destruct Hf; list_mem.
Qed.

Lemma validated_passes (candidate : string) :
  passes_validators candidate -> validated candidate = (Some candidate, None).
Proof. intros [H1 H2]. unfold validated. by rewrite H1, H2. Qed.

Lemma validated_fails (candidate : string) :
  ~ passes_validators candidate ->
  exists reason,
    validated candidate = (None, Some reason)
    /\ reason ∈ ["single character label"; "label exceeds 63 characters";
                 "hyphen at start of label"; "hyphen at end of label";
                 "consecutive hyphens"].
Proof.
  intros Hn. unfold validated, passes_validators in *.
  unfold is_valid_domain_length, is_valid_hyphen_rules in *.
  destruct (length_labels_total (Py.split "." candidate)) as [H1|(r & H1 & Hr)];
    rewrite H1 in *.
  - destruct (hyphen_labels_total (Py.split "." candidate)) as [H2|(r & H2)];
      rewrite H2 in *.
    + by destruct Hn.
    + exists r. split; [done|]. apply hyphen_labels_reason in H2. list_mem.
  - exists r. split; [done|]. list_mem.
Qed.

Lemma validated_accepts (candidate d : string) (r : option string) :
  validated candidate = (Some d, r) ->
  d = candidate /\ r = None /\ passes_validators candidate.
Proof.
  intros H. destruct (decide (passes_validators candidate)) as [Hp|Hn].
  - rewrite (validated_passes _ Hp) in H. by simplify_eq.
  - apply validated_fails in Hn as (? & Hv & _). congruence.
Qed.

Lemma classify_unresolved (ext : ExtractResult) :
  domain ext = "" \/ suffix ext = "" ->
  classify ext = (None, Some "invalid domain/suffix").
Proof.
  intros H. unfold classify.
  destruct H as [H|H]; apply PyFacts.truthy_false in H; rewrite H; [done|].
  by rewrite orb_true_r.
Qed.

Lemma classify_government (ext : ExtractResult) :
  domain ext <> "" -> suffix ext <> "" -> government_qualified ext ->
  classify ext = validated (government_candidate ext).
Proof.
  intros Hd Hs Hg. unfold classify.
  apply PyFacts.truthy_true in Hd, Hs. rewrite Hd, Hs. cbn [negb orb].
  apply government_test_iff in Hg. rewrite Hg.
  unfold validated, government_candidate, base_domain.
  destruct (decide (subdomain ext = "")) as [E|E].
  - apply PyFacts.truthy_false in E. by rewrite E.
  - apply PyFacts.truthy_true in E. by rewrite E.
Qed.

Lemma classify_commercial (ext : ExtractResult) :
  domain ext <> "" -> suffix ext = "lt" -> ~ government_qualified ext ->
  classify ext =
    if decide (subdomain ext = "") then validated (base_domain ext)
    else (None, Some "non-govt subdomain").
Proof.
  intros Hd Hs Hg. unfold classify.
  apply PyFacts.truthy_true in Hd. rewrite Hd, Hs. cbn [Py.truthy negb orb].
  rewrite <- government_test_iff, Hs in Hg. apply not_true_is_false in Hg.
  rewrite Hg. cbn [String.eqb Ascii.eqb Bool.eqb andb].
  unfold validated, base_domain. rewrite Hs.
  destruct (decide (subdomain ext = "")) as [E|E].
  - apply PyFacts.truthy_false in E. by rewrite E.
  - apply PyFacts.truthy_true in E. by rewrite E.
Qed.

Lemma classify_foreign (ext : ExtractResult) :
  domain ext <> "" -> suffix ext <> "" ->
  ~ government_qualified ext -> suffix ext <> "lt" ->
  classify ext = (None, Some "non-.lt domain").
Proof.
  intros Hd Hs Hg Hlt. unfold classify.
  apply PyFacts.truthy_true in Hd, Hs. rewrite Hd, Hs. cbn [negb orb].
  rewrite <- government_test_iff in Hg. apply not_true_is_false in Hg.
  rewrite Hg. apply String.eqb_neq in Hlt. by rewrite Hlt.
Qed.

Global Instance government_qualified_dec (ext : ExtractResult) :
  Decision (government_qualified ext).
Proof. unfold government_qualified. apply _. Defined.

(** Every value of [classify] is an accepted candidate that passes
    the validators, or a reason of the vocabulary. *)
Lemma classify_shape (ext : ExtractResult) :
  (exists d, classify ext = (Some d, None) /\ passes_validators d
             /\ (d = base_domain ext \/ d = government_candidate ext)
             /\ domain ext <> "" /\ suffix ext <> ""
             /\ (government_qualified ext \/ suffix ext = "lt"))
  \/ (exists reason, classify ext = (None, Some reason)
                    /\ reason ∈ reason_vocabulary).
Proof.
  destruct (decide (domain ext = "")) as [Hd|Hd].
  { right. eexists. split; [apply classify_unresolved; by left|].
    unfold reason_vocabulary. list_mem. }
  destruct (decide (suffix ext = "")) as [Hs|Hs].
  { right. eexists. split; [apply classify_unresolved; by right|].
    unfold reason_vocabulary. list_mem. }
  assert (forall c, (c = base_domain ext \/ c = government_candidate ext) ->
                    (government_qualified ext \/ suffix ext = "lt") ->
    (exists d, validated c = (Some d, None) /\ passes_validators d
               /\ (d = base_domain ext \/ d = government_candidate ext)
               /\ domain ext <> "" /\ suffix ext <> ""
               /\ (government_qualified ext \/ suffix ext = "lt"))
    \/ (exists reason, validated c = (None, Some reason)
                      /\ reason ∈ reason_vocabulary)) as Hval.
  { intros c Hc Hb. destruct (decide (passes_validators c)) as [Hp|Hn].
    - left. exists c. by rewrite (validated_passes _ Hp).
    - right. apply validated_fails in Hn as (r & Hv & Hr). exists r.
      split; [done|]. unfold reason_vocabulary. list_mem. }
  destruct (decide (government_qualified ext)) as [Hg|Hg].
  { rewrite (classify_government _ Hd Hs Hg). apply Hval; auto. }
  destruct (decide (suffix ext = "lt")) as [Hlt|Hlt].
  { rewrite (classify_commercial _ Hd Hlt Hg).
    destruct (decide (subdomain ext = "")); [apply Hval; auto|].
    right. eexists. split; [done|]. unfold reason_vocabulary. list_mem. }
  rewrite (classify_foreign _ Hd Hs Hg Hlt).
  right. eexists. split; [done|]. unfold reason_vocabulary. list_mem.
Qed.

Section ClassifierFacts.

Variable urlparse_netloc : string -> outcome string.
Variable extract : string -> ExtractResult.

Local Abbreviation norm := (normalize urlparse_netloc).
Local Abbreviation process := (process_domain urlparse_netloc extract).
Local Abbreviation reaches := (reaches_resolver urlparse_netloc).
Local Abbreviation resolves := (resolved urlparse_netloc extract).

(** The paths through [process_domain]. *)
Lemma process_domain_None : process None = Returns (None, Some "empty").
Proof. reflexivity. Qed.

Lemma process_domain_blank (raw : string) :
  Py.strip raw = "" -> process (Some raw) = Returns (None, Some "empty line").
Proof. intros H. unfold process_domain. by rewrite H. Qed.

Lemma process_domain_raises (raw : string) (e : exn) :
  Py.strip raw <> "" -> norm (Py.strip raw) = Raises e ->
  process (Some raw) = Raises e.
Proof.
  intros H Hn. unfold process_domain.
  apply PyFacts.truthy_true in H. by rewrite H, Hn.
Qed.

Lemma process_domain_screened (raw w : string) :
  Py.strip raw <> "" -> norm (Py.strip raw) = Returns w ->
  process (Some raw) =
    Returns (if Re.re_match ip_pattern w then (None, Some "ip address")
             else if Re.re_match chars_pattern w
                  then classify (extract (Py.lower w))
                  else (None, Some "invalid characters")).
Proof.
  intros H Hn. unfold process_domain.
  apply PyFacts.truthy_true in H. rewrite H, Hn. cbn [negb].
  rewrite bind_Returns.
  destruct (Re.re_match ip_pattern w); [done|].
  by destruct (Re.re_match chars_pattern w).
Qed.

Lemma process_domain_reaches (raw host : string) :
  reaches raw host ->
  process (Some raw) = Returns (classify (extract host)).
Proof.
  intros (Hne & w & Hn & Hip & Hch & ->).
  by rewrite (process_domain_screened _ _ Hne Hn), Hip, Hch.
Qed.

(** Whatever [process_domain] returns is an accepted domain without a
    reason or a reason of the vocabulary without a domain. *)
Lemma process_domain_shape (raw : option string) (r : result) :
  process raw = Returns r ->
  (exists d, r = (Some d, None))
  \/ (exists reason, r = (None, Some reason) /\ reason ∈ reason_vocabulary).
Proof.
  destruct raw as [raw|].
  2:{ intros [= <-]. right. eexists. split; [done|].
      unfold reason_vocabulary. list_mem. }
  destruct (decide (Py.strip raw = "")) as [E|E].
  { rewrite (process_domain_blank _ E). intros [= <-]. right. eexists.
    split; [done|]. unfold reason_vocabulary. list_mem. }
  destruct (norm (Py.strip raw)) as [w|e] eqn:Hn.
  2:{ by rewrite (process_domain_raises _ _ E Hn). }
  rewrite (process_domain_screened _ _ E Hn). intros [= <-].
  destruct (Re.re_match ip_pattern w).
  { right. eexists. split; [done|]. unfold reason_vocabulary. list_mem. }
  destruct (Re.re_match chars_pattern w).
  2:{ right. eexists. split; [done|]. unfold reason_vocabulary. list_mem. }
  destruct (classify_shape (extract (Py.lower w)))
    as [(d & -> & _)|(reason & -> & Hr)]; eauto.
Qed.

(** An accepted domain comes out of the resolver. *)
Lemma process_domain_accepted (raw : option string) (d : string) (r : option string) :
  process raw = Returns (Some d, r) ->
  exists s host,
    raw = Some s /\ reaches s host
    /\ classify (extract host) = (Some d, r).
Proof.
  destruct raw as [raw|]; [|done].
  destruct (decide (Py.strip raw = "")) as [E|E].
  { by rewrite (process_domain_blank _ E). }
  destruct (norm (Py.strip raw)) as [w|e] eqn:Hn.
  2:{ by rewrite (process_domain_raises _ _ E Hn). }
  rewrite (process_domain_screened _ _ E Hn).
  destruct (Re.re_match ip_pattern w) eqn:Hip; [done|].
  destruct (Re.re_match chars_pattern w) eqn:Hch; [|done].
  intros [= Hc]. exists raw, (Py.lower w). repeat split; [done| |done].
  by exists w.
Qed.

(** A path to the resolver that does not go through [urlparse], by
    evaluation. *)
Ltac reach w :=
  split; [vm_compute; discriminate
         |exists w; repeat split; vm_compute; reflexivity].

Lemma resolved_classify (raw : string) (ext : ExtractResult) :
  resolves raw ext -> process (Some raw) = Returns (classify ext).
Proof. intros (host & Hr & -> & _). by apply process_domain_reaches. Qed.

Lemma validated_not_subdomain_reason (candidate : string) :
  validated candidate <> (None, Some "non-govt subdomain").
Proof.
  destruct (decide (passes_validators candidate)) as [Hp|Hn].
  - by rewrite (validated_passes _ Hp).
  - apply validated_fails in Hn as (r & -> & Hr). intros [= ->].
    revert Hr. rewrite !elem_of_cons, elem_of_nil. intuition discriminate.
Qed.

(** C1. An input that resolves to one of the suffixes lrv.lt, edu.lt,
    mil.lt, gov.lt, or to the suffix lt with one of the domains lrv, edu,
    mil, has as candidate subdomain.domain.suffix when the subdomain is
    not empty and domain.suffix otherwise; the candidate is accepted
    when it passes both validators and rejected when it does not. In
    particular [vilnius.LRV.lt.] is accepted as [vilnius.lrv.lt]. *)
Theorem government_branch :
  (forall raw ext,
      resolves raw ext -> government_qualified ext ->
      (passes_validators (government_candidate ext) ->
       process (Some raw) = Returns (Some (government_candidate ext), None))
      /\ (~ passes_validators (government_candidate ext) ->
          exists reason, process (Some raw) = Returns (None, Some reason)))
  /\ (extract "vilnius.lrv.lt"
      = {| subdomain := "vilnius"; domain := "lrv"; suffix := "lt" |} ->
      process (Some "vilnius.LRV.lt.") = Returns (Some "vilnius.lrv.lt", None)).
Proof.
  split.
  - intros raw ext Hres Hg. pose proof Hres as (host & _ & _ & Hd & Hs).
    rewrite (resolved_classify _ _ Hres), (classify_government _ Hd Hs Hg).
    split.
    + intros Hp. by rewrite (validated_passes _ Hp).
    + intros Hn. apply validated_fails in Hn as (r & -> & _). by exists r.
  - intros Hext.
    assert (reaches "vilnius.LRV.lt." "vilnius.lrv.lt") as Hr
      by reach "vilnius.LRV.lt".
    rewrite (process_domain_reaches _ _ Hr), Hext. by vm_compute.
Qed.

(** C2. An input that resolves to the suffix lt and is not
    government-qualified is rejected with [non-govt subdomain] exactly
    when its subdomain is not empty; without a subdomain the candidate
    domain.suffix is accepted when it passes both validators. In
    particular [shop.example.lt] is rejected with that reason. *)
Theorem commercial_branch :
  (forall raw ext,
      resolves raw ext -> suffix ext = "lt" -> ~ government_qualified ext ->
      (process (Some raw) = Returns (None, Some "non-govt subdomain")
       <-> subdomain ext <> "")
      /\ (subdomain ext = "" -> passes_validators (base_domain ext) ->
          process (Some raw) = Returns (Some (base_domain ext), None)))
  /\ (extract "shop.example.lt"
      = {| subdomain := "shop"; domain := "example"; suffix := "lt" |} ->
      process (Some "shop.example.lt") = Returns (None, Some "non-govt subdomain")).
Proof.
  split.
  - intros raw ext Hres Hlt Hg. pose proof Hres as (host & _ & _ & Hd & _).
    rewrite (resolved_classify _ _ Hres), (classify_commercial _ Hd Hlt Hg).
    destruct (decide (subdomain ext = "")) as [E|E].
    + split.
      * split; [|done]. intros [= H]. by apply validated_not_subdomain_reason in H.
      * intros _ Hp. by rewrite (validated_passes _ Hp).
    + split; [done|]. done.
  - intros Hext.
    assert (reaches "shop.example.lt" "shop.example.lt") as Hr
      by reach "shop.example.lt".
    rewrite (process_domain_reaches _ _ Hr), Hext. by vm_compute.
Qed.

End ClassifierFacts.

(** The scenarios of C1 and C2 and an instance of each general part,
    with the executable models of [urlparse] and of the resolver. *)
Lemma government_branch_witness :
  process_domain Urllib.urlsplit_netloc Tld.sample_extract (Some "vilnius.LRV.lt.")
  = Returns (Some "vilnius.lrv.lt", None)
  /\ process_domain Urllib.urlsplit_netloc Tld.sample_extract (Some "old.stat.gov.lt")
    = Returns (Some "old.stat.gov.lt", None).
Proof.
  destruct (government_branch Urllib.urlsplit_netloc Tld.sample_extract) as [H1 H2].
  split; [apply H2; reflexivity|].
  destruct (H1 "old.stat.gov.lt" {| subdomain := "old"; domain := "stat"; suffix := "gov.lt" |})
    as [Haccept _].
  - exists "old.stat.gov.lt". repeat split; try (vm_compute; discriminate).
    exists "old.stat.gov.lt". repeat split; vm_compute; reflexivity.
  - left. unfold government_suffixes. cbn [suffix].
    rewrite !elem_of_cons. auto.
  - apply Haccept. split; vm_compute; reflexivity.
Defined.

Lemma commercial_branch_witness :
  process_domain Urllib.urlsplit_netloc Tld.sample_extract (Some "shop.example.lt")
  = Returns (None, Some "non-govt subdomain")
  /\ process_domain Urllib.urlsplit_netloc Tld.sample_extract (Some "example.lt")
    = Returns (Some "example.lt", None).
Proof.
  destruct (commercial_branch Urllib.urlsplit_netloc Tld.sample_extract) as [H1 H2].
  split; [apply H2; reflexivity|].
  destruct (H1 "example.lt" {| subdomain := ""; domain := "example"; suffix := "lt" |})
    as [_ Haccept].
  - exists "example.lt". repeat split; try (vm_compute; discriminate).
    exists "example.lt". repeat split; vm_compute; reflexivity.
  - reflexivity.
  - unfold government_qualified, government_suffixes, government_names.
    cbn [suffix domain].
    rewrite !elem_of_cons, !elem_of_nil. intuition discriminate.
  - apply Haccept; [reflexivity|]. split; vm_compute; reflexivity.
Defined.

(** ** The screens before the resolver *)

Lemma scheme_match_iff (s : string) :
  Re.re_match scheme_pattern s = true <-> has_scheme s.
Proof.
  unfold scheme_pattern. rewrite ReFacts.re_match_prefix. unfold has_scheme. split.
  - intros (s1 & s2 & -> & H). apply ReFacts.Matches_Cat in H as (l & t & -> & Hl & Ht).
    apply ReFacts.Matches_Plus_Class in Hl as [Hne Hall].
    apply ReFacts.Matches_Lit in Ht as ->.
    exists l, s2. by rewrite PyFacts.app_assoc.
  - intros (l & rest & Hne & Hall & ->). exists (l +:+ "://"), rest.
    split; [by rewrite PyFacts.app_assoc|].
    apply ReFacts.Matches_Cat. exists l, "://". repeat split.
    + by apply ReFacts.Matches_Plus_Class.
    + by apply ReFacts.Matches_Lit.
Qed.

Lemma dot_digits_iff (s : string) :
  Re.Matches (Re.Cat (Re.Chr ".") (Re.Plus (Re.Class Re.digit))) s
  <-> exists a, digits a /\ s = "." +:+ a.
Proof.
  rewrite ReFacts.Matches_Cat. split.
  - intros (s1 & s2 & -> & H1 & H2). apply ReFacts.Matches_Chr in H1 as ->.
    apply ReFacts.Matches_Plus_Class in H2. by exists s2.
  - intros (a & Ha & ->). exists ".", a. repeat split.
    + by apply ReFacts.Matches_Chr.
    + by apply ReFacts.Matches_Plus_Class.
Qed.

Lemma ip_body_iff (w : string) :
  Re.Matches (Re.body ip_pattern) w <-> dotted_quad w.
Proof.
  unfold ip_pattern, dotted_quad. cbn [Re.body Re.Repeat].
  rewrite ReFacts.Matches_Cat. split.
  - intros (a & t & -> & Ha & Ht). apply ReFacts.Matches_Plus_Class in Ha.
    apply ReFacts.Matches_Cat in Ht as (t1 & u & -> & H1 & Hu).
    apply dot_digits_iff in H1 as (b & Hb & ->).
    apply ReFacts.Matches_Cat in Hu as (t2 & v & -> & H2 & Hv).
    apply dot_digits_iff in H2 as (c & Hc & ->).
    apply ReFacts.Matches_Cat in Hv as (t3 & x & -> & H3 & Hx).
    apply dot_digits_iff in H3 as (d & Hd & ->).
    apply ReFacts.Matches_Eps in Hx as ->.
    exists a, b, c, d. refine (conj Ha (conj Hb (conj Hc (conj Hd _)))).
    rewrite PyFacts.app_nil_r. by rewrite !PyFacts.app_assoc.
  - intros (a & b & c & d & Ha & Hb & Hc & Hd & ->).
    exists a, ("." +:+ b +:+ "." +:+ c +:+ "." +:+ d).
    split; [reflexivity|]. split; [by apply ReFacts.Matches_Plus_Class|].
    apply ReFacts.Matches_Cat. exists ("." +:+ b), ("." +:+ c +:+ "." +:+ d).
    split; [reflexivity|]. split; [apply dot_digits_iff; eauto|].
    apply ReFacts.Matches_Cat. exists ("." +:+ c), ("." +:+ d).
    split; [reflexivity|]. split; [apply dot_digits_iff; eauto|].
    apply ReFacts.Matches_Cat. exists ("." +:+ d), "".
    split; [by rewrite PyFacts.app_nil_r|]. split; [apply dot_digits_iff; eauto|].
    by apply ReFacts.Matches_Eps.
Qed.

(** The anchor [$] lets the pattern of IP addresses match a dotted quad
    and also a dotted quad followed by a line feed that ends the string. *)
Lemma ip_match_iff (w : string) :
  Re.re_match ip_pattern w = true <->
  dotted_quad w \/ exists q, dotted_quad q /\ w = q +:+ Py.nl.
Proof.
  change ip_pattern with {| Re.body := Re.body ip_pattern; Re.dollar := true |}.
  rewrite ReFacts.re_match_dollar, ip_body_iff. split.
  - intros [H|(q & -> & H)]; [by left|]. right. exists q. split; [|done].
    by apply ip_body_iff.
  - intros [H|(q & H & ->)]; [by left|]. right. exists q. split; [done|].
    by apply ip_body_iff.
Qed.

Lemma single_line_not_terminated (q : string) : ~ single_line (q +:+ Py.nl).
Proof.
  unfold single_line. rewrite PyFacts.all_app. cbn.
  rewrite andb_false_r. discriminate.
Qed.

Lemma count_dots_app (s t : string) :
  count_dots (s +:+ t) = (count_dots s + count_dots t)%nat.
Proof.
  induction s as [|c s IH]; [done|]. rewrite PyFacts.app_cons. cbn [count_dots].
  rewrite IH. lia.
Qed.

Lemma count_dots_digits (s : string) : digits s -> count_dots s = 0%nat.
Proof.
  intros [_ H]. induction s as [|c s IH]; [done|]. cbn [Py.all] in H.
  apply andb_true_iff in H as [Hc Hs]. cbn [count_dots]. rewrite (IH Hs).
  destruct (Ascii.eqb c ".") eqn:E; [|done].
  apply Ascii.eqb_eq in E. subst c. discriminate.
Qed.

Lemma count_dots_quad (w : string) : dotted_quad w -> count_dots w = 3%nat.
Proof.
  intros (a & b & c & d & Ha & Hb & Hc & Hd & ->).
  rewrite !count_dots_app.
  rewrite (count_dots_digits _ Ha), (count_dots_digits _ Hb),
    (count_dots_digits _ Hc), (count_dots_digits _ Hd).
  reflexivity.
Qed.

Lemma www_prefixed_startswith (u rest : string) :
  www_prefixed u rest -> Py.startswith "www." (Py.lower u) = true.
Proof.
  intros (p & _ & Hp & ->). apply PyFacts.startswith_spec.
  exists (Py.lower rest). by rewrite PyFacts.lower_app, Hp.
Qed.

Lemma startswith_www_prefixed (u : string) :
  Py.startswith "www." (Py.lower u) = true -> www_prefixed u (Py.slice_from 4 u).
Proof.
  intros H. apply PyFacts.startswith_spec in H as [t Ht].
  destruct u as [|a [|b [|c [|d u]]]]; try discriminate Ht.
  exists (String a (String b (String c (String d "")))).
  split; [reflexivity|]. split; [|reflexivity].
  cbn [Py.lower] in *. rewrite !PyFacts.app_cons in Ht.
  injection Ht as -> -> -> -> _. reflexivity.
Qed.

(** The [www.] step of [normalize]. *)
Lemma www_step (u : string) :
  www_stripped u
    (if Py.startswith "www." (Py.lower u) then Py.slice_from 4 u else u).
Proof.
  destruct (Py.startswith "www." (Py.lower u)) eqn:E.
  - left. by apply startswith_www_prefixed.
  - right. split; [|done]. intros rest H.
    apply www_prefixed_startswith in H. congruence.
Qed.

Section ScreeningFacts.

Variable urlparse_netloc : string -> outcome string.
Variable extract : string -> ExtractResult.

Local Abbreviation norm := (normalize urlparse_netloc).
Local Abbreviation process := (process_domain urlparse_netloc extract).

(** [normalize] when the string has no scheme: [urlparse] is not
    called. *)
Lemma normalize_plain (cleaned : string) :
  Re.re_match scheme_pattern (Py.rstrip (Ascii.eqb ".") cleaned) = false ->
  norm cleaned =
    Returns (let s := Py.rstrip (Ascii.eqb ".") cleaned in
             if Py.startswith "www." (Py.lower s) then Py.slice_from 4 s else s).
Proof. intros H. unfold normalize. by rewrite H. Qed.

Lemma normalize_url (cleaned : string) :
  Re.re_match scheme_pattern (Py.rstrip (Ascii.eqb ".") cleaned) = true ->
  norm cleaned =
    match urlparse_netloc (Py.rstrip (Ascii.eqb ".") cleaned) with
    | Returns host =>
        Returns (let u := Py.or_else host (Py.rstrip (Ascii.eqb ".") cleaned) in
                 if Py.startswith "www." (Py.lower u) then Py.slice_from 4 u else u)
    | Raises e => Raises e
    end.
Proof.
  intros H. unfold normalize. rewrite H.
  by destruct (urlparse_netloc (Py.rstrip (Ascii.eqb ".") cleaned)).
Qed.

(** [process_domain] on an input that is not blank: [normalize], then
    [screen]. *)
Lemma process_domain_screen (raw : string) :
  Py.strip raw <> "" ->
  process (Some raw) = (w ← norm (Py.strip raw); mret (screen extract w)).
Proof.
  intros H. unfold process_domain, screen.
  apply PyFacts.truthy_true in H. rewrite H. cbn [negb].
  destruct (norm (Py.strip raw)) as [w|e]; [|done].
  rewrite !bind_Returns.
  destruct (Re.re_match ip_pattern w); [done|].
  by destruct (Re.re_match chars_pattern w).
Qed.

(** C5. After the trailing dots are gone, [process_domain] first looks
    for a scheme, one or more letters followed by [://]: with one, the
    working string becomes the host that [urlparse] gives when that host
    is not empty and stays as it is otherwise; then a leading [www.], in
    any case of the letters, is cut off with its four characters. This
    holds of [normalize] on every string, and of [process_domain] on every
    input that is not blank: its result is what the rest of the function
    makes of the string so normalized, and it raises when [urlparse]
    does. Hence [https://www.LRV.lt/page] is accepted as [lrv.lt]. *)
Theorem normalization_order :
  (forall cleaned,
      let s := Py.rstrip (Ascii.eqb ".") cleaned in
      (has_scheme s ->
       forall host, urlparse_netloc s = Returns host ->
         exists w, norm cleaned = Returns w
                   /\ www_stripped (if decide (host = "") then s else host) w)
      /\ (has_scheme s ->
          forall e, urlparse_netloc s = Raises e -> norm cleaned = Raises e)
      /\ (~ has_scheme s ->
          exists w, norm cleaned = Returns w /\ www_stripped s w))
  /\ (forall raw,
        Py.strip raw <> "" ->
        let s := Py.rstrip (Ascii.eqb ".") (Py.strip raw) in
        (has_scheme s ->
         forall host, urlparse_netloc s = Returns host ->
           exists w, www_stripped (if decide (host = "") then s else host) w
                     /\ process (Some raw) = Returns (screen extract w))
        /\ (has_scheme s ->
            forall e, urlparse_netloc s = Raises e -> process (Some raw) = Raises e)
        /\ (~ has_scheme s ->
            exists w, www_stripped s w
                      /\ process (Some raw) = Returns (screen extract w)))
  /\ (urlparse_netloc "https://www.LRV.lt/page" = Returns "www.LRV.lt" ->
      extract "lrv.lt" = {| subdomain := ""; domain := "lrv"; suffix := "lt" |} ->
      process (Some "https://www.LRV.lt/page") = Returns (Some "lrv.lt", None)).
Proof.
  assert (forall cleaned,
      let s := Py.rstrip (Ascii.eqb ".") cleaned in
      (has_scheme s ->
       forall host, urlparse_netloc s = Returns host ->
         exists w, norm cleaned = Returns w
                   /\ www_stripped (if decide (host = "") then s else host) w)
      /\ (has_scheme s ->
          forall e, urlparse_netloc s = Raises e -> norm cleaned = Raises e)
      /\ (~ has_scheme s ->
          exists w, norm cleaned = Returns w /\ www_stripped s w)) as Hnorm.
  { intros cleaned s. repeat split.
    + intros Hs host Hh. apply scheme_match_iff in Hs.
      rewrite (normalize_url _ Hs). fold s. rewrite Hh. eexists. split; [done|].
      cbn zeta. unfold Py.or_else.
      destruct (decide (host = "")) as [->|Hne]; [apply www_step|].
      apply PyFacts.truthy_true in Hne. rewrite Hne. apply www_step.
    + intros Hs e He. apply scheme_match_iff in Hs.
      rewrite (normalize_url _ Hs). fold s. by rewrite He.
    + intros Hs. rewrite <- scheme_match_iff in Hs. apply not_true_is_false in Hs.
      rewrite (normalize_plain _ Hs). eexists. split; [done|]. apply www_step. }
  split; [exact Hnorm|]. split.
  - intros raw Hne s. rewrite (process_domain_screen _ Hne).
    destruct (Hnorm (Py.strip raw)) as (Hurl & Hraise & Hplain). fold s in Hurl, Hraise, Hplain.
    repeat split.
    + intros Hs host Hh. destruct (Hurl Hs host Hh) as (w & -> & Hw). by exists w.
    + intros Hs e He. by rewrite (Hraise Hs e He).
    + intros Hs. destruct (Hplain Hs) as (w & -> & Hw). by exists w.
  - intros Hurl Hext.
    assert (Py.strip "https://www.LRV.lt/page" <> "") as Hne
      by (vm_compute; discriminate).
    assert (norm (Py.strip "https://www.LRV.lt/page") = Returns "LRV.lt") as Hn.
    { rewrite normalize_url by (vm_compute; reflexivity).
      change (Py.rstrip _ (Py.strip "https://www.LRV.lt/page"))
        with "https://www.LRV.lt/page".
      rewrite Hurl. by vm_compute. }
    rewrite (process_domain_screened _ _ _ _ Hne Hn).
    change (Py.lower "LRV.lt") with "lrv.lt". rewrite Hext. by vm_compute.
Qed.

(** The reason [ip address] is returned exactly when the pattern of IP
    addresses matches the normalized string. *)
Lemma ip_address_exact (raw w : string) :
  Py.strip raw <> "" -> norm (Py.strip raw) = Returns w ->
  process (Some raw) = Returns (None, Some "ip address")
  <-> dotted_quad w \/ exists q, dotted_quad q /\ w = q +:+ Py.nl.
Proof.
  intros Hne Hn. rewrite (process_domain_screened _ _ _ _ Hne Hn), <- ip_match_iff.
  destruct (Re.re_match ip_pattern w); [done|]. split; [|done].
  destruct (Re.re_match chars_pattern w); [|done].
  intros [= H].
  destruct (classify_shape (extract (Py.lower w))) as [(d & Hd & _)|(r & Hr & Hv)];
    [congruence|].
  exfalso. revert H. generalize (extract (Py.lower w)). intros ext H.
  clear Hr Hv r. revert H. unfold classify.
  destruct (negb (Py.truthy (domain ext)) || negb (Py.truthy (suffix ext)));
    [discriminate|].
  assert (forall c, validated c <> (None, Some "ip address")) as Hval.
  { intros c. destruct (decide (passes_validators c)) as [Hp|Hp].
    - by rewrite (validated_passes _ Hp).
    - apply validated_fails in Hp as (r & -> & Hr). intros [= ->]. revert Hr.
      rewrite !elem_of_cons, elem_of_nil. intuition discriminate. }
  destruct (bool_decide _ || _).
  - apply Hval.
  - destruct (String.eqb (suffix ext) "lt"); [|discriminate].
    destruct (Py.truthy (subdomain ext)); [discriminate|]. apply Hval.
Qed.

(** C6. [process_domain] gives the reason [ip address] exactly when the
    normalized string is four groups of one or more digits with three dots
    between them, or such a string followed by one line feed that ends
    it: the [$] of the pattern also holds just before a final line feed.
    On a normalized string that is a single line the reason is given
    exactly for the four groups. The values of the groups are not looked
    at, so [192.168.1.1] and [999.999.999.999] are both rejected with it,
    and a string with fewer than three dots is not. *)
Theorem ip_address_structural :
  (forall raw w,
      Py.strip raw <> "" -> norm (Py.strip raw) = Returns w ->
      (process (Some raw) = Returns (None, Some "ip address")
       <-> dotted_quad w \/ exists q, dotted_quad q /\ w = q +:+ Py.nl)
      /\ (single_line w ->
          (process (Some raw) = Returns (None, Some "ip address") <-> dotted_quad w))
      /\ ((count_dots w < 3)%nat ->
          process (Some raw) <> Returns (None, Some "ip address")))
  /\ process (Some "192.168.1.1") = Returns (None, Some "ip address")
  /\ process (Some "999.999.999.999") = Returns (None, Some "ip address").
Proof.
  split; [|split; reflexivity].
  intros raw w Hne Hn. pose proof (ip_address_exact _ _ Hne Hn) as Hiff.
  split; [exact Hiff|]. split.
  - intros Hline. rewrite Hiff. split; [|by left].
    intros [H|(q & _ & ->)]; [done|]. by apply single_line_not_terminated in Hline.
  - intros Hlt H. apply Hiff in H as [H|(q & H & ->)].
    + apply count_dots_quad in H. lia.
    + apply count_dots_quad in H. rewrite count_dots_app in Hlt. lia.
Qed.

(** C10. An input that is not empty after trimming and then holds
    nothing but dots loses all of them as trailing dots; the empty
    working string fails the test of the characters and the reason is
    [invalid characters], not [empty line]. *)
Theorem dots_only_invalid_characters (raw : string) :
  Py.strip raw <> "" -> Py.all (Ascii.eqb ".") (Py.strip raw) = true ->
  process (Some raw) = Returns (None, Some "invalid characters").
Proof.
  intros Hne Hdots.
  assert (norm (Py.strip raw) = Returns "") as Hn.
  { rewrite normalize_plain; rewrite (PyFacts.rstrip_all _ _ Hdots); reflexivity. }
  by rewrite (process_domain_screened _ _ _ _ Hne Hn).
Qed.

End ScreeningFacts.

Lemma normalization_order_witness :
  process_domain Urllib.urlsplit_netloc Tld.sample_extract
    (Some "https://www.LRV.lt/page") = Returns (Some "lrv.lt", None)
  /\ (exists w,
        normalize Urllib.urlsplit_netloc "WWW.Example.lt.." = Returns w
        /\ www_stripped "WWW.Example.lt" w)
  /\ exists w,
       www_stripped "WWW.Example.lt" w
       /\ process_domain Urllib.urlsplit_netloc Tld.sample_extract
            (Some " WWW.Example.lt.. ")
          = Returns (screen Tld.sample_extract w).
Proof.
  destruct (normalization_order Urllib.urlsplit_netloc Tld.sample_extract)
    as (H1 & H2 & H3).
  split; [apply H3; reflexivity|]. split.
  - destruct (H1 "WWW.Example.lt..") as (_ & _ & H). apply H.
    intros Hs. apply scheme_match_iff in Hs. vm_compute in Hs. discriminate.
  - destruct (H2 " WWW.Example.lt.. ") as (_ & _ & H).
    + vm_compute. discriminate.
    + apply H. intros Hs. apply scheme_match_iff in Hs. vm_compute in Hs.
      discriminate.
Defined.

Lemma ip_address_structural_witness :
  (process_domain Urllib.urlsplit_netloc Tld.sample_extract (Some "10.0.0.256")
   = Returns (None, Some "ip address")
   <-> dotted_quad "10.0.0.256")
  /\ process_domain Urllib.urlsplit_netloc Tld.sample_extract (Some "10.0.256")
     <> Returns (None, Some "ip address").
Proof.
  destruct (ip_address_structural Urllib.urlsplit_netloc Tld.sample_extract)
    as [H _].
  split.
  - destruct (H "10.0.0.256" "10.0.0.256") as (_ & Hiff & _).
    + vm_compute. discriminate.
    + reflexivity.
    + apply Hiff. reflexivity.
  - destruct (H "10.0.256" "10.0.256") as (_ & _ & Hdots).
    + vm_compute. discriminate.
    + reflexivity.
    + apply Hdots. vm_compute. lia.
Defined.

(** Without the final line feed in the statement the equivalence
    fails: the normalized string of the input [1.2.3.4], line feed, dot
    is [1.2.3.4] followed by a line feed, which is no dotted quad, and the
    reason is [ip address]. *)
Lemma ip_address_structural_counterexample :
  exists raw w,
    Py.strip raw <> ""
    /\ normalize Urllib.urlsplit_netloc (Py.strip raw) = Returns w
    /\ process_domain Urllib.urlsplit_netloc Tld.sample_extract (Some raw)
       = Returns (None, Some "ip address")
    /\ ~ dotted_quad w.
Proof.
  exists ("1.2.3.4" +:+ Py.nl +:+ "."), ("1.2.3.4" +:+ Py.nl).
  split; [vm_compute; discriminate|]. split; [reflexivity|]. split; [reflexivity|].
  intros H. apply ip_body_iff, ReFacts.accepts_spec in H.
  vm_compute in H. discriminate.
Qed.

Lemma dots_only_invalid_characters_witness :
  process_domain Urllib.urlsplit_netloc Tld.sample_extract (Some "...")
  = Returns (None, Some "invalid characters").
Proof.
  apply dots_only_invalid_characters.
  - vm_compute. discriminate.
  - reflexivity.
Defined.

(** The anchor [$] at work outside the single lines: a dotted quad
    followed by a line feed and a dot is rejected as an IP address. *)
Example ip_address_trailing_line_feed (extract : string -> ExtractResult) :
  process_domain Urllib.urlsplit_netloc extract (Some ("1.2.3.4" +:+ Py.nl +:+ "."))
  = Returns (None, Some "ip address").
Proof. reflexivity. Qed.

(** C4. [process_domain] does not return for every input: on the line
    [http://[] the call of [urlparse] raises [ValueError] (an unmatched
    bracket in the host), nothing catches it, and it also ends the run of
    the batch driver. The absent input [None] gives the reason [empty]. *)
Theorem process_domain_raises_on_unmatched_bracket (extract : string -> ExtractResult) :
  process_domain Urllib.urlsplit_netloc extract (Some "http://[") = Raises ValueError
  /\ clean_domains Urllib.urlsplit_netloc extract (Some ["http://["]) = Raises ValueError
  /\ process_domain Urllib.urlsplit_netloc extract None = Returns (None, Some "empty").
Proof. repeat split; reflexivity. Qed.

(** ** The batch driver *)

Lemma codepoint_lt_of_le (a b : string) : String.le a b -> a <> b -> codepoint_lt a b.
Proof.
  unfold String.le, String.leb, codepoint_lt. intros Hle Hne.
  destruct (String.compare a b) eqn:E; [|done|done].
  by apply String.compare_eq_iff in E.
Qed.

Lemma Sorted_strict (l : list string) :
  Sorted String.le l -> NoDup l -> Sorted codepoint_lt l.
Proof.
  induction 1 as [|x l Hs IH Hhd]; intros Hnd; [constructor|].
  apply NoDup_cons in Hnd as [Hx Hnd]. constructor; [auto|].
  destruct Hhd as [|y l Hxy]; constructor.
  apply codepoint_lt_of_le; [done|]. intros ->. apply Hx. by left.
Qed.

(** [sorted] lists the elements of the set, each once, every element
    strictly below the next. *)
Lemma sorted_spec (s : gset string) :
  Sorted codepoint_lt (sorted s) /\ NoDup (sorted s)
  /\ forall d, d ∈ sorted s <-> d ∈ s.
Proof.
  unfold sorted.
  assert (NoDup (merge_sort String.le (elements s))) as Hnd.
  { rewrite merge_sort_Permutation. apply NoDup_elements. }
  repeat split.
  - apply Sorted_strict; [|done]. apply Sorted_merge_sort. apply _.
  - done.
  - rewrite merge_sort_Permutation. apply elem_of_elements.
  - rewrite merge_sort_Permutation. apply elem_of_elements.
Qed.

(** The order in which the set hands out its elements does not show in
    the sorted list. *)
Lemma sorted_any_order (s : gset string) (l : list string) :
  l ≡ₚ elements s -> merge_sort String.le l = sorted s.
Proof.
  intros Hl. unfold sorted.
  apply (StronglySorted_unique String.le).
  - apply StronglySorted_merge_sort; apply _.
  - apply StronglySorted_merge_sort; apply _.
  - by rewrite !merge_sort_Permutation.
Qed.

Section DriverFacts.

Variable urlparse_netloc : string -> outcome string.
Variable extract : string -> ExtractResult.

Local Abbreviation process := (process_domain urlparse_netloc extract).
Local Abbreviation step := (driver_step urlparse_netloc extract).
Local Abbreviation loop := (driver_loop urlparse_netloc extract).
Local Abbreviation run := (clean_domains urlparse_netloc extract).
Local Abbreviation line_dom := (line_domain urlparse_netloc extract).
Local Abbreviation accepted := (accepted_domains urlparse_netloc extract).
Local Abbreviation raises := (some_line_raises urlparse_netloc extract).

Lemma driver_step_raises (st : driver) (line : string) (e : exn) :
  line_dom line = Raises e -> step st line = Raises e.
Proof.
  unfold line_domain, driver_step. cbv zeta.
  destruct (Py.truthy (Py.strip (Py.rstrip (Ascii.eqb Py.LF) line))); [|done].
  cbn [negb].
  destruct (process (Some (Py.rstrip (Ascii.eqb Py.LF) line))) as [r|e'];
    [|by intros [= ->]].
  rewrite bind_Returns. discriminate.
Qed.

Lemma driver_step_returns (st : driver) (line : string) (o : option string) :
  line_dom line = Returns o ->
  exists st', step st line = Returns st'
              /\ cleaned st' = cleaned st ∪ from_option singleton ∅ o.
Proof.
  unfold line_domain, driver_step. cbv zeta.
  destruct (Py.truthy (Py.strip (Py.rstrip (Ascii.eqb Py.LF) line))); cbn [negb].
  - destruct (process (Some (Py.rstrip (Ascii.eqb Py.LF) line))) as [[d r]|e];
      [|done].
    rewrite !bind_Returns. cbn [fst]. intros [= <-].
    destruct d as [d|]; cbn [from_option default].
    + destruct (Py.truthy d); eexists; (split; [reflexivity|]); cbn [cleaned].
      * done.
      * cbn [from_option]. by rewrite (right_id_L ∅ (∪)).
    + eexists. split; [reflexivity|]. cbn [cleaned from_option].
      by rewrite (right_id_L ∅ (∪)).
  - intros [= <-]. eexists. split; [reflexivity|]. cbn [cleaned from_option].
    by rewrite (right_id_L ∅ (∪)).
Qed.

Lemma accepted_cons (line : string) (lines : list string) :
  accepted (line :: lines) =
    from_option singleton ∅ (match line_dom line with
                             | Returns o => o
                             | Raises _ => None
                             end) ∪ accepted lines.
Proof.
  unfold accepted_domains. cbn [omap list_omap].
  destruct (line_dom line) as [[d|]|e]; cbn [from_option list_to_set].
  - done.
  - by rewrite (left_id_L ∅ (∪)).
  - by rewrite (left_id_L ∅ (∪)).
Qed.

Lemma driver_loop_raises (st : driver) (lines : list string) :
  raises lines -> loop st lines = Raises ValueError.
Proof.
  intros H. revert st. induction lines as [|line rest IH]; intros st.
  { by apply Exists_nil in H. }
  cbn [driver_loop]. destruct (line_dom line) as [o|e] eqn:E.
  - destruct (driver_step_returns st _ _ E) as (st' & -> & _).
    rewrite bind_Returns. apply IH. apply Exists_cons in H as [(e & He)|H]; [|done].
    congruence.
  - rewrite (driver_step_raises st _ _ E), bind_Raises. f_equal. apply exn_unique.
Qed.

Lemma driver_loop_returns (st : driver) (lines : list string) :
  ~ raises lines ->
  exists st', loop st lines = Returns st'
              /\ cleaned st' = cleaned st ∪ accepted lines.
Proof.
  revert st. induction lines as [|line rest IH]; intros st H.
  { exists st. split; [done|]. unfold accepted_domains. cbn.
    by rewrite (right_id_L ∅ (∪)). }
  cbn [driver_loop]. destruct (line_dom line) as [o|e] eqn:E.
  - destruct (driver_step_returns st _ _ E) as (st' & -> & Hc).
    rewrite bind_Returns. destruct (IH st') as (st'' & -> & Hc').
    { intros Hr. apply H. by apply Exists_cons_tl. }
    exists st''. split; [done|]. rewrite Hc', Hc, accepted_cons, E.
    by rewrite (assoc_L (∪)).
  - destruct H. apply Exists_cons_hd. eauto.
Qed.

Global Instance some_line_raises_dec (lines : list string) : Decision (raises lines).
Proof.
  unfold some_line_raises. apply Exists_dec. intros line.
  destruct (line_dom line) as [o|e].
  - right. by intros [? ?].
  - left. eauto.
Defined.

Lemma some_line_raises_perm (lines lines' : list string) :
  lines ≡ₚ lines' -> raises lines -> raises lines'.
Proof. intros Hp. unfold some_line_raises. by rewrite Hp. Qed.

Lemma accepted_perm (lines lines' : list string) :
  lines ≡ₚ lines' -> accepted lines = accepted lines'.
Proof. intros Hp. unfold accepted_domains. by rewrite Hp. Qed.

(** A run raises when some line does, and otherwise writes the sorted
    accepted domains. *)
Lemma clean_domains_raises (lines : list string) :
  raises lines -> run (Some lines) = Raises ValueError.
Proof. intros H. unfold clean_domains. by rewrite (driver_loop_raises _ _ H). Qed.

Lemma clean_domains_returns (lines : list string) :
  ~ raises lines ->
  exists out, run (Some lines) = Returns (Some out)
              /\ cleaned (final out) = accepted lines
              /\ output_file out
                 = (fun d => d +:+ Py.nl) <$> sorted (accepted lines).
Proof.
  intros H. unfold clean_domains.
  destruct (driver_loop_returns driver_init _ H) as (st & -> & Hc).
  cbn [cleaned driver_init] in Hc. rewrite (left_id_L ∅ (∪)) in Hc.
  rewrite bind_Returns. eexists. split; [reflexivity|]. cbn [final output_file].
  by rewrite Hc.
Qed.

Lemma clean_domains_inv (lines : list string) (out : files) :
  run (Some lines) = Returns (Some out) ->
  ~ raises lines
  /\ cleaned (final out) = accepted lines
  /\ output_file out = (fun d => d +:+ Py.nl) <$> sorted (accepted lines).
Proof.
  intros Hrun. destruct (decide (raises lines)) as [Hr|Hr].
  { rewrite (clean_domains_raises _ Hr) in Hrun. discriminate. }
  destruct (clean_domains_returns _ Hr) as (out' & Ho & Hc & Hf).
  rewrite Hrun in Ho. by simplify_eq.
Qed.

(** C8. For a sequence of lines and any permutation of it the batch
    driver ends the same way: it raises for both, or it returns for both
    with the same set of accepted domains and the same primary output;
    the primary output holds each domain of the set once, and each of its
    lines is strictly below the next in the order of code points. *)
Theorem output_independent_of_line_order (lines lines' : list string) :
  lines ≡ₚ lines' ->
  (forall e, run (Some lines) = Raises e -> run (Some lines') = Raises e)
  /\ (forall out,
        run (Some lines) = Returns (Some out) ->
        exists out',
          run (Some lines') = Returns (Some out')
          /\ cleaned (final out') = cleaned (final out)
          /\ output_file out' = output_file out)
  /\ (forall out,
        run (Some lines) = Returns (Some out) ->
        exists ds,
          output_file out = (fun d => d +:+ Py.nl) <$> ds
          /\ Sorted codepoint_lt ds
          /\ NoDup ds
          /\ forall d, d ∈ ds <-> d ∈ cleaned (final out)).
Proof.
  intros Hp. repeat split.
  - intros e Hrun. destruct (decide (raises lines)) as [Hr|Hr].
    + rewrite (exn_unique e). apply clean_domains_raises.
      by apply (some_line_raises_perm lines).
    + destruct (clean_domains_returns _ Hr) as (out & Ho & _). congruence.
  - intros out Hrun. apply clean_domains_inv in Hrun as (Hr & Hc & Hf).
    destruct (clean_domains_returns lines') as (out' & Ho' & Hc' & Hf').
    { intros Hr'. apply Hr. by apply (some_line_raises_perm lines'). }
    exists out'. split; [done|].
    by rewrite Hc', Hf', Hc, Hf, (accepted_perm _ _ Hp).
  - intros out Hrun. apply clean_domains_inv in Hrun as (Hr & Hc & Hf).
    exists (sorted (accepted lines)).
    destruct (sorted_spec (accepted lines)) as (Hs & Hnd & Hin).
    rewrite Hc. auto.
Qed.

End DriverFacts.

(** ** Accepted domains *)

Lemma ends_with_app (a s e : string) : ends_with s e -> ends_with (a +:+ s) e.
Proof. intros [p ->]. exists (a +:+ p). by rewrite PyFacts.app_assoc. Qed.

Lemma ends_with_lower_lt (d : string) :
  ends_with d ".lt" -> ends_with (Py.lower d) ".lt".
Proof. intros [p ->]. exists (Py.lower p). by rewrite PyFacts.lower_app. Qed.

Lemma government_suffix_lt (s : string) : s ∈ government_suffixes -> ends_with s ".lt".
Proof.
  unfold government_suffixes. rewrite !elem_of_cons, elem_of_nil.
  intros [->|[->|[->|[->|[]]]]];
    [by exists "lrv"|by exists "edu"|by exists "mil"|by exists "gov"].
Qed.

Lemma base_domain_lt (ext : ExtractResult) :
  government_qualified ext \/ suffix ext = "lt" -> ends_with (base_domain ext) ".lt".
Proof.
  intros H. unfold base_domain.
  assert (ends_with ("." +:+ suffix ext) ".lt") as He.
  { destruct H as [[H|[H _]]|H].
    - by apply ends_with_app, government_suffix_lt.
    - rewrite H. by exists "".
    - rewrite H. by exists "". }
  by apply ends_with_app.
Qed.

Lemma government_candidate_lt (ext : ExtractResult) :
  government_qualified ext \/ suffix ext = "lt" ->
  ends_with (government_candidate ext) ".lt".
Proof.
  intros H. unfold government_candidate.
  destruct (decide (subdomain ext = "")); [by apply base_domain_lt|].
  by apply ends_with_app, ends_with_app, base_domain_lt.
Qed.

Lemma length_labels_lower (ls : list string) :
  length_labels (Py.lower <$> ls) = length_labels ls.
Proof.
  induction ls as [|l ls IH]; [done|]. cbn [fmap list_fmap length_labels].
  by rewrite PyFacts.lower_length, IH.
Qed.

Lemma hyphen_labels_lower (ls : list string) :
  hyphen_labels (Py.lower <$> ls) = hyphen_labels ls.
Proof.
  induction ls as [|l ls IH]; [done|]. cbn [fmap list_fmap hyphen_labels].
  by rewrite PyFacts.startswith_hyphen_lower, PyFacts.endswith_hyphen_lower,
    PyFacts.contains_hyphens_lower, IH.
Qed.

(** Lower-casing an accepted domain, as the driver does, keeps it
    valid. *)
Lemma passes_validators_lower (d : string) :
  passes_validators d -> passes_validators (Py.lower d).
Proof.
  unfold passes_validators, is_valid_domain_length, is_valid_hyphen_rules.
  by rewrite PyFacts.split_lower, length_labels_lower, hyphen_labels_lower.
Qed.

Lemma not_lt_suffix (ext : ExtractResult) :
  ~ lt_suffix (suffix ext) -> ~ government_qualified ext /\ suffix ext <> "lt".
Proof.
  intros H. split.
  - intros [Hg|[Hlt _]]; apply H; [right|by left]. by apply government_suffix_lt.
  - intros Hlt. apply H. by left.
Qed.

Section AcceptedFacts.

Variable urlparse_netloc : string -> outcome string.
Variable extract : string -> ExtractResult.

Local Abbreviation process := (process_domain urlparse_netloc extract).
Local Abbreviation run := (clean_domains urlparse_netloc extract).
Local Abbreviation resolves := (resolved urlparse_netloc extract).
Local Abbreviation accepted := (accepted_domains urlparse_netloc extract).

Lemma accepted_is_valid_lt (raw : option string) (d : string) (r : option string) :
  process raw = Returns (Some d, r) ->
  r = None /\ passes_validators d /\ ends_with d ".lt".
Proof.
  intros H. apply process_domain_accepted in H as (s & host & _ & _ & Hc).
  destruct (classify_shape (extract host))
    as [(d' & Hd' & Hp & Hcand & _ & _ & Hb)|(reason & Hr & _)]; [|congruence].
  rewrite Hc in Hd'. simplify_eq. repeat split; [apply Hp..|].
  destruct Hcand as [->| ->];
    [by apply base_domain_lt|by apply government_candidate_lt].
Qed.

Lemma accepted_domains_from_lines (lines : list string) (d : string) :
  d ∈ accepted lines ->
  exists line d0 r,
    line ∈ lines
    /\ process (Some (Py.rstrip (Ascii.eqb Py.LF) line)) = Returns (Some d0, r)
    /\ d = Py.lower d0.
Proof.
  unfold accepted_domains. rewrite elem_of_list_to_set, list_elem_of_omap.
  intros (line & Hin & Hd). exists line. revert Hd. unfold line_domain. cbv zeta.
  destruct (Py.truthy _); [|done].
  destruct (process _) as [[[d0|] r]|e]; try done.
  rewrite bind_Returns. cbn [fst]. destruct (Py.truthy d0); [|done].
  intros [= <-]. by exists d0, r.
Qed.

(** C3. Whatever [process_domain] accepts passes the length validator
    and the hyphen validator and ends in [.lt], and so does every member
    of the result set of the driver and every line of its primary output;
    an input that resolves to a suffix that is neither [lt] nor under
    [.lt] is rejected with [non-.lt domain], as [example.com] is. *)
Theorem accepted_domains_are_valid_lt :
  (forall raw d r,
      process raw = Returns (Some d, r) ->
      r = None /\ passes_validators d /\ ends_with d ".lt")
  /\ (forall lines out d,
        run (Some lines) = Returns (Some out) ->
        d ∈ cleaned (final out) ->
        passes_validators d /\ ends_with d ".lt")
  /\ (forall lines out line,
        run (Some lines) = Returns (Some out) ->
        line ∈ output_file out ->
        exists d, line = d +:+ Py.nl /\ passes_validators d /\ ends_with d ".lt")
  /\ (forall raw ext,
        resolves raw ext -> ~ lt_suffix (suffix ext) ->
        process (Some raw) = Returns (None, Some "non-.lt domain"))
  /\ (extract "example.com"
      = {| subdomain := ""; domain := "example"; suffix := "com" |} ->
      process (Some "example.com") = Returns (None, Some "non-.lt domain")).
Proof.
  assert (forall lines out d,
             run (Some lines) = Returns (Some out) -> d ∈ cleaned (final out) ->
             passes_validators d /\ ends_with d ".lt") as Hset.
  { intros lines out d Hrun Hd.
    apply clean_domains_inv in Hrun as (_ & Hc & _). rewrite Hc in Hd.
    apply accepted_domains_from_lines in Hd as (line & d0 & r & _ & Hp & ->).
    apply accepted_is_valid_lt in Hp as (_ & Hv & He).
    split; [by apply passes_validators_lower|by apply ends_with_lower_lt]. }
  split; [apply accepted_is_valid_lt|]. split; [exact Hset|]. split; [|split].
  - intros lines out line Hrun Hline.
    pose proof Hrun as (_ & Hc & Hf)%clean_domains_inv.
    rewrite Hf in Hline. apply list_elem_of_fmap in Hline as (d & -> & Hd).
    exists d. split; [done|]. apply (Hset lines out); [done|].
    rewrite Hc. by apply sorted_spec.
  - intros raw ext Hres Hn. pose proof Hres as (host & _ & _ & Hd & Hs).
    apply not_lt_suffix in Hn as [Hg Hlt].
    by rewrite (resolved_classify _ _ _ _ Hres), (classify_foreign _ Hd Hs Hg Hlt).
  - intros Hext.
    assert (reaches_resolver urlparse_netloc "example.com" "example.com") as Hr.
    { split; [vm_compute; discriminate|].
      exists "example.com". repeat split; vm_compute; reflexivity. }
    rewrite (process_domain_reaches _ _ _ _ Hr), Hext. by vm_compute.
Qed.

End AcceptedFacts.

Lemma output_independent_of_line_order_witness :
  exists out,
    clean_domains Urllib.urlsplit_netloc Tld.sample_extract
      (Some ["aaa.lt"; "ZZ.lt"; "  "; "zz.lt"])
    = Returns (Some out)
    /\ output_file out = ["aaa.lt" +:+ Py.nl; "zz.lt" +:+ Py.nl].
Proof.
  destruct (output_independent_of_line_order Urllib.urlsplit_netloc
              Tld.sample_extract
              ["ZZ.lt"; "aaa.lt"; "  "; "zz.lt"]
              ["aaa.lt"; "ZZ.lt"; "  "; "zz.lt"]) as (_ & H & _).
  { apply perm_swap. }
  edestruct H as (out & Hrun & _ & Hout); [vm_compute; reflexivity|].
  exists out. split; [exact Hrun|]. rewrite Hout. vm_compute. reflexivity.
Defined.

Lemma accepted_domains_are_valid_lt_witness :
  passes_validators "example.lt" /\ ends_with "example.lt" ".lt"
  /\ process_domain Urllib.urlsplit_netloc Tld.sample_extract (Some "example.com")
     = Returns (None, Some "non-.lt domain").
Proof.
  destruct (accepted_domains_are_valid_lt Urllib.urlsplit_netloc Tld.sample_extract)
    as (H1 & _ & _ & _ & H5).
  destruct (H1 (Some "example.lt") "example.lt" None) as (_ & Hp & He);
    [reflexivity|].
  split; [exact Hp|]. split; [exact He|]. apply H5. reflexivity.
Defined.

(** ** The remove-domains utility *)

Lemma trimmed_lines_cons (line : string) (lines : list string) :
  trimmed_lines (line :: lines) =
    if Py.truthy (Py.strip line) then Py.strip line :: trimmed_lines lines
    else trimmed_lines lines.
Proof.
  unfold trimmed_lines. cbn [fmap list_fmap]. rewrite filter_cons.
  destruct (decide (Py.strip line <> "")) as [H|H].
  - apply PyFacts.truthy_true in H. by rewrite H.
  - apply dec_stable in H. by rewrite H.
Qed.

Lemma load_removees_from (lines : list string) (excluded : gset string) :
  foldl (fun excluded line =>
           let domain := Py.strip line in
           if Py.truthy domain then excluded ∪ {[ domain ]} else excluded)
        excluded lines
  = excluded ∪ list_to_set (trimmed_lines lines).
Proof.
  revert excluded. induction lines as [|line lines IH]; intros excluded.
  { cbn. by rewrite (right_id_L ∅ (∪)). }
  cbn [foldl]. rewrite IH, trimmed_lines_cons. cbv zeta.
  destruct (Py.truthy (Py.strip line)); [|done].
  cbn [list_to_set]. by rewrite (assoc_L (∪)).
Qed.

(** The set of the first loop holds the trimmed non-empty lines of the
    blocklist. *)
Lemma load_removees_spec (lines : list string) (domain : string) :
  domain ∈ load_removees lines <-> domain ∈ trimmed_lines lines.
Proof.
  unfold load_removees. rewrite load_removees_from, (left_id_L ∅ (∪)).
  apply elem_of_list_to_set.
Qed.

Lemma filter_domains_from (excluded : gset string) (lines filtered : list string) :
  foldl (fun filtered line =>
           let domain := Py.strip line in
           if Py.truthy domain && negb (bool_decide (domain ∈ excluded))
           then filtered ++ [domain] else filtered)
        filtered lines
  = filtered ++ filter (fun domain => domain ∉ excluded) (trimmed_lines lines).
Proof.
  revert filtered. induction lines as [|line lines IH]; intros filtered.
  { cbn. by rewrite app_nil_r. }
  cbn [foldl]. rewrite IH, trimmed_lines_cons. cbv zeta.
  destruct (Py.truthy (Py.strip line)); cbn [andb]; [|done].
  rewrite filter_cons.
  destruct (decide (Py.strip line ∉ excluded)) as [H|H].
  - rewrite bool_decide_eq_false_2 by done. cbn [negb]. by rewrite <- app_assoc.
  - apply dec_stable in H. by rewrite bool_decide_eq_true_2.
Qed.

(** C9. The remove-domains utility writes the trimmed non-empty lines
    of the master list that are not, character for character, among the
    trimmed non-empty lines of the blocklist, in the order of the master
    list, each followed by a line feed; nothing else is done to either
    list. When one of the two files is missing it writes nothing. *)
Theorem remove_domains_exact (master blocklist : list string) :
  remove_domains (Some master) (Some blocklist)
  = Some ((fun domain => domain +:+ Py.nl) <$> master_without_blocklist master blocklist)
  /\ remove_domains None (Some blocklist) = None
  /\ remove_domains (Some master) None = None.
Proof.
  split; [|done]. unfold remove_domains, filter_domains. do 2 f_equal.
  rewrite filter_domains_from. cbn [app]. unfold master_without_blocklist.
  apply list_filter_iff. intros domain. by rewrite load_removees_spec.
Qed.

(** ** The model of [urlparse] keeps single lines single *)

Lemma take_until_all (p q : ascii -> bool) (s : string) :
  Py.all q s = true -> Py.all q (Urllib.take_until p s) = true.
Proof.
  induction s as [|c s IH]; [done|]. cbn [Py.all Urllib.take_until].
  rewrite andb_true_iff. intros [Hc Hs]. destruct (p c); [done|].
  cbn [Py.all]. by rewrite Hc, IH.
Qed.

Lemma urlsplit_netloc_single_line (url host : string) :
  Urllib.urlsplit_netloc url = Returns host -> single_line host.
Proof.
  unfold Urllib.urlsplit_netloc, single_line.
  set (q := fun c => negb (Ascii.eqb c Py.LF)).
  set (url2 := Py.remove_chars Urllib.unsafe_byte
                 (Py.lstrip Urllib.c0_control_or_space url)).
  assert (Py.all q url2 = true) as H2.
  { apply (PyFacts.all_impl (fun c => negb (Urllib.unsafe_byte c)));
      [|apply PyFacts.remove_chars_all].
    intros c. unfold Urllib.unsafe_byte, q. rewrite !negb_true_iff, !orb_false_iff.
    intros [_ Hc]. apply Ascii.eqb_neq. intros ->. discriminate Hc. }
  cbv zeta.
  match goal with
  | |- context [String.eqb (Py.slice_to 2 ?u) "//"] => set (url3 := u)
  end.
  assert (Py.all q url3 = true) as H3.
  { unfold url3. destruct (Urllib.find ":" url2) as [[|i]|]; try done.
    destruct (_ && _); [|done]. by apply PyFacts.slice_from_all. }
  destruct (String.eqb (Py.slice_to 2 url3) "//"); [|by intros [= <-]].
  destruct (_ || _); [done|]. intros [= <-].
  apply take_until_all. exact (PyFacts.slice_from_all q 2 url3 H3).
Qed.

(** With this model the normalized string of a single line is a
    single line. *)
Lemma normalize_single_line (raw w : string) :
  single_line raw ->
  normalize Urllib.urlsplit_netloc (Py.strip raw) = Returns w ->
  single_line w.
Proof.
  unfold single_line. intros Hraw.
  set (q := fun c => negb (Ascii.eqb c Py.LF)) in *.
  set (s := Py.rstrip (Ascii.eqb ".") (Py.strip raw)).
  assert (Py.all q s = true) as Hs
    by (by apply PyFacts.rstrip_all_keeps, PyFacts.strip_all).
  assert (forall u, Py.all q u = true ->
            Py.all q (if Py.startswith "www." (Py.lower u)
                      then Py.slice_from 4 u else u) = true) as Hwww.
  { intros u Hu. destruct (Py.startswith _ _); [|done].
    by apply PyFacts.slice_from_all. }
  destruct (Re.re_match scheme_pattern s) eqn:E.
  - rewrite (normalize_url _ _ E). fold s.
    destruct (Urllib.urlsplit_netloc s) as [host|e] eqn:Eh; [|done].
    intros [= <-]. cbv zeta. apply Hwww. unfold Py.or_else.
    destruct (Py.truthy host); [|done].
    by apply (urlsplit_netloc_single_line s).
  - rewrite (normalize_plain _ _ E). intros [= <-]. cbv zeta. by apply Hwww.
Qed.

(** ** The scenarios of the specification, on the two models *)

Example scenario_D :
  process_domain Urllib.urlsplit_netloc Tld.sample_extract (Some "example.lt")
  = Returns (Some "example.lt", None).
Proof. reflexivity. Qed.

Example scenario_F :
  process_domain Urllib.urlsplit_netloc Tld.sample_extract (Some "a.lt")
  = Returns (None, Some "single character label").
Proof. reflexivity. Qed.

Example scenario_G :
  process_domain Urllib.urlsplit_netloc Tld.sample_extract (Some "my--site.lt")
  = Returns (None, Some "consecutive hyphens").
Proof. reflexivity. Qed.

(** A public suffix alone has no domain: the input does not resolve. *)
Example suffix_alone_is_unresolved :
  process_domain Urllib.urlsplit_netloc Tld.sample_extract (Some "gov.lt")
  = Returns (None, Some "invalid domain/suffix").
Proof. reflexivity. Qed.

(** * Further properties *)

(** ** The length validator *)

Lemma length_clean_or_fault (label : string) :
  length_clean label \/ exists reason, length_fault label reason.
Proof.
  destruct (decide (String.length label = 1%nat)) as [H1|H1].
  { right. eexists. by apply fault_single. }
  destruct (decide (63 < String.length label)%nat) as [H2|H2].
  { right. eexists. by apply fault_long. }
  left. split; [done|lia].
Qed.

Lemma length_fault_not_clean (label reason : string) :
  length_fault label reason -> ~ length_clean label.
Proof. intros H [? ?]. destruct H; [done|lia]. Qed.

Lemma length_fault_unique (label r1 r2 : string) :
  length_fault label r1 -> length_fault label r2 -> r1 = r2.
Proof. intros H1 H2. destruct H1; destruct H2; (done || lia). Qed.

Lemma length_labels_fault (label reason : string) (rest : list string) :
  length_fault label reason ->
  length_labels (label :: rest) = (false, Some reason).
Proof.
  intros H. cbn [length_labels]. destruct H as [l H|l H].
  - apply Nat.eqb_eq in H. by rewrite H.
  - assert (String.length l <> 1%nat) as H1 by lia.
    apply Nat.eqb_neq in H1. apply Nat.ltb_lt in H. by rewrite H1, H.
Qed.

Lemma length_labels_clean (label : string) (rest : list string) :
  length_clean label -> length_labels (label :: rest) = length_labels rest.
Proof.
  intros [H1 H2]. cbn [length_labels].
  apply Nat.eqb_neq in H1. rewrite H1.
  assert (~ (63 < String.length label)%nat) as H3 by lia.
  apply Nat.ltb_nlt in H3. by rewrite H3.
Qed.

Lemma length_labels_rejects (ls : list string) (reason : string) :
  length_labels ls = (false, Some reason) <->
  exists before label after,
    ls = before ++ label :: after /\ Forall length_clean before
    /\ length_fault label reason.
Proof.
  induction ls as [|l rest IH].
  - split; [done|]. intros (before & ? & ? & E & _). by destruct before.
  - destruct (length_clean_or_fault l) as [Hc|[r Hf]].
    + rewrite (length_labels_clean _ _ Hc), IH. split.
      * intros (before & label & after & -> & Hb & Hl).
        exists (l :: before), label, after. repeat split; [|done]. by constructor.
      * intros (before & label & after & E & Hb & Hl).
        destruct before as [|b before]; simplify_eq/=.
        -- by destruct (length_fault_not_clean _ _ Hl).
        -- inversion Hb; subst. by exists before, label, after.
    + rewrite (length_labels_fault _ _ rest Hf). split.
      * intros [= <-]. exists [], l, rest. repeat split; [constructor|done].
      * intros (before & label & after & E & Hb & Hl).
        destruct before as [|b before]; simplify_eq/=.
        -- by rewrite (length_fault_unique _ _ _ Hf Hl).
        -- inversion Hb; subst. by destruct (length_fault_not_clean _ _ Hf).
Qed.

Lemma length_labels_passes (ls : list string) :
  length_labels ls = (true, None) <-> Forall length_clean ls.
Proof.
  induction ls as [|l rest IH].
  - split; [constructor|done].
  - destruct (length_clean_or_fault l) as [Hc|[r Hf]].
    + rewrite (length_labels_clean _ _ Hc), IH. split.
      * by constructor.
      * by inversion 1.
    + rewrite (length_labels_fault _ _ rest Hf). split; [done|].
      inversion 1; subst. by destruct (length_fault_not_clean _ _ Hf).
Qed.

(** [split] of a string with a separator in it: the pieces before the
    separator, then the pieces after it. *)
Lemma split_concat (sep : ascii) (a b : string) :
  Py.split sep (a +:+ String sep b) = Py.split sep a ++ Py.split sep b.
Proof.
  induction a as [|c a IH].
  - rewrite PyFacts.app_nil_l. cbn [Py.split]. by rewrite Ascii.eqb_refl.
  - rewrite PyFacts.app_cons. cbn [Py.split]. rewrite IH.
    destruct (Ascii.eqb c sep); [done|].
    pose proof (PyFacts.split_nonempty sep a) as Hne.
    by destruct (Py.split sep a).
Qed.

Lemma length_labels_app (l1 l2 : list string) :
  length_labels (l1 ++ l2) =
    if (length_labels l1).1 then length_labels l2 else length_labels l1.
Proof.
  induction l1 as [|l l1 IH]; [done|]. cbn [app length_labels].
  destruct (String.length l =? 1)%nat; [done|].
  by destruct (63 <? String.length l)%nat.
Qed.

Lemma hyphen_labels_app (l1 l2 : list string) :
  hyphen_labels (l1 ++ l2) =
    if (hyphen_labels l1).1 then hyphen_labels l2 else hyphen_labels l1.
Proof.
  induction l1 as [|l l1 IH]; [done|]. cbn [app hyphen_labels].
  destruct (Py.startswith "-" l); [done|].
  destruct (Py.endswith "-" l); [done|].
  by destruct (Py.contains "--" l).
Qed.

(** X1. The length validator takes the labels in their order: it fails
    with the fault of the first label that has exactly one character
    ([single character label]) or more than 63 ([label exceeds 63
    characters]), and it passes exactly when no label has such a length.
    The empty label has neither fault, so the validator passes on the
    empty string. *)
Theorem length_rule_first_failure (domain : string) :
  (forall reason,
      is_valid_domain_length domain = (false, Some reason) <->
      exists before label after,
        labels domain = before ++ label :: after
        /\ Forall length_clean before
        /\ length_fault label reason)
  /\ (is_valid_domain_length domain = (true, None) <->
      Forall length_clean (labels domain))
  /\ (is_valid_domain_length domain = (true, None)
      \/ exists reason, is_valid_domain_length domain = (false, Some reason))
  /\ is_valid_domain_length "" = (true, None).
Proof.
  unfold is_valid_domain_length, labels. repeat split.
  - by apply length_labels_rejects.
  - by apply length_labels_rejects.
  - by apply length_labels_passes.
  - by apply length_labels_passes.
  - destruct (length_labels_total (Py.split "." domain)) as [H|(r & H & _)]; eauto.
Qed.

(** X2. Neither validator looks at the case of the letters: on the
    lower-cased string each gives the verdict, and the reason, that it
    gives on the string itself. *)
Theorem validators_ignore_case (domain : string) :
  is_valid_domain_length (Py.lower domain) = is_valid_domain_length domain
  /\ is_valid_hyphen_rules (Py.lower domain) = is_valid_hyphen_rules domain.
Proof.
  unfold is_valid_domain_length, is_valid_hyphen_rules.
  by rewrite PyFacts.split_lower, length_labels_lower, hyphen_labels_lower.
Qed.

(** X3. Both validators work label by label, so on two strings joined
    by a dot each gives what it gives on the first string when it fails
    there, and what it gives on the second string otherwise. A joined
    name passes both validators exactly when its two parts do. *)
Theorem validators_at_a_dot (a b : string) :
  is_valid_domain_length (a +:+ "." +:+ b)
  = (if (is_valid_domain_length a).1 then is_valid_domain_length b
     else is_valid_domain_length a)
  /\ is_valid_hyphen_rules (a +:+ "." +:+ b)
     = (if (is_valid_hyphen_rules a).1 then is_valid_hyphen_rules b
        else is_valid_hyphen_rules a)
  /\ (passes_validators (a +:+ "." +:+ b)
      <-> passes_validators a /\ passes_validators b).
Proof.
  unfold passes_validators, is_valid_domain_length, is_valid_hyphen_rules.
  change (a +:+ "." +:+ b) with (a +:+ String "." b).
  rewrite split_concat, length_labels_app, hyphen_labels_app.
  split; [done|]. split; [done|].
  destruct (length_labels_total (Py.split "." a)) as [Ha|(ra & Ha & _)];
    destruct (hyphen_labels_total (Py.split "." a)) as [Hb|(rb & Hb)];
    rewrite Ha, Hb; cbn [fst]; intuition congruence.
Qed.

(** ** Trimming *)

Lemma rstrip_nil_all (p : ascii -> bool) (s : string) :
  Py.rstrip p s = "" -> Py.all p s = true.
Proof.
  induction s as [|c s IH]; [done|]. cbn [Py.rstrip Py.all].
  destruct (Py.rstrip p s); [|done]. destruct (p c); [|done]. auto.
Qed.

(** What is stripped at the right end does not count. *)
Lemma rstrip_app_all (p : ascii -> bool) (s t : string) :
  Py.all p t = true -> Py.rstrip p (s +:+ t) = Py.rstrip p s.
Proof.
  intros Ht. induction s as [|c s IH].
  - rewrite PyFacts.app_nil_l. by apply PyFacts.rstrip_all.
  - rewrite PyFacts.app_cons. cbn [Py.rstrip]. by rewrite IH.
Qed.

Lemma rstrip_app_keep (p : ascii -> bool) (a b : string) :
  Py.rstrip p b <> "" -> Py.rstrip p (a +:+ b) = a +:+ Py.rstrip p b.
Proof.
  intros Hb. induction a as [|c a IH]; [done|].
  rewrite !PyFacts.app_cons. cbn [Py.rstrip]. rewrite IH.
  destruct (a +:+ Py.rstrip p b) eqn:E; [|done].
  by apply PyFacts.app_eq_nil in E as [_ ?].
Qed.

Lemma lstrip_app_all (p : ascii -> bool) (ws s : string) :
  Py.all p ws = true -> Py.lstrip p (ws +:+ s) = Py.lstrip p s.
Proof.
  induction ws as [|c ws IH]; [done|]. cbn [Py.all].
  rewrite andb_true_iff. intros [Hc Hws].
  rewrite PyFacts.app_cons. cbn [Py.lstrip]. rewrite Hc. auto.
Qed.

Lemma lstrip_app_keep (p : ascii -> bool) (s t : string) :
  Py.lstrip p s <> "" -> Py.lstrip p (s +:+ t) = Py.lstrip p s +:+ t.
Proof.
  induction s as [|c s IH]; [done|]. rewrite PyFacts.app_cons. cbn [Py.lstrip].
  destruct (p c); [auto|]. intros _. by rewrite PyFacts.app_cons.
Qed.

Lemma lstrip_idemp (p : ascii -> bool) (s : string) :
  Py.lstrip p (Py.lstrip p s) = Py.lstrip p s.
Proof.
  induction s as [|c s IH]; [done|]. cbn [Py.lstrip].
  destruct (p c) eqn:E; [done|]. cbn [Py.lstrip]. by rewrite E.
Qed.

(** White space around a string does not change what [strip] leaves. *)
Lemma strip_pad (ws1 s ws2 : string) :
  Py.all Py.isspace ws1 = true -> Py.all Py.isspace ws2 = true ->
  Py.strip (ws1 +:+ s +:+ ws2) = Py.strip s.
Proof.
  intros H1 H2. unfold Py.strip.
  rewrite <- PyFacts.app_assoc, (rstrip_app_all _ _ _ H2).
  destruct (Py.rstrip Py.isspace s) eqn:E.
  - apply rstrip_nil_all in E.
    rewrite PyFacts.rstrip_all; [done|]. by rewrite PyFacts.all_app, H1, E.
  - rewrite rstrip_app_keep by (by rewrite E). rewrite E.
    by apply lstrip_app_all.
Qed.

(** A dot after a trimmed string that is not empty stays through
    [strip], and goes with the trailing dots. *)
Lemma strip_dot (s : string) :
  Py.strip s <> "" -> Py.strip (Py.strip s +:+ ".") = Py.strip s +:+ ".".
Proof.
  intros Hne. unfold Py.strip at 1.
  rewrite rstrip_app_keep by done.
  change (Py.rstrip Py.isspace ".") with ".".
  unfold Py.strip in *. rewrite lstrip_app_keep; rewrite lstrip_idemp; done.
Qed.

(** ** The reasons of the classifier *)

Lemma validated_reason (candidate reason : string) :
  validated candidate = (None, Some reason) ->
  reason ∈ ["single character label"; "label exceeds 63 characters";
            "hyphen at start of label"; "hyphen at end of label";
            "consecutive hyphens"].
Proof.
  destruct (decide (passes_validators candidate)) as [Hp|Hn].
  - by rewrite (validated_passes _ Hp).
  - apply validated_fails in Hn as (r & -> & Hr). by intros [= <-].
Qed.

Lemma classify_reason (ext : ExtractResult) (reason : string) :
  classify ext = (None, Some reason) -> reason ∈ classifier_reasons.
Proof.
  unfold classifier_reasons.
  destruct (decide (domain ext = "")) as [Hd|Hd].
  { rewrite classify_unresolved by (by left). intros [= <-]. list_mem. }
  destruct (decide (suffix ext = "")) as [Hs|Hs].
  { rewrite classify_unresolved by (by right). intros [= <-]. list_mem. }
  destruct (decide (government_qualified ext)) as [Hg|Hg].
  { rewrite (classify_government _ Hd Hs Hg). intros H.
    apply validated_reason in H. list_mem. }
  destruct (decide (suffix ext = "lt")) as [Hlt|Hlt].
  { rewrite (classify_commercial _ Hd Hlt Hg).
    destruct (decide (subdomain ext = "")).
    - intros H. apply validated_reason in H. list_mem.
    - intros [= <-]. list_mem. }
  rewrite (classify_foreign _ Hd Hs Hg Hlt). intros [= <-]. list_mem.
Qed.

(** With a domain and a suffix the reason is never that of an
    unresolved name. *)
Lemma classify_resolved_reason (ext : ExtractResult) :
  domain ext <> "" -> suffix ext <> "" ->
  classify ext <> (None, Some "invalid domain/suffix").
Proof.
  intros Hd Hs.
  destruct (decide (government_qualified ext)) as [Hg|Hg].
  { rewrite (classify_government _ Hd Hs Hg). intros H.
    apply validated_reason in H. revert H.
    rewrite !elem_of_cons, elem_of_nil. intuition discriminate. }
  destruct (decide (suffix ext = "lt")) as [Hlt|Hlt].
  { rewrite (classify_commercial _ Hd Hlt Hg).
    destruct (decide (subdomain ext = "")); [|done].
    intros H. apply validated_reason in H. revert H.
    rewrite !elem_of_cons, elem_of_nil. intuition discriminate. }
  by rewrite (classify_foreign _ Hd Hs Hg Hlt).
Qed.

(** What [classify] accepts, and from which branch. *)
Lemma classify_accepts (ext : ExtractResult) (d : string) (r : option string) :
  classify ext = (Some d, r) ->
  r = None /\ domain ext <> "" /\ suffix ext <> "" /\ passes_validators d
  /\ ((government_qualified ext /\ d = government_candidate ext)
      \/ (~ government_qualified ext /\ suffix ext = "lt"
          /\ subdomain ext = "" /\ d = base_domain ext)).
Proof.
  destruct (decide (domain ext = "")) as [Hd|Hd].
  { by rewrite classify_unresolved by (by left). }
  destruct (decide (suffix ext = "")) as [Hs|Hs].
  { by rewrite classify_unresolved by (by right). }
  destruct (decide (government_qualified ext)) as [Hg|Hg].
  { rewrite (classify_government _ Hd Hs Hg). intros H.
    apply validated_accepts in H as (-> & -> & Hp). auto 10. }
  destruct (decide (suffix ext = "lt")) as [Hlt|Hlt].
  { rewrite (classify_commercial _ Hd Hlt Hg).
    destruct (decide (subdomain ext = "")) as [E|E]; [|done].
    intros H. apply validated_accepts in H as (-> & -> & Hp). auto 10. }
  by rewrite (classify_foreign _ Hd Hs Hg Hlt).
Qed.

(** ** The test of the characters *)

Lemma chars_match_iff (w : string) :
  Re.re_match chars_pattern w = true <->
  (w <> "" /\ Py.all domain_char w = true)
  \/ exists q, (q <> "" /\ Py.all domain_char q = true) /\ w = q +:+ Py.nl.
Proof.
  change chars_pattern
    with {| Re.body := Re.Plus (Re.Class domain_char); Re.dollar := true |}.
  rewrite ReFacts.re_match_dollar, ReFacts.Matches_Plus_Class. split.
  - intros [H|(q & -> & H)]; [by left|]. right. exists q. split; [|done].
    by apply ReFacts.Matches_Plus_Class.
  - intros [H|(q & H & ->)]; [by left|]. right. exists q. split; [done|].
    by apply ReFacts.Matches_Plus_Class.
Qed.

Lemma chars_match_single_line (w : string) :
  single_line w ->
  Re.re_match chars_pattern w = true <-> w <> "" /\ Py.all domain_char w = true.
Proof.
  intros Hline. rewrite chars_match_iff. split; [|by left].
  intros [H|(q & _ & ->)]; [done|]. by apply single_line_not_terminated in Hline.
Qed.

Lemma digit_domain_char (s : string) :
  Py.all Re.digit s = true -> Py.all domain_char s = true.
Proof.
  apply PyFacts.all_impl. intros c Hc. unfold domain_char, Re.word.
  by rewrite Hc.
Qed.

Lemma dotted_quad_domain_chars (w : string) :
  dotted_quad w -> w <> "" /\ Py.all domain_char w = true.
Proof.
  intros (a & b & c & d & [Ha Ha'] & [_ Hb] & [_ Hc] & [_ Hd] & ->). split.
  - intros [E _]%PyFacts.app_eq_nil. done.
  - rewrite !PyFacts.all_app.
    rewrite (digit_domain_char _ Ha'), (digit_domain_char _ Hb),
      (digit_domain_char _ Hc), (digit_domain_char _ Hd).
    reflexivity.
Qed.

(** ** The paths through the classifier *)

Section PathFacts.

Variable urlparse_netloc : string -> outcome string.
Variable extract : string -> ExtractResult.

Local Abbreviation norm := (normalize urlparse_netloc).
Local Abbreviation process := (process_domain urlparse_netloc extract).
Local Abbreviation reaches := (reaches_resolver urlparse_netloc).
Local Abbreviation resolves := (resolved urlparse_netloc extract).

(** [normalize] raises when, and only when, [urlparse] is called and
    raises. *)
Lemma normalize_raises (cleaned : string) (e : exn) :
  norm cleaned = Raises e <->
  has_scheme (Py.rstrip (Ascii.eqb ".") cleaned)
  /\ urlparse_netloc (Py.rstrip (Ascii.eqb ".") cleaned) = Raises e.
Proof.
  destruct (Re.re_match scheme_pattern (Py.rstrip (Ascii.eqb ".") cleaned)) eqn:E.
  - rewrite (normalize_url _ _ E). apply scheme_match_iff in E.
    destruct (urlparse_netloc _); split; (done || by intros [_ ?] || auto).
  - rewrite (normalize_plain _ _ E). split; [done|]. intros [H _].
    apply scheme_match_iff in H. congruence.
Qed.

Lemma process_domain_raises_iff (raw : option string) (e : exn) :
  process raw = Raises e <->
  exists s url,
    raw = Some s /\ url_input s url /\ urlparse_netloc url = Raises e.
Proof.
  destruct raw as [raw|].
  2:{ split; [done|]. by intros (? & ? & ? & _). }
  destruct (decide (Py.strip raw = "")) as [E|E].
  { rewrite (process_domain_blank _ _ _ E). split; [done|].
    intros (s & url & [= <-] & (Hne & _) & _). done. }
  destruct (norm (Py.strip raw)) as [w|e'] eqn:Hn.
  - rewrite (process_domain_screened _ _ _ _ E Hn). split; [done|].
    intros (s & url & [= <-] & (_ & -> & Hs) & Hr).
    assert (norm (Py.strip raw) = Raises e) as Hn' by (by apply normalize_raises).
    congruence.
  - rewrite (process_domain_raises _ _ _ _ E Hn).
    apply normalize_raises in Hn as [Hs Hr]. split.
    + intros [= <-]. by exists raw, (Py.rstrip (Ascii.eqb ".") (Py.strip raw)).
    + intros (s & url & [= <-] & (_ & -> & _) & Hr'). congruence.
Qed.

(** The reason of an input that is not blank. *)
Lemma process_domain_line_reason (raw reason : string) (d : option string) :
  Py.strip raw <> "" ->
  process (Some raw) = Returns (d, Some reason) ->
  d = None /\ reason ∈ line_reasons.
Proof.
  intros E. unfold line_reasons.
  destruct (norm (Py.strip raw)) as [w|e] eqn:Hn.
  2:{ by rewrite (process_domain_raises _ _ _ _ E Hn). }
  rewrite (process_domain_screened _ _ _ _ E Hn).
  destruct (Re.re_match ip_pattern w).
  { intros [= <- <-]. split; [done|]. list_mem. }
  destruct (Re.re_match chars_pattern w).
  2:{ intros [= <- <-]. split; [done|]. list_mem. }
  intros [= Hc]. destruct d as [d|].
  - by apply classify_accepts in Hc as [? _].
  - split; [done|]. apply classify_reason in Hc. list_mem.
Qed.

(** X4. [process_domain] raises in one case only: the input, trimmed
    and without its trailing dots, starts with a scheme and [urlparse]
    raises on it; the exception is the one of [urlparse]. In every other
    case it returns, and what it returns is a domain without a reason or
    one of the twelve reasons without a domain. *)
Theorem process_domain_raises_exactly (raw : option string) :
  (forall e,
      process raw = Raises e <->
      exists s url,
        raw = Some s /\ url_input s url /\ urlparse_netloc url = Raises e)
  /\ ((forall s url e,
         raw = Some s -> url_input s url -> urlparse_netloc url <> Raises e) ->
      exists r, process raw = Returns r)
  /\ (forall r,
        process raw = Returns r ->
        (exists d, r = (Some d, None))
        \/ (exists reason, r = (None, Some reason) /\ reason ∈ reason_vocabulary)).
Proof.
  split; [apply process_domain_raises_iff|]. split.
  - intros H. destruct (process raw) as [r|e] eqn:E; [by exists r|].
    apply process_domain_raises_iff in E as (s & url & Hs & Hu & Hr).
    by destruct (H s url e).
  - apply process_domain_shape.
Qed.

(** X5. White space before and after the input does not count: the
    padded input gets the result of the input itself. *)
Theorem process_domain_ignores_padding (ws1 raw ws2 : string) :
  Py.all Py.isspace ws1 = true -> Py.all Py.isspace ws2 = true ->
  process (Some (ws1 +:+ raw +:+ ws2)) = process (Some raw).
Proof.
  intros H1 H2. unfold process_domain. by rewrite (strip_pad _ _ _ H1 H2).
Qed.

(** X6. A dot after an input that is not blank does not count: the
    trimmed input followed by a dot gets the result of the input. *)
Theorem process_domain_ignores_trailing_dot (raw : string) :
  Py.strip raw <> "" ->
  process (Some (Py.strip raw +:+ ".")) = process (Some raw).
Proof.
  intros Hne. unfold process_domain. rewrite (strip_dot _ Hne).
  assert (Py.truthy (Py.strip raw +:+ ".") = true) as ->.
  { apply PyFacts.truthy_true. by intros [? _]%PyFacts.app_eq_nil. }
  apply PyFacts.truthy_true in Hne. rewrite Hne. cbn [negb].
  unfold normalize. by rewrite rstrip_app_all.
Qed.

(** X7. On a normalized string that is a single line the reason
    [invalid characters] is given exactly when the string is empty or
    holds a character that is neither a word character nor a hyphen nor a
    dot. *)
Theorem invalid_characters_exact (raw w : string) :
  Py.strip raw <> "" -> norm (Py.strip raw) = Returns w -> single_line w ->
  process (Some raw) = Returns (None, Some "invalid characters")
  <-> w = "" \/ Py.all domain_char w = false.
Proof.
  intros Hne Hn Hline. rewrite (process_domain_screened _ _ _ _ Hne Hn).
  assert (Re.re_match chars_pattern w = false
          <-> w = "" \/ Py.all domain_char w = false) as Hchars.
  { rewrite <- not_true_iff_false, (chars_match_single_line _ Hline).
    destruct w as [|c w]; [intuition|].
    destruct (Py.all domain_char (String c w)); intuition congruence. }
  destruct (Re.re_match ip_pattern w) eqn:Hip.
  { split; [done|]. intros H. apply Hchars in H.
    apply ip_match_iff in Hip as [Hq|(q & _ & ->)].
    - apply dotted_quad_domain_chars in Hq.
      apply (chars_match_single_line _ Hline) in Hq. congruence.
    - by apply single_line_not_terminated in Hline. }
  destruct (Re.re_match chars_pattern w).
  - split.
    + intros [= H]. apply classify_reason in H. revert H.
      unfold classifier_reasons. rewrite !elem_of_cons, elem_of_nil.
      intuition discriminate.
    + intros H. apply Hchars in H. discriminate.
  - split; [|done]. intros _. by apply Hchars.
Qed.

(** X8. An input that gets as far as the resolver has the reason
    [invalid domain/suffix] exactly when the resolver finds no domain or
    no suffix in it. *)
Theorem unresolved_exact (raw host : string) :
  reaches_resolver urlparse_netloc raw host ->
  process (Some raw) = Returns (None, Some "invalid domain/suffix")
  <-> domain (extract host) = "" \/ suffix (extract host) = "".
Proof.
  intros Hr. rewrite (process_domain_reaches _ _ _ _ Hr). split.
  - intros [= H].
    destruct (decide (domain (extract host) = "")) as [|Hd]; [by left|].
    destruct (decide (suffix (extract host) = "")) as [|Hs]; [by right|].
    by destruct (classify_resolved_reason _ Hd Hs).
  - intros H. by rewrite (classify_unresolved _ H).
Qed.

(** X9. [process_domain] accepts [d] exactly when the input resolves,
    [d] passes both validators, and either the resolved name is
    government-qualified and [d] is its candidate with the subdomain, or
    the suffix is [lt], there is no subdomain and [d] is the domain and
    the suffix. *)
Theorem acceptance_exact (raw : option string) (d : string) :
  process raw = Returns (Some d, None) <->
  exists s ext,
    raw = Some s /\ resolves s ext /\ passes_validators d
    /\ ((government_qualified ext /\ d = government_candidate ext)
        \/ (~ government_qualified ext /\ suffix ext = "lt"
            /\ subdomain ext = "" /\ d = base_domain ext)).
Proof.
  split.
  - intros H. apply process_domain_accepted in H as (s & host & -> & Hr & Hc).
    apply classify_accepts in Hc as (_ & Hd & Hs & Hp & Hb).
    exists s, (extract host). split; [done|]. split; [by exists host|]. done.
  - intros (s & ext & -> & Hres & Hp & Hb).
    pose proof Hres as (host & _ & _ & Hd & Hs).
    rewrite (resolved_classify _ _ _ _ Hres).
    destruct Hb as [(Hg & ->)|(Hg & Hlt & Hsub & ->)].
    + by rewrite (classify_government _ Hd Hs Hg), (validated_passes _ Hp).
    + rewrite (classify_commercial _ Hd Hlt Hg).
      destruct (decide (subdomain ext = "")); [|done].
      by rewrite (validated_passes _ Hp).
Qed.

(** X10. The two reasons of an empty input: [empty] is given to the
    absent input only, and [empty line] exactly to a string that is blank,
    that is empty after trimming. *)
Theorem empty_reasons_exact (raw : option string) :
  (process raw = Returns (None, Some "empty") <-> raw = None)
  /\ (process raw = Returns (None, Some "empty line")
      <-> exists s, raw = Some s /\ Py.strip s = "").
Proof.
  destruct raw as [raw|].
  2:{ split; [done|]. split; [done|]. by intros (? & ? & _). }
  destruct (decide (Py.strip raw = "")) as [E|E].
  { rewrite (process_domain_blank _ _ _ E). split; [done|].
    split; [|done]. intros _. by exists raw. }
  split; split; try done.
  - intros H. apply (process_domain_line_reason _ _ _ E) in H as [_ H].
    revert H. unfold line_reasons, classifier_reasons.
    rewrite !elem_of_cons, elem_of_nil. intuition discriminate.
  - intros H. apply (process_domain_line_reason _ _ _ E) in H as [_ H].
    revert H. unfold line_reasons, classifier_reasons.
    rewrite !elem_of_cons, elem_of_nil. intuition discriminate.
  - by intros (s & [= <-] & ?).
Qed.

End PathFacts.

(** ** The case of the letters *)

Lemma isspace_lower (c : ascii) : Py.isspace (Py.lower_char c) = Py.isspace c.
Proof. destruct c as [[] [] [] [] [] [] [] []]; reflexivity. Qed.

Lemma lower_char_idemp (c : ascii) : Py.lower_char (Py.lower_char c) = Py.lower_char c.
Proof. destruct c as [[] [] [] [] [] [] [] []]; reflexivity. Qed.

Lemma ascii_letter_lower (c : ascii) :
  Re.ascii_letter (Py.lower_char c) = Re.ascii_letter c.
Proof. destruct c as [[] [] [] [] [] [] [] []]; reflexivity. Qed.

Lemma digit_lower (c : ascii) : Re.digit (Py.lower_char c) = Re.digit c.
Proof. destruct c as [[] [] [] [] [] [] [] []]; reflexivity. Qed.

Lemma domain_char_lower (c : ascii) : domain_char (Py.lower_char c) = domain_char c.
Proof. destruct c as [[] [] [] [] [] [] [] []]; reflexivity. Qed.

Lemma colon_lower (c : ascii) : Ascii.eqb ":" (Py.lower_char c) = Ascii.eqb ":" c.
Proof. destruct c as [[] [] [] [] [] [] [] []]; reflexivity. Qed.

Lemma slash_lower (c : ascii) : Ascii.eqb "/" (Py.lower_char c) = Ascii.eqb "/" c.
Proof. destruct c as [[] [] [] [] [] [] [] []]; reflexivity. Qed.

Lemma dot_lower (c : ascii) : Ascii.eqb "." (Py.lower_char c) = Ascii.eqb "." c.
Proof. destruct c as [[] [] [] [] [] [] [] []]; reflexivity. Qed.

Lemma line_feed_lower (c : ascii) : Ascii.eqb Py.LF (Py.lower_char c) = Ascii.eqb Py.LF c.
Proof. destruct c as [[] [] [] [] [] [] [] []]; reflexivity. Qed.

Lemma lower_idemp (s : string) : Py.lower (Py.lower s) = Py.lower s.
Proof.
  induction s as [|c s IH]; [done|]. cbn [Py.lower].
  by rewrite lower_char_idemp, IH.
Qed.

Lemma truthy_lower (s : string) : Py.truthy (Py.lower s) = Py.truthy s.
Proof. by destruct s. Qed.

Lemma lstrip_lower (p : ascii -> bool) (s : string) :
  (forall c, p (Py.lower_char c) = p c) ->
  Py.lstrip p (Py.lower s) = Py.lower (Py.lstrip p s).
Proof.
  intros Hp. induction s as [|c s IH]; [done|]. cbn [Py.lower Py.lstrip].
  rewrite Hp. by destruct (p c).
Qed.

Lemma rstrip_lower (p : ascii -> bool) (s : string) :
  (forall c, p (Py.lower_char c) = p c) ->
  Py.rstrip p (Py.lower s) = Py.lower (Py.rstrip p s).
Proof.
  intros Hp. induction s as [|c s IH]; [done|]. cbn [Py.lower Py.rstrip].
  rewrite IH, Hp. destruct (Py.rstrip p s); cbn [Py.lower]; [|done].
  by destruct (p c).
Qed.

Lemma strip_lower (s : string) : Py.strip (Py.lower s) = Py.lower (Py.strip s).
Proof.
  unfold Py.strip.
  by rewrite (rstrip_lower _ _ isspace_lower), (lstrip_lower _ _ isspace_lower).
Qed.

Lemma rstrip_dots_lower (s : string) :
  Py.rstrip (Ascii.eqb ".") (Py.lower s) = Py.lower (Py.rstrip (Ascii.eqb ".") s).
Proof. apply rstrip_lower, dot_lower. Qed.

Lemma slice_from_lower (n : nat) (s : string) :
  Py.slice_from n (Py.lower s) = Py.lower (Py.slice_from n s).
Proof.
  revert s. induction n as [|n IH]; intros s; [by destruct s|].
  destruct s as [|c s]; [done|]. cbn [Py.lower Py.slice_from]. apply IH.
Qed.

Lemma case_blind_deriv (r : Re.regex) (c : ascii) :
  case_blind r -> case_blind (Re.deriv c r).
Proof.
  induction r as [| |p|r1 IH1 r2 IH2|r1 IH1 r2 IH2|r1 IH1]; cbn [Re.deriv case_blind].
  - done.
  - done.
  - intros _. by destruct (p c).
  - intros [H1 H2]. destruct (Re.nullable r1); cbn [case_blind]; auto.
  - intros [H1 H2]. auto.
  - intros H1. auto.
Qed.

Lemma deriv_lower (r : Re.regex) (c : ascii) :
  case_blind r -> Re.deriv (Py.lower_char c) r = Re.deriv c r.
Proof.
  induction r as [| |p|r1 IH1 r2 IH2|r1 IH1 r2 IH2|r1 IH1]; cbn [Re.deriv case_blind].
  - done.
  - done.
  - intros H. by rewrite H.
  - intros [H1 H2]. by rewrite (IH1 H1), (IH2 H2).
  - intros [H1 H2]. by rewrite (IH1 H1), (IH2 H2).
  - intros H1. by rewrite (IH1 H1).
Qed.

(** A case-blind expression accepts a string when it accepts its
    lower-case form. *)
Lemma accepts_lower (r : Re.regex) (s : string) :
  case_blind r -> Re.accepts r (Py.lower s) = Re.accepts r s.
Proof.
  revert r. induction s as [|c s IH]; intros r Hr; [done|].
  cbn [Py.lower Re.accepts]. rewrite (deriv_lower _ _ Hr).
  apply IH. by apply case_blind_deriv.
Qed.

Lemma re_match_lower (pat : Re.pattern) (s : string) :
  case_blind (Re.body pat) -> Re.re_match pat (Py.lower s) = Re.re_match pat s.
Proof.
  intros H. unfold Re.re_match. destruct (Re.dollar pat); apply accepts_lower.
  - cbn [case_blind Re.Chr]. repeat split; [done|]. apply line_feed_lower.
  - cbn [case_blind Re.Any]. split; [done|]. done.
Qed.

Lemma scheme_pattern_case_blind : case_blind (Re.body scheme_pattern).
Proof.
  cbn. repeat split; (apply ascii_letter_lower || apply colon_lower || apply slash_lower).
Qed.

Lemma ip_pattern_case_blind : case_blind (Re.body ip_pattern).
Proof. cbn. repeat split; (apply digit_lower || apply dot_lower). Qed.

Lemma chars_pattern_case_blind : case_blind (Re.body chars_pattern).
Proof. cbn. repeat split; apply domain_char_lower. Qed.

Section CaseFacts.

Variable urlparse_netloc : string -> outcome string.
Variable extract : string -> ExtractResult.

Local Abbreviation norm := (normalize urlparse_netloc).
Local Abbreviation process := (process_domain urlparse_netloc extract).

Lemma www_step_lower (u : string) :
  (if Py.startswith "www." (Py.lower (Py.lower u))
   then Py.slice_from 4 (Py.lower u) else Py.lower u)
  = Py.lower (if Py.startswith "www." (Py.lower u) then Py.slice_from 4 u else u).
Proof.
  rewrite lower_idemp. destruct (Py.startswith "www." (Py.lower u)); [|done].
  apply slice_from_lower.
Qed.

Lemma normalize_lower (cleaned : string) :
  (has_scheme (Py.rstrip (Ascii.eqb ".") cleaned) ->
   urlparse_netloc (Py.lower (Py.rstrip (Ascii.eqb ".") cleaned))
   = Py.lower <$> urlparse_netloc (Py.rstrip (Ascii.eqb ".") cleaned)) ->
  norm (Py.lower cleaned) = Py.lower <$> norm cleaned.
Proof.
  intros Hurl. set (s := Py.rstrip (Ascii.eqb ".") cleaned) in *.
  destruct (Re.re_match scheme_pattern s) eqn:E.
  - rewrite (normalize_url _ cleaned) by done. fold s.
    rewrite normalize_url; rewrite rstrip_dots_lower; fold s.
    2:{ by rewrite (re_match_lower _ _ scheme_pattern_case_blind). }
    rewrite Hurl by (by apply scheme_match_iff).
    destruct (urlparse_netloc s) as [host|e]; [|done].
    cbn [fmap outcome_fmap]. cbv zeta. f_equal.
    unfold Py.or_else. rewrite truthy_lower.
    destruct (Py.truthy host); apply www_step_lower.
  - rewrite (normalize_plain _ cleaned) by done. fold s.
    rewrite normalize_plain; rewrite rstrip_dots_lower; fold s.
    2:{ by rewrite (re_match_lower _ _ scheme_pattern_case_blind). }
    cbn [fmap outcome_fmap]. cbv zeta. f_equal. apply www_step_lower.
Qed.

(** X11. The result does not depend on the case of the letters of the
    input. An input that does not start with a scheme and its lower-case
    form get the same result; so does an input that starts with one when
    [urlparse] gives for the lower-case URL the lower-case form of what it
    gives for the URL. *)
Theorem process_domain_ignores_case (raw : string) :
  (has_scheme (Py.rstrip (Ascii.eqb ".") (Py.strip raw)) ->
   urlparse_netloc (Py.lower (Py.rstrip (Ascii.eqb ".") (Py.strip raw)))
   = Py.lower <$> urlparse_netloc (Py.rstrip (Ascii.eqb ".") (Py.strip raw))) ->
  process (Some (Py.lower raw)) = process (Some raw).
Proof.
  intros Hurl. unfold process_domain. rewrite strip_lower, truthy_lower.
  destruct (Py.truthy (Py.strip raw)); [|done]. cbn [negb].
  rewrite (normalize_lower _ Hurl).
  destruct (norm (Py.strip raw)) as [w|e]; [|done].
  cbn [fmap outcome_fmap]. rewrite !bind_Returns.
  rewrite (re_match_lower _ _ ip_pattern_case_blind),
    (re_match_lower _ _ chars_pattern_case_blind).
  by rewrite lower_idemp.
Qed.

End CaseFacts.

(** ** The error log and the counters of the batch driver *)

Lemma rstrip_split (p : ascii -> bool) (s : string) :
  exists t, s = Py.rstrip p s +:+ t /\ Py.all p t = true.
Proof.
  induction s as [|c s (t & Hs & Ht)]; [by exists ""|]. cbn [Py.rstrip].
  destruct (Py.rstrip p s) as [|d r] eqn:E.
  - rewrite PyFacts.app_nil_l in Hs. subst t. destruct (p c) eqn:Hc.
    + exists (String c s). split; [done|]. cbn [Py.all]. by rewrite Hc, Ht.
    + exists s. by rewrite !PyFacts.app_cons, PyFacts.app_nil_l.
  - exists t. split; [|done]. rewrite PyFacts.app_cons. by rewrite <- Hs.
Qed.

(** The line feeds that the driver takes off a line are white space:
    trimming gives the same with and without them. *)
Lemma strip_line (line : string) :
  Py.strip (Py.rstrip (Ascii.eqb Py.LF) line) = Py.strip line.
Proof.
  destruct (rstrip_split (Ascii.eqb Py.LF) line) as (t & Hl & Ht).
  rewrite Hl at 2. symmetry.
  apply (strip_pad "" (Py.rstrip (Ascii.eqb Py.LF) line) t); [done|].
  revert Ht. apply PyFacts.all_impl. intros c Hc.
  apply Ascii.eqb_eq in Hc. by subst c.
Qed.

Lemma blank_iff (line : string) : blank line <-> Py.strip line = "".
Proof. unfold blank. by rewrite strip_line. Qed.

Lemma shift_0 (e : nat * string * option string) : shift 0 e = e.
Proof. by destruct e as [[? ?] ?]. Qed.

Section LogFacts.

Variable urlparse_netloc : string -> outcome string.
Variable extract : string -> ExtractResult.

Local Abbreviation process := (process_domain urlparse_netloc extract).
Local Abbreviation step := (driver_step urlparse_netloc extract).
Local Abbreviation loop := (driver_loop urlparse_netloc extract).
Local Abbreviation run := (clean_domains urlparse_netloc extract).
Local Abbreviation line_dom := (line_domain urlparse_netloc extract).
Local Abbreviation accepted := (accepted_domains urlparse_netloc extract).
Local Abbreviation raises := (some_line_raises urlparse_netloc extract).
Local Abbreviation entry := (line_entry urlparse_netloc extract).
Local Abbreviation log := (logged urlparse_netloc extract).

(** An accepted domain is not the empty string. *)
Lemma accepted_nonempty (raw : option string) (d : string) (r : option string) :
  process raw = Returns (Some d, r) -> Py.truthy d = true.
Proof.
  intros H. apply accepted_is_valid_lt in H as (_ & _ & [p ->]).
  apply PyFacts.truthy_true. by intros [_ ?]%PyFacts.app_eq_nil.
Qed.

(** The entry of a line, in words. *)
Lemma line_entry_iff (n m : nat) (line raw_line : string) (reason : option string) :
  entry n line = Some (m, raw_line, reason) <->
  m = n /\ raw_line = Py.rstrip (Ascii.eqb Py.LF) line /\ ~ blank line
  /\ process (Some raw_line) = Returns (None, reason).
Proof.
  unfold line_entry, blank. cbv zeta.
  destruct (Py.truthy (Py.strip (Py.rstrip (Ascii.eqb Py.LF) line))) eqn:E.
  2:{ apply PyFacts.truthy_false in E. split; [done|]. by intros (_ & _ & ? & _). }
  apply PyFacts.truthy_true in E.
  destruct (process (Some (Py.rstrip (Ascii.eqb Py.LF) line))) as [[[d|] r]|e] eqn:Hp.
  - cbn [from_option]. rewrite (accepted_nonempty _ _ _ Hp). split; [done|].
    intros (_ & -> & _ & H). congruence.
  - cbn [from_option]. split.
    + intros [= <- <- <-]. done.
    + intros (-> & -> & _ & H). rewrite Hp in H. by simplify_eq.
  - split; [done|]. intros (_ & -> & _ & H). congruence.
Qed.

Lemma line_entry_shift (k n : nat) (line : string) :
  entry (k + n) line = shift k <$> entry n line.
Proof.
  unfold line_entry. cbv zeta.
  destruct (Py.truthy _); [|done].
  destruct (process _) as [[d r]|e]; [|done].
  by destruct (from_option Py.truthy false d).
Qed.

Lemma logged_shift (k n : nat) (lines : list string) :
  log (k + n) lines = shift k <$> log n lines.
Proof.
  revert n. induction lines as [|line rest IH]; intros n; [done|].
  cbn [logged]. rewrite fmap_app. rewrite <- IH, <- Nat.add_succ_r.
  f_equal. rewrite line_entry_shift. by destruct (entry (S n) line).
Qed.

Lemma logged_app (n : nat) (l1 l2 : list string) :
  log n (l1 ++ l2) = log n l1 ++ log (n + length l1) l2.
Proof.
  revert n. induction l1 as [|line rest IH]; intros n.
  - cbn. by rewrite Nat.add_0_r.
  - cbn [app logged length]. rewrite IH, <- app_assoc.
    by rewrite Nat.add_succ_r.
Qed.

(** The entries of the log are those of the rejected lines, each with
    the number of its line. *)
Lemma elem_of_logged (n m : nat) (lines : list string)
    (raw_line : string) (reason : option string) :
  (m, raw_line, reason) ∈ log n lines <->
  exists i line,
    lines !! i = Some line /\ m = (n + i + 1)%nat
    /\ raw_line = Py.rstrip (Ascii.eqb Py.LF) line /\ ~ blank line
    /\ process (Some raw_line) = Returns (None, reason).
Proof.
  revert n. induction lines as [|line rest IH]; intros n.
  { cbn. rewrite elem_of_nil. split; [done|]. by intros (i & ? & ? & _). }
  cbn [logged]. rewrite elem_of_app, IH. split.
  - intros [H|(i & l & Hl & -> & Hr)].
    + destruct (entry (S n) line) as [[[m' raw'] r']|] eqn:E;
        cbn [option_list option_rect] in H; [|by apply elem_of_nil in H].
      apply list_elem_of_singleton in H. symmetry in H. simplify_eq.
      apply line_entry_iff in E as (-> & -> & Hb & Hp).
      exists 0%nat, line. repeat split; [lia|done..].
    + exists (S i), l. repeat split; [done|lia|apply Hr..].
  - intros ([|i] & l & Hl & -> & Hraw & Hb & Hp).
    + left. cbn in Hl. simplify_eq.
      assert (entry (S n) l = Some (S n, Py.rstrip (Ascii.eqb Py.LF) l, reason)) as ->
        by (by apply line_entry_iff).
      cbn [option_list option_rect]. rewrite list_elem_of_singleton. do 2 f_equal. lia.
    + right. exists i, l. repeat split; [done|lia|done..].
Qed.

(** The line numbers of the log go up. *)
Lemma logged_bound (n m : nat) (lines : list string)
    (raw_line : string) (reason : option string) :
  (m, raw_line, reason) ∈ log n lines -> (n < m)%nat.
Proof. rewrite elem_of_logged. intros (i & _ & _ & -> & _). lia. Qed.

Lemma logged_sorted (n : nat) (lines : list string) :
  StronglySorted lt ((fun e => e.1.1) <$> log n lines).
Proof.
  revert n. induction lines as [|line rest IH]; intros n; [constructor|].
  cbn [logged]. destruct (entry (S n) line) as [[[m raw] r]|] eqn:E;
    cbn [option_list option_rect app]; [|apply IH].
  rewrite fmap_cons. constructor; [apply IH|].
  apply line_entry_iff in E as (-> & _).
  apply Forall_forall. intros k Hk.
  apply list_elem_of_fmap in Hk as ([[m raw'] r'] & -> & He).
  apply logged_bound in He. done.
Qed.

(** One turn of the loop, variable by variable. *)
Lemma driver_step_full (st : driver) (line : string) (o : option string) :
  line_dom line = Returns o ->
  exists st',
    step st line = Returns st'
    /\ cleaned st' = cleaned st ∪ from_option singleton ∅ o
    /\ errors st' = errors st ++ option_list (entry (S (line_count st)) line)
    /\ line_count st' = S (line_count st)
    /\ processed_count st'
       = (processed_count st + length (processed [line]))%nat
    /\ skipped_count st'
       = (skipped_count st + length (option_list (entry (S (line_count st)) line)))%nat
    /\ (length (processed [line])
        = size (from_option singleton (∅ : gset string) o)
          + length (option_list (entry (S (line_count st)) line)))%nat.
Proof.
  unfold line_domain, driver_step, line_entry, processed. cbv zeta.
  rewrite filter_cons, filter_nil. unfold blank.
  destruct (Py.truthy (Py.strip (Py.rstrip (Ascii.eqb Py.LF) line))) eqn:E;
    cbn [negb].
  - pose proof E as E'%PyFacts.truthy_true.
    rewrite decide_True by done.
    destruct (process (Some (Py.rstrip (Ascii.eqb Py.LF) line))) as [[d r]|e] eqn:Hp;
      [|done].
    rewrite !bind_Returns. cbn [fst]. intros [= <-].
    destruct d as [d|]; cbn [from_option default].
    + rewrite (accepted_nonempty _ _ _ Hp). eexists. split; [reflexivity|].
      cbn [cleaned errors line_count processed_count skipped_count option_list option_rect
           from_option length].
      rewrite app_nil_r, size_singleton. repeat split; lia.
    + eexists. split; [reflexivity|].
      cbn [cleaned errors line_count processed_count skipped_count option_list option_rect
           from_option length].
      rewrite (right_id_L ∅ (∪)), size_empty. repeat split; lia.
  - pose proof E as E'%PyFacts.truthy_false.
    rewrite decide_False by (by intros H; apply H).
    intros [= <-]. eexists. split; [reflexivity|].
    cbn [cleaned errors line_count processed_count skipped_count option_list option_rect
         from_option length].
    rewrite (right_id_L ∅ (∪)), app_nil_r, size_empty. repeat split; lia.
Qed.

Lemma processed_cons (line : string) (rest : list string) :
  length (processed (line :: rest))
  = (length (processed [line]) + length (processed rest))%nat.
Proof.
  unfold processed. rewrite !filter_cons, filter_nil.
  by destruct (decide (~ blank line)).
Qed.

(** The loop, variable by variable. *)
Lemma driver_loop_full (st : driver) (lines : list string) :
  ~ raises lines ->
  exists st',
    loop st lines = Returns st'
    /\ cleaned st' = cleaned st ∪ accepted lines
    /\ errors st' = errors st ++ log (line_count st) lines
    /\ line_count st' = (line_count st + length lines)%nat
    /\ processed_count st' = (processed_count st + length (processed lines))%nat
    /\ skipped_count st'
       = (skipped_count st + length (log (line_count st) lines))%nat
    /\ (size (accepted lines) + length (log (line_count st) lines)
        <= length (processed lines))%nat.
Proof.
  revert st. induction lines as [|line rest IH]; intros st H.
  { exists st. split; [done|]. unfold accepted_domains. cbn.
    rewrite (right_id_L ∅ (∪)), app_nil_r, size_empty. repeat split; lia. }
  cbn [driver_loop]. destruct (line_dom line) as [o|e] eqn:E.
  2:{ destruct H. apply Exists_cons_hd. eauto. }
  destruct (driver_step_full st _ _ E) as (st1 & -> & Hc & He & Hl & Hp & Hs & Hn).
  rewrite bind_Returns. destruct (IH st1) as (st2 & -> & Hc' & He' & Hl' & Hp' & Hs' & Hn').
  { intros Hr. apply H. by apply Exists_cons_tl. }
  exists st2. split; [done|].
  rewrite Hc', He', Hl', Hp', Hs', Hc, He, Hl, Hp, Hs.
  rewrite (accepted_cons urlparse_netloc extract), E, (processed_cons line rest).
  cbn [logged length]. rewrite length_app, <- app_assoc, (assoc_L (∪)).
  rewrite Hl in Hn'.
  repeat split; try lia.
  pose proof (size_union_alt (from_option singleton (∅ : gset string) o)
                (accepted rest)) as Hu.
  pose proof (subseteq_size (accepted rest ∖ from_option singleton ∅ o)
                (accepted rest)) as Hd.
  assert (accepted rest ∖ from_option singleton ∅ o ⊆ accepted rest) as Hsub.
  { intros x Hx. by apply elem_of_difference in Hx as [? _]. }
  specialize (Hd Hsub). lia.
Qed.

(** A run that returns, variable by variable. *)
Lemma clean_domains_full (lines : list string) (out : files) :
  run (Some lines) = Returns (Some out) ->
  ~ raises lines
  /\ cleaned (final out) = accepted lines
  /\ errors (final out) = log 0 lines
  /\ line_count (final out) = length lines
  /\ processed_count (final out) = length (processed lines)
  /\ skipped_count (final out) = length (log 0 lines)
  /\ (size (accepted lines) + length (log 0 lines) <= length (processed lines))%nat
  /\ output_file out = (fun d => d +:+ Py.nl) <$> sorted (accepted lines)
  /\ errors_file out
     = error_line <$> filter (fun e => e.2 <> Some "empty line") (log 0 lines).
Proof.
  intros Hrun. pose proof Hrun as (Hr & _ & Hout)%clean_domains_inv.
  split; [done|]. revert Hrun. unfold clean_domains.
  destruct (driver_loop_full driver_init _ Hr)
    as (st & -> & Hc & He & Hl & Hp & Hs & Hn).
  rewrite bind_Returns. intros [= <-]. cbn [final errors_file output_file].
  cbn [driver_init cleaned errors line_count processed_count skipped_count] in *.
  rewrite (left_id_L ∅ (∪)) in Hc. rewrite Hc, He, Hl, Hp, Hs. cbn [app].
  repeat split; done.
Qed.

End LogFacts.

Lemma filter_all {A : Type} (P : A -> Prop) `{!forall x, Decision (P x)} (l : list A) :
  Forall P l -> filter P l = l.
Proof.
  induction 1 as [|x l Hx Hl IH]; [done|].
  by rewrite filter_cons, decide_True, IH.
Qed.

Lemma sorted_length (s : gset string) : length (sorted s) = size s.
Proof. unfold sorted. by rewrite merge_sort_Permutation. Qed.

Section RunFacts.

Variable urlparse_netloc : string -> outcome string.
Variable extract : string -> ExtractResult.

Local Abbreviation process := (process_domain urlparse_netloc extract).
Local Abbreviation step := (driver_step urlparse_netloc extract).
Local Abbreviation loop := (driver_loop urlparse_netloc extract).
Local Abbreviation run := (clean_domains urlparse_netloc extract).
Local Abbreviation line_dom := (line_domain urlparse_netloc extract).
Local Abbreviation accepted := (accepted_domains urlparse_netloc extract).
Local Abbreviation raises := (some_line_raises urlparse_netloc extract).
Local Abbreviation entry := (line_entry urlparse_netloc extract).
Local Abbreviation log := (logged urlparse_netloc extract).

(** The reason of an entry of the log. *)
Lemma logged_reason (n : nat) (lines : list string) (e : nat * string * option string) :
  e ∈ log n lines -> exists reason, e.2 = Some reason /\ reason ∈ line_reasons.
Proof.
  destruct e as [[m raw_line] reason]. rewrite elem_of_logged.
  intros (i & line & _ & _ & -> & Hb & Hp). cbn [snd].
  destruct (process_domain_shape _ _ _ _ Hp) as [(d & [=])|(r & [= ->] & _)].
  exists r. split; [done|].
  by apply (process_domain_line_reason _ _ _ _ _ Hb) in Hp as [_ ?].
Qed.

(** X12. The error log of a run that returns holds, for each line that
    is not blank and that the classifier rejects, one entry: the number
    of the line in the input (the first line has number 1, blank lines
    are counted), the line without its line feeds, and the reason. It
    holds nothing else, and its entries stand in the order of the input:
    their line numbers go up strictly. *)
Theorem error_log_in_input_order (lines : list string) (out : files) :
  run (Some lines) = Returns (Some out) ->
  (forall n raw_line reason,
      (n, raw_line, reason) ∈ errors (final out) <->
      exists i line,
        lines !! i = Some line /\ n = S i
        /\ raw_line = Py.rstrip (Ascii.eqb Py.LF) line /\ ~ blank line
        /\ process (Some raw_line) = Returns (None, reason))
  /\ StronglySorted lt ((fun e => e.1.1) <$> errors (final out)).
Proof.
  intros (_ & _ & He & _)%clean_domains_full. rewrite He. split.
  - intros n raw_line reason. rewrite elem_of_logged.
    split; intros (i & line & Hl & Hn & Hr); exists i, line;
      (split; [done|]); (split; [lia|done]).
  - apply logged_sorted.
Qed.

(** The test that keeps [empty line] entries out of [errors.txt] finds
    none. *)
Lemma errors_file_unfiltered (lines : list string) (out : files) :
  run (Some lines) = Returns (Some out) ->
  errors_file out = error_line <$> errors (final out).
Proof.
  intros (_ & _ & He & _ & _ & _ & _ & _ & Hf)%clean_domains_full.
  rewrite He, Hf. f_equal.
  apply filter_all, Forall_forall. intros e (r & -> & Hr)%logged_reason.
  intros [= ->]. revert Hr. unfold line_reasons, classifier_reasons.
  rewrite !elem_of_cons, elem_of_nil. intuition discriminate.
Qed.

(** X13. Every entry of the error log has a reason, one of the ten that
    a line which is not blank can get, never [empty] nor [empty line]; so
    the test that keeps [empty line] entries out of [errors.txt] removes
    nothing, and every line of that file reads [Line n: reason | line]. *)
Theorem error_log_reasons (lines : list string) (out : files) :
  run (Some lines) = Returns (Some out) ->
  (forall e,
      e ∈ errors (final out) ->
      exists reason, e.2 = Some reason /\ reason ∈ line_reasons)
  /\ errors_file out = error_line <$> errors (final out)
  /\ (forall text,
        text ∈ errors_file out ->
        exists n raw_line reason,
          (n, raw_line, Some reason) ∈ errors (final out)
          /\ reason ∈ line_reasons
          /\ text = "Line " +:+ pretty n +:+ ": " +:+ reason +:+ " | "
                      +:+ raw_line +:+ Py.nl).
Proof.
  intros Hrun. rewrite (errors_file_unfiltered _ _ Hrun).
  apply clean_domains_full in Hrun as (_ & _ & He & _). rewrite He.
  split; [apply logged_reason|]. split; [done|].
  intros text ([[n raw_line] reason] & -> & Hin)%list_elem_of_fmap.
  destruct (logged_reason _ _ _ Hin) as (r & Hr & Hv). cbn [snd] in Hr. subst reason.
  by exists n, raw_line, r.
Qed.

(** X14. The counters of a run that returns: every line is counted,
    the processed lines are those that are not blank, the skipped lines
    are the entries of the error log, and each processed line is either
    skipped or accepted, so the distinct domains and the skipped lines
    together are no more than the processed lines. The primary output
    has one line for each distinct domain and [errors.txt] one line for
    each skipped line. *)
Theorem driver_counters (lines : list string) (out : files) :
  run (Some lines) = Returns (Some out) ->
  line_count (final out) = length lines
  /\ processed_count (final out) = length (processed lines)
  /\ skipped_count (final out) = length (errors (final out))
  /\ length (output_file out) = size (cleaned (final out))
  /\ length (errors_file out) = skipped_count (final out)
  /\ (size (cleaned (final out)) + skipped_count (final out)
      <= processed_count (final out))%nat
  /\ (processed_count (final out) <= line_count (final out))%nat.
Proof.
  intros Hrun.
  pose proof (errors_file_unfiltered _ _ Hrun) as Hfile.
  apply clean_domains_full in Hrun as (_ & Hc & He & Hl & Hp & Hs & Hn & Ho & _).
  rewrite Hc, He, Hl, Hp, Hs, Ho, Hfile, He.
  rewrite !length_fmap, sorted_length.
  repeat split; [done|]. unfold processed. apply length_filter.
Qed.

End RunFacts.

(** ** Blank lines, repeated lines and joined inputs *)

Lemma elem_of_trimmed_lines (d : string) (lines : list string) :
  d ∈ trimmed_lines lines <-> d <> "" /\ exists line, line ∈ lines /\ d = Py.strip line.
Proof.
  unfold trimmed_lines. rewrite list_elem_of_filter, list_elem_of_fmap.
  split; intros [? (line & ? & ?)]; eauto.
Qed.

Section InputFacts.

Variable urlparse_netloc : string -> outcome string.
Variable extract : string -> ExtractResult.

Local Abbreviation process := (process_domain urlparse_netloc extract).
Local Abbreviation step := (driver_step urlparse_netloc extract).
Local Abbreviation loop := (driver_loop urlparse_netloc extract).
Local Abbreviation run := (clean_domains urlparse_netloc extract).
Local Abbreviation line_dom := (line_domain urlparse_netloc extract).
Local Abbreviation accepted := (accepted_domains urlparse_netloc extract).
Local Abbreviation raises := (some_line_raises urlparse_netloc extract).
Local Abbreviation log := (logged urlparse_netloc extract).

Lemma driver_loop_blank (st : driver) (lines : list string) :
  Forall blank lines ->
  loop st lines =
    Returns {| cleaned := cleaned st; errors := errors st;
               processed_count := processed_count st;
               skipped_count := skipped_count st;
               line_count := (length lines + line_count st)%nat |}.
Proof.
  intros H. revert st. induction H as [|line rest Hb _ IH]; intros st.
  { by destruct st. }
  cbn [driver_loop]. unfold driver_step. cbv zeta.
  apply PyFacts.truthy_false in Hb. rewrite Hb. cbn [negb].
  rewrite bind_Returns, IH.
  cbn [cleaned errors processed_count skipped_count line_count length].
  by rewrite Nat.add_succ_r.
Qed.

(** X15. On an input of blank lines only, and so on an empty input,
    the run returns with an empty primary output and an empty error log;
    no line is processed or skipped, and every line is counted. The
    classifier is not called, so nothing can raise. *)
Theorem blank_lines_write_nothing (lines : list string) :
  Forall blank lines ->
  run (Some lines) =
    Returns (Some {| output_file := []; errors_file := [];
                     final := {| cleaned := ∅; errors := [];
                                 processed_count := 0; skipped_count := 0;
                                 line_count := length lines |} |}).
Proof.
  intros H. unfold clean_domains. rewrite (driver_loop_blank _ _ H).
  rewrite bind_Returns. cbn [cleaned errors driver_init processed_count
    skipped_count line_count]. rewrite Nat.add_0_r.
  unfold sorted. rewrite elements_empty. reflexivity.
Qed.

(** The driver looks at a line through what trimming leaves of it. *)
Lemma line_domain_strip (a b : string) :
  Py.strip a = Py.strip b -> line_dom a = line_dom b.
Proof.
  intros H. unfold line_domain, process_domain. cbv zeta.
  by rewrite !strip_line, H.
Qed.

(** A blank line adds nothing and raises nothing. *)
Lemma line_domain_blank (line : string) :
  Py.strip line = "" -> line_dom line = Returns None.
Proof.
  intros H. unfold line_domain. cbv zeta. by rewrite strip_line, H.
Qed.

(** A line that counts has its trimmed form in the trimmed lines of
    every input with the same trimmed lines. *)
Lemma same_trimmed_line (lines lines' : list string) (line : string) :
  (forall s, s ∈ trimmed_lines lines -> s ∈ trimmed_lines lines') ->
  line ∈ lines -> line_dom line <> Returns None ->
  exists line', line' ∈ lines' /\ line_dom line' = line_dom line.
Proof.
  intros Hsub Hin Hcounts.
  assert (Py.strip line ∈ trimmed_lines lines') as Hin'.
  { apply Hsub, elem_of_trimmed_lines. split; [|by eauto].
    intros Hb. by apply Hcounts, line_domain_blank. }
  apply elem_of_trimmed_lines in Hin' as (_ & line' & Hin' & Hs).
  exists line'. split; [done|]. symmetry. by apply line_domain_strip.
Qed.

Lemma raises_trimmed (lines lines' : list string) :
  (forall s, s ∈ trimmed_lines lines -> s ∈ trimmed_lines lines') ->
  raises lines -> raises lines'.
Proof.
  intros Hsub. unfold some_line_raises. rewrite !Exists_exists.
  intros (line & Hin & e & He).
  destruct (same_trimmed_line _ _ _ Hsub Hin) as (line' & Hin' & Hd);
    [by rewrite He|].
  exists line'. split; [done|]. exists e. by rewrite Hd.
Qed.

Lemma accepted_trimmed (lines lines' : list string) (d : string) :
  (forall s, s ∈ trimmed_lines lines -> s ∈ trimmed_lines lines') ->
  d ∈ accepted lines -> d ∈ accepted lines'.
Proof.
  intros Hsub. unfold accepted_domains.
  rewrite !elem_of_list_to_set, !list_elem_of_omap.
  intros (line & Hin & Hd).
  destruct (same_trimmed_line _ _ _ Hsub Hin) as (line' & Hin' & Hd').
  { intros E. by rewrite E in Hd. }
  exists line'. split; [done|]. by rewrite Hd'.
Qed.

(** X16. The primary output depends on the input only through the set
    of its trimmed lines that are not empty: two inputs with the same
    such lines, in whatever order, however often each is repeated and
    with whatever blank lines between them, end the same way, with the
    same set of domains and the same primary output. *)
Theorem output_depends_on_trimmed_lines (lines lines' : list string) :
  (forall s, s ∈ trimmed_lines lines <-> s ∈ trimmed_lines lines') ->
  (forall e, run (Some lines) = Raises e -> run (Some lines') = Raises e)
  /\ (forall out,
        run (Some lines) = Returns (Some out) ->
        exists out',
          run (Some lines') = Returns (Some out')
          /\ cleaned (final out') = cleaned (final out)
          /\ output_file out' = output_file out).
Proof.
  intros Hsame.
  assert (raises lines <-> raises lines') as Hraises.
  { split; apply raises_trimmed; intros s; apply Hsame. }
  assert (accepted lines = accepted lines') as Hacc.
  { apply set_eq. intros d. split; apply accepted_trimmed; intros s; apply Hsame. }
  split.
  - intros e Hrun. destruct (decide (raises lines)) as [Hr|Hr].
    + rewrite (exn_unique e). apply clean_domains_raises. by apply Hraises.
    + destruct (clean_domains_returns urlparse_netloc extract _ Hr) as (out & Ho & _).
      congruence.
  - intros out Hrun. apply clean_domains_inv in Hrun as (Hr & Hc & Hf).
    destruct (clean_domains_returns urlparse_netloc extract lines') as (out' & Ho' & Hc' & Hf').
    { by rewrite <- Hraises. }
    exists out'. split; [done|]. by rewrite Hc', Hf', Hc, Hf, Hacc.
Qed.

Lemma accepted_app (l1 l2 : list string) :
  accepted (l1 ++ l2) = accepted l1 ∪ accepted l2.
Proof. unfold accepted_domains. by rewrite omap_app, list_to_set_app_L. Qed.

(** X17. A run on one input followed by another: when the runs on the
    two inputs return, so does the run on the joined input; its set of
    domains is the union of their sets, and its error log is the log of
    the first followed by the log of the second with the line numbers
    moved up by the number of lines of the first. When the run on either
    input raises, the run on the joined input raises. *)
Theorem joined_inputs (l1 l2 : list string) :
  (forall out1 out2,
      run (Some l1) = Returns (Some out1) -> run (Some l2) = Returns (Some out2) ->
      exists out,
        run (Some (l1 ++ l2)) = Returns (Some out)
        /\ cleaned (final out) = cleaned (final out1) ∪ cleaned (final out2)
        /\ errors (final out)
           = errors (final out1) ++ (shift (length l1) <$> errors (final out2)))
  /\ (forall e,
        run (Some l1) = Raises e \/ run (Some l2) = Raises e ->
        run (Some (l1 ++ l2)) = Raises e).
Proof.
  split.
  - intros out1 out2 (Hr1 & Hc1 & He1 & _)%clean_domains_full
      (Hr2 & Hc2 & He2 & _)%clean_domains_full.
    destruct (clean_domains_returns urlparse_netloc extract (l1 ++ l2)) as (out & Ho & _).
    { unfold some_line_raises. rewrite Exists_app. by intros [?|?]. }
    exists out. split; [done|].
    apply clean_domains_full in Ho as (_ & Hc & He & _).
    rewrite Hc, He, Hc1, He1, Hc2, He2, accepted_app, logged_app. split; [done|].
    f_equal. cbn [Nat.add]. rewrite <- logged_shift. by rewrite Nat.add_0_r.
  - intros e H. rewrite (exn_unique e). apply clean_domains_raises.
    unfold some_line_raises. rewrite Exists_app.
    destruct H as [H|H]; [left|right].
    + destruct (decide (raises l1)) as [Hr|Hr]; [done|].
      destruct (clean_domains_returns urlparse_netloc extract _ Hr) as (out & Ho & _).
      congruence.
    + destruct (decide (raises l2)) as [Hr|Hr]; [done|].
      destruct (clean_domains_returns urlparse_netloc extract _ Hr) as (out & Ho & _).
      congruence.
Qed.

End InputFacts.

(** ** The remove-domains utility, again *)

Lemma rstrip_idemp (p : ascii -> bool) (s : string) :
  Py.rstrip p (Py.rstrip p s) = Py.rstrip p s.
Proof.
  induction s as [|c s IH]; [done|]. cbn [Py.rstrip].
  destruct (Py.rstrip p s) as [|d r] eqn:E.
  - destruct (p c) eqn:Hc; [done|]. cbn [Py.rstrip]. by rewrite Hc.
  - cbn [Py.rstrip] in *. by rewrite IH.
Qed.

Lemma rstrip_lstrip (p : ascii -> bool) (s : string) :
  Py.rstrip p (Py.lstrip p s) = Py.lstrip p (Py.rstrip p s).
Proof.
  induction s as [|c s IH]; [done|]. cbn [Py.lstrip Py.rstrip].
  destruct (p c) eqn:Hc.
  - rewrite IH. destruct (Py.rstrip p s); [done|]. cbn [Py.lstrip]. by rewrite Hc.
  - cbn [Py.rstrip]. destruct (Py.rstrip p s); cbn [Py.lstrip]; by rewrite Hc.
Qed.

(** Trimming a trimmed string changes nothing. *)
Lemma strip_idemp (s : string) : Py.strip (Py.strip s) = Py.strip s.
Proof.
  unfold Py.strip. by rewrite rstrip_lstrip, rstrip_idemp, lstrip_idemp.
Qed.

(** The line feed at the end of a line goes with the white space. *)
Lemma strip_terminated (s : string) : Py.strip (s +:+ Py.nl) = Py.strip s.
Proof. apply (strip_pad "" s Py.nl); reflexivity. Qed.

Lemma strip_written (d : string) : Py.strip (Py.strip d +:+ Py.nl) = Py.strip d.
Proof. by rewrite strip_terminated, strip_idemp. Qed.

Lemma trimmed_lines_app (l1 l2 : list string) :
  trimmed_lines (l1 ++ l2) = trimmed_lines l1 ++ trimmed_lines l2.
Proof. unfold trimmed_lines. by rewrite fmap_app, filter_app. Qed.

(** Written out and read again, trimmed lines are what they were. *)
Lemma trimmed_lines_written (ds : list string) :
  Forall (fun d => d <> "" /\ Py.strip d = d) ds ->
  trimmed_lines ((fun d => d +:+ Py.nl) <$> ds) = ds.
Proof.
  induction 1 as [|d ds [Hne Hd] _ IH]; [done|].
  rewrite fmap_cons, trimmed_lines_cons, IH.
  rewrite <- Hd, strip_written, Hd.
  apply PyFacts.truthy_true in Hne. by rewrite Hne.
Qed.

Lemma trimmed_lines_trimmed (lines : list string) :
  Forall (fun d => d <> "" /\ Py.strip d = d) (trimmed_lines lines).
Proof.
  apply Forall_forall. intros d (Hne & line & _ & ->)%elem_of_trimmed_lines.
  split; [done|]. apply strip_idemp.
Qed.

Lemma Forall_filter_keeps {A : Type} (P Q : A -> Prop) `{!forall x, Decision (P x)}
    (l : list A) :
  Forall Q l -> Forall Q (filter P l).
Proof.
  rewrite !Forall_forall. intros HQ x Hx. apply list_elem_of_filter in Hx as [_ Hx]. auto.
Qed.

(** What [remove_domains] writes when both files are there. *)
Lemma remove_domains_writes (master blocklist : list string) :
  remove_domains (Some master) (Some blocklist)
  = Some ((fun d => d +:+ Py.nl) <$> master_without_blocklist master blocklist).
Proof.
  unfold remove_domains, filter_domains. do 2 f_equal.
  rewrite filter_domains_from. cbn [app]. unfold master_without_blocklist.
  apply list_filter_iff. intros domain. by rewrite load_removees_spec.
Qed.

Lemma master_without_blocklist_app (m1 m2 blocklist : list string) :
  master_without_blocklist (m1 ++ m2) blocklist
  = master_without_blocklist m1 blocklist ++ master_without_blocklist m2 blocklist.
Proof. unfold master_without_blocklist. by rewrite trimmed_lines_app, filter_app. Qed.

Lemma master_without_blocklist_trimmed (master blocklist : list string) :
  Forall (fun d => d <> "" /\ Py.strip d = d) (master_without_blocklist master blocklist).
Proof. apply Forall_filter_keeps, trimmed_lines_trimmed. Qed.

Lemma single_line_strip (line : string) : file_line line -> single_line (Py.strip line).
Proof.
  intros (body & Hb & [->| ->]).
  - rewrite strip_terminated. by apply PyFacts.strip_all.
  - by apply PyFacts.strip_all.
Qed.

(** X18. A second pass changes nothing: the lines that the utility
    wrote, given back to it as the master list with the same blocklist,
    are written again as they are. When the lines of the master list are
    lines of a file, so are the lines written, each a string without a
    line feed followed by one line feed: read line by line, the output
    file gives back the lines written. *)
Theorem remove_domains_idempotent (master blocklist out : list string) :
  remove_domains (Some master) (Some blocklist) = Some out ->
  remove_domains (Some out) (Some blocklist) = Some out
  /\ (Forall file_line master -> Forall written_line out).
Proof.
  rewrite !remove_domains_writes. intros [= <-]. split.
  - do 2 f_equal. unfold master_without_blocklist at 1.
    rewrite trimmed_lines_written by apply master_without_blocklist_trimmed.
    unfold master_without_blocklist. rewrite list_filter_filter.
    apply list_filter_iff. tauto.
  - intros Hm. apply Forall_fmap, Forall_forall. intros d Hd. cbn.
    exists d. split; [|done]. unfold master_without_blocklist in Hd.
    apply list_elem_of_filter in Hd as [_ Hd].
    apply elem_of_trimmed_lines in Hd as (_ & line & Hin & ->).
    apply single_line_strip. rewrite Forall_forall in Hm. auto.
Qed.

(** X19. Of the blocklist only the set of its trimmed lines that are
    not empty counts: two blocklists with the same such lines, in
    whatever order, however often repeated and with whatever white space
    around them, give the same output. *)
Theorem remove_domains_blocklist_as_set (master blocklist blocklist' : list string) :
  (forall d, d ∈ trimmed_lines blocklist <-> d ∈ trimmed_lines blocklist') ->
  remove_domains (Some master) (Some blocklist)
  = remove_domains (Some master) (Some blocklist').
Proof.
  intros H. rewrite !remove_domains_writes. do 2 f_equal.
  unfold master_without_blocklist. apply list_filter_iff. intros d. by rewrite H.
Qed.

(** X20. The two ends: when no trimmed line of the master list is in
    the blocklist, as with an empty blocklist, every trimmed line of the
    master list that is not empty is written, repeated lines as often as
    they come; when every one is in the blocklist, as with the master
    list for its own blocklist, nothing is written. *)
Theorem remove_domains_all_or_nothing (master blocklist : list string) :
  ((forall d, d ∈ trimmed_lines master -> d ∉ trimmed_lines blocklist) ->
   remove_domains (Some master) (Some blocklist)
   = Some ((fun d => d +:+ Py.nl) <$> trimmed_lines master))
  /\ ((forall d, d ∈ trimmed_lines master -> d ∈ trimmed_lines blocklist) ->
      remove_domains (Some master) (Some blocklist) = Some [])
  /\ remove_domains (Some master) (Some [])
     = Some ((fun d => d +:+ Py.nl) <$> trimmed_lines master)
  /\ remove_domains (Some master) (Some master) = Some [].
Proof.
  assert (forall bl,
    (forall d, d ∈ trimmed_lines master -> d ∉ trimmed_lines bl) ->
    remove_domains (Some master) (Some bl)
    = Some ((fun d => d +:+ Py.nl) <$> trimmed_lines master)) as Hall.
  { intros bl H. rewrite remove_domains_writes. do 2 f_equal.
    unfold master_without_blocklist. apply filter_all, Forall_forall. exact H. }
  assert (forall bl,
    (forall d, d ∈ trimmed_lines master -> d ∈ trimmed_lines bl) ->
    remove_domains (Some master) (Some bl) = Some []) as Hnone.
  { intros bl H. rewrite remove_domains_writes. do 2 f_equal.
    unfold master_without_blocklist.
    destruct (filter _ _) as [|d ds] eqn:E; [done|].
    assert (d ∈ filter (fun d => d ∉ trimmed_lines bl) (trimmed_lines master)) as Hd
      by (rewrite E; left).
    apply list_elem_of_filter in Hd as [Hn Hd]. by destruct (Hn (H d Hd)). }
  split; [apply Hall|]. split; [apply Hnone|]. split.
  - apply Hall. intros d _. unfold trimmed_lines. cbn. apply not_elem_of_nil.
  - by apply Hnone.
Qed.

(** X21. The utility works line by line and blocklist entry by
    blocklist entry: what it writes for one master list followed by
    another is what it writes for the first followed by what it writes
    for the second; and removing two blocklists one after the other, the
    second from what the first pass wrote, gives what removing the two
    blocklists joined gives. *)
Theorem remove_domains_distributes (m1 m2 b1 b2 : list string) :
  (forall o1 o2,
      remove_domains (Some m1) (Some b1) = Some o1 ->
      remove_domains (Some m2) (Some b1) = Some o2 ->
      remove_domains (Some (m1 ++ m2)) (Some b1) = Some (o1 ++ o2))
  /\ (forall o1,
        remove_domains (Some m1) (Some b1) = Some o1 ->
        remove_domains (Some o1) (Some b2)
        = remove_domains (Some m1) (Some (b1 ++ b2))).
Proof.
  split.
  - intros o1 o2. rewrite !remove_domains_writes. intros [= <-] [= <-].
    by rewrite master_without_blocklist_app, fmap_app.
  - intros o1. rewrite !remove_domains_writes. intros [= <-]. do 2 f_equal.
    unfold master_without_blocklist at 1.
    rewrite trimmed_lines_written by apply master_without_blocklist_trimmed.
    unfold master_without_blocklist. rewrite list_filter_filter.
    apply list_filter_iff. intros d. rewrite trimmed_lines_app, elem_of_app. tauto.
Qed.

(** ** When a run raises, and what case the result set has *)

Section OutcomeFacts.

Variable urlparse_netloc : string -> outcome string.
Variable extract : string -> ExtractResult.

Local Abbreviation norm := (normalize urlparse_netloc).
Local Abbreviation process := (process_domain urlparse_netloc extract).
Local Abbreviation run := (clean_domains urlparse_netloc extract).
Local Abbreviation line_dom := (line_domain urlparse_netloc extract).
Local Abbreviation accepted := (accepted_domains urlparse_netloc extract).
Local Abbreviation raises := (some_line_raises urlparse_netloc extract).

Lemma line_domain_raises_iff (line : string) (e : exn) :
  line_dom line = Raises e <->
  exists url,
    url_input (Py.rstrip (Ascii.eqb Py.LF) line) url
    /\ urlparse_netloc url = Raises e.
Proof.
  unfold line_domain. cbv zeta.
  destruct (Py.truthy (Py.strip (Py.rstrip (Ascii.eqb Py.LF) line))) eqn:E.
  - destruct (process (Some (Py.rstrip (Ascii.eqb Py.LF) line))) as [r|e'] eqn:Hp.
    + rewrite bind_Returns. split; [done|]. intros (url & Hu & Hr).
      assert (process (Some (Py.rstrip (Ascii.eqb Py.LF) line)) = Raises e) as Hp'.
      { apply process_domain_raises_iff. eauto. }
      congruence.
    + rewrite bind_Raises.
      apply process_domain_raises_iff in Hp as (s & url & [= <-] & Hu & Hr).
      split.
      * intros [= <-]. eauto.
      * intros _. f_equal. by rewrite (exn_unique e), (exn_unique e').
  - apply PyFacts.truthy_false in E. split; [done|].
    by intros (url & (Hne & _) & _).
Qed.

Lemma some_line_raises_iff (lines : list string) :
  raises lines <->
  exists line url e,
    line ∈ lines /\ url_input (Py.rstrip (Ascii.eqb Py.LF) line) url
    /\ urlparse_netloc url = Raises e.
Proof.
  unfold some_line_raises. rewrite Exists_exists. split.
  - intros (line & Hin & e & (url & Hu & Hr)%line_domain_raises_iff). eauto 10.
  - intros (line & url & e & Hin & Hu & Hr). exists line. split; [done|].
    exists e. apply line_domain_raises_iff. eauto.
Qed.

(** X22. A run raises in one case only: some line of the input, taken
    without its line feeds, is a URL on which [urlparse] raises. Then
    nothing is written. In every other case the run returns and writes
    its two files; without an input file it returns and writes
    nothing. *)
Theorem run_raises_exactly (lines : list string) :
  (forall e,
      run (Some lines) = Raises e <->
      exists line url,
        line ∈ lines /\ url_input (Py.rstrip (Ascii.eqb Py.LF) line) url
        /\ urlparse_netloc url = Raises e)
  /\ ((forall line url e,
         line ∈ lines -> url_input (Py.rstrip (Ascii.eqb Py.LF) line) url ->
         urlparse_netloc url <> Raises e) ->
      exists out, run (Some lines) = Returns (Some out))
  /\ run None = Returns None.
Proof.
  split; [|split; [|done]].
  - intros e. split.
    + intros Hrun. destruct (decide (raises lines)) as [Hr|Hr].
      * apply some_line_raises_iff in Hr as (line & url & e' & Hin & Hu & Hr).
        exists line, url. by rewrite (exn_unique e), <- (exn_unique e').
      * destruct (clean_domains_returns urlparse_netloc extract _ Hr) as (out & Ho & _).
        congruence.
    + intros (line & url & Hin & Hu & Hr). rewrite (exn_unique e).
      apply clean_domains_raises. apply some_line_raises_iff. eauto 10.
  - intros H.
    destruct (clean_domains_returns urlparse_netloc extract lines) as (out & Ho & _);
      [|by exists out].
    intros (line & url & e & Hin & Hu & Hr)%some_line_raises_iff.
    by destruct (H line url e).
Qed.

(** X23. The result set holds lower-case strings only: every domain
    of the set, and every line of the primary output, is its own
    lower-case form, whatever the resolver returns. *)
Theorem result_set_is_lower_case (lines : list string) (out : files) :
  run (Some lines) = Returns (Some out) ->
  (forall d, d ∈ cleaned (final out) -> Py.lower d = d)
  /\ (forall line, line ∈ output_file out -> Py.lower line = line).
Proof.
  intros (_ & Hc & Hf)%clean_domains_inv.
  assert (forall d, d ∈ accepted lines -> Py.lower d = d) as Hlow.
  { intros d (line & d0 & r & _ & _ & ->)%accepted_domains_from_lines.
    apply lower_idemp. }
  rewrite Hc, Hf. split; [exact Hlow|].
  intros line (d & -> & Hd)%list_elem_of_fmap.
  rewrite PyFacts.lower_app, Hlow; [done|]. by apply sorted_spec.
Qed.

(** X24. A URL gets the result of its host: when the input is taken
    for a URL and [urlparse] gives a host that is not empty, has no white
    space around it, no dot at its end and no scheme at its start, the
    result for the input is the result for the host alone. *)
Theorem url_gets_the_result_of_its_host (raw url host : string) :
  url_input raw url -> urlparse_netloc url = Returns host ->
  host <> "" -> Py.strip host = host ->
  Py.rstrip (Ascii.eqb ".") host = host -> ~ has_scheme host ->
  process (Some raw) = process (Some host).
Proof.
  intros (Hne & -> & Hs) Hurl Hhost Hstrip Hdots Hplain.
  apply scheme_match_iff in Hs. rewrite <- scheme_match_iff in Hplain.
  apply not_true_is_false in Hplain.
  assert (norm (Py.strip raw)
          = Returns (if Py.startswith "www." (Py.lower host)
                     then Py.slice_from 4 host else host)) as Hn.
  { rewrite (normalize_url _ _ Hs), Hurl. cbv zeta. unfold Py.or_else.
    apply PyFacts.truthy_true in Hhost. by rewrite Hhost. }
  assert (norm (Py.strip host)
          = Returns (if Py.startswith "www." (Py.lower host)
                     then Py.slice_from 4 host else host)) as Hn'.
  { rewrite Hstrip, normalize_plain; rewrite Hdots; done. }
  rewrite (process_domain_screened _ _ _ _ Hne Hn).
  rewrite <- Hstrip in Hhost.
  by rewrite (process_domain_screened _ _ _ _ Hhost Hn').
Qed.

End OutcomeFacts.

Lemma run_raises_exactly_witness :
  exists out,
    clean_domains Urllib.urlsplit_netloc Tld.sample_extract
      (Some ["example.lt" +:+ Py.nl; "192.168.1.1"])
    = Returns (Some out).
Proof.
  destruct (run_raises_exactly Urllib.urlsplit_netloc Tld.sample_extract
              ["example.lt" +:+ Py.nl; "192.168.1.1"]) as (_ & H & _).
  apply H. intros line url e Hin (_ & -> & Hs).
  apply scheme_match_iff in Hs.
  rewrite !elem_of_cons, elem_of_nil in Hin.
  destruct Hin as [->|[->|[]]]; vm_compute in Hs; discriminate.
Defined.

Lemma result_set_is_lower_case_witness :
  exists out,
    clean_domains Urllib.urlsplit_netloc Tld.sample_extract
      (Some ["Example.LT" +:+ Py.nl; "EXAMPLE.lt" +:+ Py.nl])
    = Returns (Some out)
    /\ forall line, line ∈ output_file out -> Py.lower line = line.
Proof.
  assert (exists out,
    clean_domains Urllib.urlsplit_netloc Tld.sample_extract
      (Some ["Example.LT" +:+ Py.nl; "EXAMPLE.lt" +:+ Py.nl])
    = Returns (Some out)) as [out Hrun] by (eexists; vm_compute; reflexivity).
  exists out. split; [exact Hrun|].
  apply (result_set_is_lower_case _ _ _ _ Hrun).
Defined.

Lemma url_gets_the_result_of_its_host_witness :
  process_domain Urllib.urlsplit_netloc Tld.sample_extract
    (Some "https://www.LRV.lt/page")
  = process_domain Urllib.urlsplit_netloc Tld.sample_extract (Some "www.LRV.lt").
Proof.
  apply (url_gets_the_result_of_its_host Urllib.urlsplit_netloc Tld.sample_extract
           "https://www.LRV.lt/page" "https://www.LRV.lt/page" "www.LRV.lt").
  - split; [vm_compute; discriminate|]. split; [reflexivity|].
    apply scheme_match_iff. reflexivity.
  - reflexivity.
  - discriminate.
  - reflexivity.
  - reflexivity.
  - intros Hs. apply scheme_match_iff in Hs. vm_compute in Hs. discriminate.
Defined.

(** ** The last reason, and the members of the result set *)

Section MembershipFacts.

Variable urlparse_netloc : string -> outcome string.
Variable extract : string -> ExtractResult.

Local Abbreviation process := (process_domain urlparse_netloc extract).
Local Abbreviation run := (clean_domains urlparse_netloc extract).
Local Abbreviation line_dom := (line_domain urlparse_netloc extract).
Local Abbreviation accepted := (accepted_domains urlparse_netloc extract).

(** [classify] gives the last reason when, and only when, no branch
    before the last line is taken. *)
Lemma classify_foreign_iff (ext : ExtractResult) :
  classify ext = (None, Some "non-.lt domain") <->
  domain ext <> "" /\ suffix ext <> "" /\ suffix ext <> "lt"
  /\ suffix ext ∉ government_suffixes.
Proof.
  split.
  - intros H.
    destruct (decide (domain ext = "")) as [Hd|Hd].
    { rewrite classify_unresolved in H by (by left). discriminate. }
    destruct (decide (suffix ext = "")) as [Hs|Hs].
    { rewrite classify_unresolved in H by (by right). discriminate. }
    assert (forall c, validated c <> (None, Some "non-.lt domain")) as Hval.
    { intros c Hc. apply validated_reason in Hc. revert Hc.
      rewrite !elem_of_cons, elem_of_nil. intuition discriminate. }
    destruct (decide (government_qualified ext)) as [Hg|Hg].
    { rewrite (classify_government _ Hd Hs Hg) in H. by destruct (Hval _ H). }
    destruct (decide (suffix ext = "lt")) as [Hlt|Hlt].
    { rewrite (classify_commercial _ Hd Hlt Hg) in H.
      destruct (decide (subdomain ext = "")); [by destruct (Hval _ H)|discriminate]. }
    repeat split; [done..|]. intros Hin. apply Hg. by left.
  - intros (Hd & Hs & Hlt & Hgov). apply classify_foreign; [done..| |done].
    intros [Hg|[Hg _]]; done.
Qed.

(** X25. An input that gets as far as the resolver is rejected with
    [non-.lt domain] exactly when the resolver finds a domain and a suffix
    and the suffix is neither [lt] nor one of the four government
    suffixes: the suffix is compared with these five strings and with
    nothing else, so a name under any other suffix that ends in [.lt] gets
    this reason too. *)
Theorem non_lt_reason_exact (raw host : string) :
  reaches_resolver urlparse_netloc raw host ->
  process (Some raw) = Returns (None, Some "non-.lt domain")
  <-> domain (extract host) <> "" /\ suffix (extract host) <> ""
      /\ suffix (extract host) <> "lt"
      /\ suffix (extract host) ∉ government_suffixes.
Proof.
  intros Hr. rewrite (process_domain_reaches _ _ _ _ Hr), <- classify_foreign_iff.
  split; [by intros [= ->]|by intros ->].
Qed.

Lemma line_domain_accepts (line d : string) :
  line_dom line = Returns (Some d) <->
  ~ blank line
  /\ exists d0,
      process (Some (Py.rstrip (Ascii.eqb Py.LF) line)) = Returns (Some d0, None)
      /\ d = Py.lower d0.
Proof.
  unfold line_domain, blank. cbv zeta.
  destruct (Py.truthy (Py.strip (Py.rstrip (Ascii.eqb Py.LF) line))) eqn:E.
  2:{ apply PyFacts.truthy_false in E. split; [done|]. by intros [? _]. }
  apply PyFacts.truthy_true in E.
  destruct (process (Some (Py.rstrip (Ascii.eqb Py.LF) line))) as [[[d0|] r]|e] eqn:Hp.
  - rewrite bind_Returns. cbn [fst].
    pose proof (accepted_is_valid_lt _ _ _ _ _ Hp) as (-> & _).
    rewrite (accepted_nonempty _ _ _ _ _ Hp). split.
    + intros [= <-]. eauto.
    + intros (_ & d1 & [= <-] & ->). done.
  - rewrite bind_Returns. cbn [fst]. split; [done|]. by intros (_ & d1 & [=] & _).
  - rewrite bind_Raises. split; [done|]. by intros (_ & d1 & [=] & _).
Qed.

(** X26. The result set of a run that returns holds exactly the
    lower-case forms of the domains that [process_domain] accepts for the
    lines of the input that are not blank, each line taken without its
    line feeds; the primary output holds a line for a domain exactly when
    the set holds the domain. *)
Theorem result_set_exact (lines : list string) (out : files) :
  run (Some lines) = Returns (Some out) ->
  (forall d,
      d ∈ cleaned (final out) <->
      exists line d0,
        line ∈ lines /\ ~ blank line
        /\ process (Some (Py.rstrip (Ascii.eqb Py.LF) line)) = Returns (Some d0, None)
        /\ d = Py.lower d0)
  /\ (forall d, d +:+ Py.nl ∈ output_file out <-> d ∈ cleaned (final out)).
Proof.
  intros (_ & Hc & Hf)%clean_domains_inv. rewrite Hc, Hf. split.
  - intros d. unfold accepted_domains.
    rewrite elem_of_list_to_set, list_elem_of_omap. split.
    + intros (line & Hin & Hd). exists line.
      destruct (line_dom line) as [o|e] eqn:E; [|done]. subst o.
      apply line_domain_accepts in E as (Hb & d0 & Hp & ->). by exists d0.
    + intros (line & d0 & Hin & Hb & Hp & ->). exists line. split; [done|].
      assert (line_dom line = Returns (Some (Py.lower d0))) as ->; [|done].
      apply line_domain_accepts. eauto.
  - intros d. rewrite list_elem_of_fmap. split.
    + intros (d' & Heq & Hd). apply sorted_spec in Hd.
      assert (d = d') as ->; [|done].
      revert Heq. clear. revert d'. induction d as [|c d IH]; intros [|c' d'] H;
        try done.
      * destruct d'; discriminate.
      * destruct d; discriminate.
      * rewrite !PyFacts.app_cons in H. injection H as -> H. f_equal. auto.
    + intros Hd. exists d. split; [done|]. by apply sorted_spec.
Qed.

End MembershipFacts.

Lemma non_lt_reason_exact_witness :
  process_domain Urllib.urlsplit_netloc Tld.sample_extract (Some "example.com")
  = Returns (None, Some "non-.lt domain").
Proof.
  apply (non_lt_reason_exact Urllib.urlsplit_netloc Tld.sample_extract
           "example.com" "example.com").
  - split; [vm_compute; discriminate|].
    exists "example.com". repeat split; vm_compute; reflexivity.
  - split; [vm_compute; discriminate|]. split; [vm_compute; discriminate|].
    split; [vm_compute; discriminate|].
    change (suffix (Tld.sample_extract "example.com")) with "com".
    unfold government_suffixes. rewrite !elem_of_cons, elem_of_nil.
    intuition discriminate.
Defined.

Lemma result_set_exact_witness :
  exists out,
    clean_domains Urllib.urlsplit_netloc Tld.sample_extract
      (Some ["Example.LT" +:+ Py.nl; Py.nl; "192.168.1.1"])
    = Returns (Some out)
    /\ "example.lt" ∈ cleaned (final out).
Proof.
  assert (exists out,
    clean_domains Urllib.urlsplit_netloc Tld.sample_extract
      (Some ["Example.LT" +:+ Py.nl; Py.nl; "192.168.1.1"])
    = Returns (Some out)) as [out Hrun] by (eexists; vm_compute; reflexivity).
  exists out. split; [exact Hrun|].
  destruct (result_set_exact _ _ _ _ Hrun) as [H _]. apply H.
  exists ("Example.LT" +:+ Py.nl), "example.lt".
  split; [left|]. split; [vm_compute; discriminate|]. split; reflexivity.
Defined.

(** ** Instances of the further properties, on the two models *)

Lemma process_domain_raises_exactly_witness :
  exists r,
    process_domain Urllib.urlsplit_netloc Tld.sample_extract (Some "example.lt")
    = Returns r.
Proof.
  destruct (process_domain_raises_exactly Urllib.urlsplit_netloc Tld.sample_extract
              (Some "example.lt")) as (_ & H & _).
  apply H. intros s url e [= <-] (_ & -> & Hs).
  apply scheme_match_iff in Hs. vm_compute in Hs. discriminate.
Defined.

Lemma process_domain_ignores_padding_witness :
  process_domain Urllib.urlsplit_netloc Tld.sample_extract
    (Some ("  " +:+ "example.lt" +:+ " " +:+ Py.nl))
  = process_domain Urllib.urlsplit_netloc Tld.sample_extract (Some "example.lt").
Proof.
  apply (process_domain_ignores_padding Urllib.urlsplit_netloc Tld.sample_extract
           "  " "example.lt" (" " +:+ Py.nl)); reflexivity.
Defined.

Lemma process_domain_ignores_trailing_dot_witness :
  process_domain Urllib.urlsplit_netloc Tld.sample_extract
    (Some (Py.strip " example.lt " +:+ "."))
  = process_domain Urllib.urlsplit_netloc Tld.sample_extract (Some " example.lt ").
Proof.
  apply process_domain_ignores_trailing_dot. vm_compute. discriminate.
Defined.

Lemma invalid_characters_exact_witness :
  process_domain Urllib.urlsplit_netloc Tld.sample_extract (Some "exa mple.lt")
  = Returns (None, Some "invalid characters").
Proof.
  apply (invalid_characters_exact Urllib.urlsplit_netloc Tld.sample_extract
           "exa mple.lt" "exa mple.lt").
  - vm_compute. discriminate.
  - reflexivity.
  - reflexivity.
  - right. reflexivity.
Defined.

Lemma unresolved_exact_witness :
  process_domain Urllib.urlsplit_netloc Tld.sample_extract (Some "gov.lt")
  = Returns (None, Some "invalid domain/suffix").
Proof.
  apply (unresolved_exact Urllib.urlsplit_netloc Tld.sample_extract "gov.lt" "gov.lt").
  - split; [vm_compute; discriminate|].
    exists "gov.lt". repeat split; vm_compute; reflexivity.
  - left. reflexivity.
Defined.

Lemma process_domain_ignores_case_witness :
  process_domain Urllib.urlsplit_netloc Tld.sample_extract
    (Some (Py.lower "HTTP://WWW.LRV.LT/Page"))
  = process_domain Urllib.urlsplit_netloc Tld.sample_extract
      (Some "HTTP://WWW.LRV.LT/Page").
Proof.
  apply process_domain_ignores_case. intros _. vm_compute. reflexivity.
Defined.

Lemma error_log_in_input_order_witness :
  exists out,
    clean_domains Urllib.urlsplit_netloc Tld.sample_extract
      (Some ["example.lt" +:+ Py.nl; Py.nl; "shop.example.lt" +:+ Py.nl; "192.168.1.1"])
    = Returns (Some out)
    /\ (3%nat, "shop.example.lt", Some "non-govt subdomain") ∈ errors (final out).
Proof.
  assert (exists out,
    clean_domains Urllib.urlsplit_netloc Tld.sample_extract
      (Some ["example.lt" +:+ Py.nl; Py.nl; "shop.example.lt" +:+ Py.nl; "192.168.1.1"])
    = Returns (Some out)) as [out Hrun] by (eexists; vm_compute; reflexivity).
  exists out. split; [exact Hrun|].
  apply (error_log_in_input_order _ _ _ _ Hrun).
  exists 2%nat, ("shop.example.lt" +:+ Py.nl).
  split; [reflexivity|]. split; [reflexivity|]. split; [reflexivity|].
  split; [vm_compute; discriminate|reflexivity].
Defined.

Lemma error_log_reasons_witness :
  exists out,
    clean_domains Urllib.urlsplit_netloc Tld.sample_extract
      (Some ["example.lt" +:+ Py.nl; Py.nl; "shop.example.lt" +:+ Py.nl; "192.168.1.1"])
    = Returns (Some out)
    /\ errors_file out = error_line <$> errors (final out).
Proof.
  assert (exists out,
    clean_domains Urllib.urlsplit_netloc Tld.sample_extract
      (Some ["example.lt" +:+ Py.nl; Py.nl; "shop.example.lt" +:+ Py.nl; "192.168.1.1"])
    = Returns (Some out)) as [out Hrun] by (eexists; vm_compute; reflexivity).
  exists out. split; [exact Hrun|].
  apply (error_log_reasons _ _ _ _ Hrun).
Defined.

Lemma driver_counters_witness :
  exists out,
    clean_domains Urllib.urlsplit_netloc Tld.sample_extract
      (Some ["example.lt" +:+ Py.nl; Py.nl; "shop.example.lt" +:+ Py.nl;
             "EXAMPLE.lt" +:+ Py.nl; "192.168.1.1"])
    = Returns (Some out)
    /\ line_count (final out) = 5%nat
    /\ processed_count (final out) = 4%nat.
Proof.
  assert (exists out,
    clean_domains Urllib.urlsplit_netloc Tld.sample_extract
      (Some ["example.lt" +:+ Py.nl; Py.nl; "shop.example.lt" +:+ Py.nl;
             "EXAMPLE.lt" +:+ Py.nl; "192.168.1.1"])
    = Returns (Some out)) as [out Hrun] by (eexists; vm_compute; reflexivity).
  exists out. split; [exact Hrun|].
  destruct (driver_counters _ _ _ _ Hrun) as (Hl & Hp & _).
  rewrite Hl, Hp. split; reflexivity.
Defined.

Lemma blank_lines_write_nothing_witness :
  clean_domains Urllib.urlsplit_netloc Tld.sample_extract
    (Some [Py.nl; "  " +:+ Py.nl; ""])
  = Returns (Some {| output_file := []; errors_file := [];
                     final := {| cleaned := ∅; errors := [];
                                 processed_count := 0; skipped_count := 0;
                                 line_count := 3 |} |}).
Proof.
  apply (blank_lines_write_nothing Urllib.urlsplit_netloc Tld.sample_extract
           [Py.nl; "  " +:+ Py.nl; ""]).
  repeat constructor.
Defined.

Lemma output_depends_on_trimmed_lines_witness :
  exists out',
    clean_domains Urllib.urlsplit_netloc Tld.sample_extract
      (Some [" lrv.lt " +:+ Py.nl; Py.nl; "example.lt"; "example.lt" +:+ Py.nl])
    = Returns (Some out')
    /\ output_file out' = ["example.lt" +:+ Py.nl; "lrv.lt" +:+ Py.nl].
Proof.
  destruct (output_depends_on_trimmed_lines Urllib.urlsplit_netloc Tld.sample_extract
              ["example.lt" +:+ Py.nl; "lrv.lt"]
              [" lrv.lt " +:+ Py.nl; Py.nl; "example.lt"; "example.lt" +:+ Py.nl])
    as [_ H].
  { intros s.
    change (s ∈ ["example.lt"; "lrv.lt"] <-> s ∈ ["lrv.lt"; "example.lt"; "example.lt"]).
    rewrite !elem_of_cons, !elem_of_nil. tauto. }
  edestruct H as (out' & Hrun & _ & Hout); [vm_compute; reflexivity|].
  exists out'. split; [exact Hrun|]. rewrite Hout. vm_compute. reflexivity.
Defined.

Lemma joined_inputs_witness :
  exists out,
    clean_domains Urllib.urlsplit_netloc Tld.sample_extract
      (Some (["a.lt" +:+ Py.nl; "example.lt" +:+ Py.nl] ++ [Py.nl; "b.lt"]))
    = Returns (Some out)
    /\ errors (final out)
       = [(1%nat, "a.lt", Some "single character label");
          (4%nat, "b.lt", Some "single character label")].
Proof.
  destruct (joined_inputs Urllib.urlsplit_netloc Tld.sample_extract
              ["a.lt" +:+ Py.nl; "example.lt" +:+ Py.nl] [Py.nl; "b.lt"]) as [H _].
  edestruct H as (out & Hrun & _ & He);
    [vm_compute; reflexivity|vm_compute; reflexivity|].
  exists out. split; [exact Hrun|]. rewrite He. vm_compute. reflexivity.
Defined.

Lemma remove_domains_idempotent_witness :
  remove_domains (Some ["example.lt" +:+ Py.nl]) (Some ["lrv.lt"])
  = Some ["example.lt" +:+ Py.nl].
Proof.
  destruct (remove_domains_idempotent
              [" example.lt " +:+ Py.nl; "lrv.lt" +:+ Py.nl; Py.nl] ["lrv.lt"]
              ["example.lt" +:+ Py.nl]) as [H _].
  - vm_compute. reflexivity.
  - exact H.
Defined.

Lemma remove_domains_blocklist_as_set_witness :
  remove_domains (Some ["example.lt"; "lrv.lt"; "x.lt"]) (Some ["lrv.lt"; "x.lt"])
  = remove_domains (Some ["example.lt"; "lrv.lt"; "x.lt"])
      (Some [" x.lt "; "lrv.lt" +:+ Py.nl; "x.lt"; ""]).
Proof.
  apply remove_domains_blocklist_as_set. intros d.
  change (d ∈ ["lrv.lt"; "x.lt"] <-> d ∈ ["x.lt"; "lrv.lt"; "x.lt"]).
  rewrite !elem_of_cons, !elem_of_nil. tauto.
Defined.

Lemma remove_domains_all_or_nothing_witness :
  remove_domains (Some ["a.lt"; " a.lt "]) (Some ["a.lt" +:+ Py.nl; "b.lt"]) = Some [].
Proof.
  destruct (remove_domains_all_or_nothing ["a.lt"; " a.lt "] ["a.lt" +:+ Py.nl; "b.lt"])
    as (_ & H & _).
  apply H. intros d.
  change (d ∈ ["a.lt"; "a.lt"] -> d ∈ ["a.lt"; "b.lt"]).
  rewrite !elem_of_cons, !elem_of_nil. tauto.
Defined.

Lemma remove_domains_distributes_witness :
  remove_domains (Some ["b.lt" +:+ Py.nl; "c.lt" +:+ Py.nl]) (Some ["c.lt"])
  = remove_domains (Some ["a.lt"; "b.lt"; "c.lt"]) (Some (["a.lt"] ++ ["c.lt"])).
Proof.
  destruct (remove_domains_distributes ["a.lt"; "b.lt"; "c.lt"] [] ["a.lt"] ["c.lt"])
    as [_ H].
  apply H. vm_compute. reflexivity.
Defined.
